(** * Streaming chat client and job store of the aptitude chatbot frontend

    A shallow embedding of
      - [src/lib/streaming/sseClient.ts]   (class [SSEClient]),
      - the chat store                     ([useChatStore]: [sendMessage],
        [streamChatResponse] and its helpers),
      - the test store                     ([useTestStore]: the job actions),
      - the hook [useETLMonitoring]        (the event-source listeners),
    followed by the properties of the streaming subsystem.

    JavaScript strings are sequences of UTF-16 code units; numbers that the
    code only counts or compares are integers. The host environment
    ([fetch], the response body reader, timers, [uuidv4], [Date], the
    console, [JSON.parse]) is not code of the repository: it is either a
    parameter or a script that the functions consume. *)

From Stdlib Require Import List String Ascii NArith ZArith Bool Lia DecimalString.
Import ListNotations.

Set Implicit Arguments.

(* ================================================================== *)
(** ** JavaScript strings *)
(* ================================================================== *)

Module JS.

(** A string is the list of its UTF-16 code units. *)
Definition jsstring := list N.

(** A literal of the source, written with the characters of the file. *)
Definition str (s : string) : jsstring :=
  List.map N_of_ascii (list_ascii_of_string s).

Definition eqb (a b : jsstring) : bool :=
  if list_eq_dec N.eq_dec a b then true else false.

(** Equality of two values that may be [null] / [undefined]. *)
Definition opt_eqb (a b : option jsstring) : bool :=
  match a, b with
  | Some x, Some y => eqb x y
  | None, None => true
  | _, _ => false
  end.

(** The line feed, the separator of [buffer.split('\n')]. *)
Definition LF : N := 10.

(** [s.split('\n')]: never empty, the last element is what follows the
    last line feed. *)
Fixpoint split (s : jsstring) : list jsstring :=
  match s with
  | [] => [[]]
  | c :: s' =>
      if N.eqb c LF then [] :: split s'
      else match split s' with
           | [] => [[c]]
           | l :: ls => (c :: l) :: ls
           end
  end.

(** WhiteSpace and LineTerminator code units, the ones [trim] strips. *)
Definition isWhiteSpace (c : N) : bool :=
  existsb (N.eqb c)
    [9; 10; 11; 12; 13; 32; 160; 5760; 8192; 8193; 8194; 8195; 8196; 8197;
     8198; 8199; 8200; 8201; 8202; 8232; 8233; 8239; 8287; 12288; 65279]%N.

Fixpoint trimStart (s : jsstring) : jsstring :=
  match s with
  | [] => []
  | c :: s' => if isWhiteSpace c then trimStart s' else s
  end.

Definition trimEnd (s : jsstring) : jsstring := rev (trimStart (rev s)).

(** [s.trim()] *)
Definition trim (s : jsstring) : jsstring := trimEnd (trimStart s).

(** [s.startsWith(p)] *)
Fixpoint startsWith (s p : jsstring) {struct p} : bool :=
  match p, s with
  | [], _ => true
  | _ :: _, [] => false
  | a :: p', b :: s' => N.eqb a b && startsWith s' p'
  end.

(** [s.slice(n)] for a non-negative [n]. *)
Definition slice (n : nat) (s : jsstring) : jsstring := skipn n s.

(** A string is falsy exactly when it is empty. *)
Definition truthy (s : jsstring) : bool :=
  match s with [] => false | _ :: _ => true end.

(** [a || b] on strings. *)
Definition or_else (a b : jsstring) : jsstring := if truthy a then a else b.

(** Decimal digits of [parseInt]. *)
Definition digit (c : N) : option Z :=
  if (N.leb 48 c && N.leb c 57)%bool then Some (Z.of_N c - 48)%Z else None.

Fixpoint digits (acc : option Z) (s : jsstring) : option Z :=
  match s with
  | [] => acc
  | c :: s' =>
      match digit c with
      | Some d =>
          digits (Some (match acc with Some a => 10 * a + d | None => d end)%Z) s'
      | None => acc
      end
  end.

(** [parseInt(s, 10)]: leading white space, an optional sign, then the
    longest run of decimal digits; [None] is [NaN]. (An integer of more
    than 53 bits is rounded by the host; it is kept exact here.) *)
Definition parseInt (s : jsstring) : option Z :=
  match trimStart s with
  | [] => None
  | c :: s' =>
      if N.eqb c 45 then option_map Z.opp (digits None s')
      else if N.eqb c 43 then digits None s'
      else digits None (c :: s')
  end.

(** Decimal text of a non-negative integer, as in a template literal. *)
Definition ofN (n : N) : jsstring := str (NilEmpty.string_of_uint (N.to_uint n)).

(** ToString of an integer. *)
Definition ofZ (z : Z) : jsstring :=
  match z with
  | Z0 => str "0"
  | Zpos p => ofN (Npos p)
  | Zneg p => str "-" ++ ofN (Npos p)
  end.

End JS.

Import JS.

(** A line of text followed by its line feed. *)
Definition line (s : string) : jsstring := str s ++ [LF].

(** A text between double quotes (code unit 34), for JSON payloads. *)
Definition quoted (s : string) : jsstring := [34%N] ++ str s ++ [34%N].


(* ================================================================== *)
(** ** Values shared by the client and the stores *)
(* ================================================================== *)

(** A thrown [Error]: its [name] and its [message]. *)
Record Error := { name : jsstring; message : jsstring }.

(** [new Error(msg)] *)
Definition new_Error (msg : jsstring) : Error :=
  {| name := str "Error"; message := msg |}.

(** [error.name === 'AbortError'] *)
Definition isAbortError (e : Error) : bool := eqb (name e) (str "AbortError").

(** The outcome of an expression that may throw. *)
Inductive Result (A : Type) : Type :=
| Ok (a : A)
| Throw (e : Error).
Arguments Ok {A} a.
Arguments Throw {A} e.

(** What is passed to [console.warn], [console.debug], [console.error]. *)
Inductive LogArg : Type :=
| Text (s : jsstring)
| Thrown (e : Error).

Inductive Level : Type := warn | debug | error_level.

(** What the code asks of the host, in the order in which it asks. *)
Inductive Effect : Type :=
| Fetch                                   (* one call of [fetch] *)
| SetTimeout (ms : Z)                     (* one awaited timer *)
| Console (l : Level) (args : list LogArg).

(** Connection status reported through [onConnectionChange]. *)
Module Status.
Inductive t : Type := connecting | connected | disconnected | error.
End Status.

(** The [metadata] of a fragment and of a message: a key/value map. *)
Definition Metadata := list (jsstring * jsstring).

(** [StreamingChatResponse], the decoded payload of a [data:] line.
    The declaration is outside the sources at hand; the fields are the ones
    [onMessage] reads. *)
Module Fragment.
Inductive kind : Type := chunk | complete | error.
Record t : Type := { type : kind; content : jsstring; metadata : option Metadata }.
End Fragment.

(* ================================================================== *)
(** ** [SSEClient] (sseClient.ts) *)
(* ================================================================== *)

Module SSE.

(** How the body of a response ends: the reader reports [done], or
    [reader.read()] rejects. *)
Inductive StreamEnd : Type :=
| EndOfStream
| ReadFails (e : Error).

(** [response.body]: the decoded text of each [reader.read()], in order,
    and how the stream ends. ([TextDecoder] runs with [stream: true], so the
    text of the chunks is the text of the whole body cut at the chunk
    boundaries.) *)
Record Body : Type := { chunks : list jsstring; ending : StreamEnd }.

(** What one call of [fetch] does. *)
Inductive FetchOutcome : Type :=
| FetchRejects (e : Error)
| FetchResponds (ok : bool) (status : Z) (statusText : jsstring)
                (body : option Body).

(** One connection attempt as the environment plays it: the outcome of the
    [fetch], and whether [disconnect()] is called while the client waits
    for the retry timer after that attempt failed. *)
Record Attempt : Type := {
  outcome : FetchOutcome;
  disconnectDuringBackoff : bool
}.

(** How an [async] method ends. [Pending]: the script holds no further
    attempt, the awaited [fetch] has not settled. *)
Inductive Settled : Type :=
| Resolved
| Rejected (e : Error)
| Pending.

Section Client.

(** The state that the callbacks of the owner act on, and how the host
    effects of the client (console, timers, fetch) are recorded in it. *)
Variable S : Type.
Variable host : Effect -> S -> S.

(** [JSON.parse] at the type the source declares for its result;
    [Throw] is the [SyntaxError] of a text that is not JSON. *)
Variable JSON_parse : jsstring -> Result Fragment.t.

(** [SSEClientOptions]. The request ([url], [data], [headers]) only reaches
    [fetch], whose outcome the script gives; it is not represented.
    [onMessage] returns the state it leaves and the error it throws, if
    any. *)
Record SSEClientOptions : Type := {
  onMessage : option (Fragment.t -> S -> S * option Error);
  onError : option (Error -> S -> S);
  onComplete : option (S -> S);
  onConnectionChange : option (Status.t -> S -> S);
  retryAttempts : option Z;
  retryDelay : option Z
}.

Record AbortController : Type := { aborted : bool }.

Record SSEClient : Type := {
  abortController : option AbortController;
  retryCount : Z;
  isConnected : bool;
  options : SSEClientOptions
}.

(** [{ retryAttempts: 3, retryDelay: 1000, ...options }] *)
Definition new_SSEClient (o : SSEClientOptions) : SSEClient :=
  {| abortController := None;
     retryCount := 0;
     isConnected := false;
     options :=
       {| onMessage := onMessage o;
          onError := onError o;
          onComplete := onComplete o;
          onConnectionChange := onConnectionChange o;
          retryAttempts :=
            match retryAttempts o with Some n => Some n | None => Some 3%Z end;
          retryDelay :=
            match retryDelay o with Some d => Some d | None => Some 1000%Z end |} |}.

Definition set_abortController (a : option AbortController) (c : SSEClient) :=
  {| abortController := a; retryCount := retryCount c;
     isConnected := isConnected c; options := options c |}.

Definition set_retryCount (n : Z) (c : SSEClient) :=
  {| abortController := abortController c; retryCount := n;
     isConnected := isConnected c; options := options c |}.

Definition set_isConnected (b : bool) (c : SSEClient) :=
  {| abortController := abortController c; retryCount := retryCount c;
     isConnected := b; options := options c |}.

Definition set_retryDelay (d : option Z) (c : SSEClient) :=
  {| abortController := abortController c; retryCount := retryCount c;
     isConnected := isConnected c;
     options :=
       {| onMessage := onMessage (options c);
          onError := onError (options c);
          onComplete := onComplete (options c);
          onConnectionChange := onConnectionChange (options c);
          retryAttempts := retryAttempts (options c);
          retryDelay := d |} |}.

(** [this.options.onConnectionChange?.(status)] *)
Definition fire_onConnectionChange (status : Status.t) (c : SSEClient) (s : S) : S :=
  match onConnectionChange (options c) with
  | Some h => h status s
  | None => s
  end.

(** [this.options.onComplete?.()] *)
Definition fire_onComplete (c : SSEClient) (s : S) : S :=
  match onComplete (options c) with
  | Some h => h s
  | None => s
  end.

(** [this.options.onError?.(error)] *)
Definition fire_onError (e : Error) (c : SSEClient) (s : S) : S :=
  match onError (options c) with
  | Some h => h e s
  | None => s
  end.

(** [this.options.onMessage?.(parsed)] *)
Definition fire_onMessage (f : Fragment.t) (c : SSEClient) (s : S) : S * option Error :=
  match onMessage (options c) with
  | Some h => h f s
  | None => (s, None)
  end.

(** [processLine]. The [try] of the [data:] branch encloses both
    [JSON.parse] and the call of [onMessage]; its [catch] logs and
    returns. *)
Definition processLine (line : jsstring) (cs : SSEClient * S) : SSEClient * S :=
  let (c, s) := cs in
  let trimmedLine := trim line in
  if negb (truthy trimmedLine) || startsWith trimmedLine (str ":") then cs
  else if startsWith trimmedLine (str "data: ") then
    let data := slice 6 trimmedLine in
    if eqb data (str "[DONE]") then (c, fire_onComplete c s)
    else
      let failed (e : Error) (s' : S) :=
        (c, host (Console warn [Text (str "Failed to parse SSE message:");
                                Thrown e; Text (str "Raw data:"); Text data]) s') in
      match JSON_parse data with
      | Throw e => failed e s
      | Ok parsed =>
          match fire_onMessage parsed c s with
          | (s', None) => (c, s')
          | (s', Some e) => failed e s'
          end
      end
  else if startsWith trimmedLine (str "event: ") then
    let eventType := slice 7 trimmedLine in
    (c, host (Console debug [Text (str "SSE event type:"); Text eventType]) s)
  else if startsWith trimmedLine (str "retry: ") then
    match parseInt (slice 7 trimmedLine) with
    | Some retryMs => (set_retryDelay (Some retryMs) c, s)
    | None => cs
    end
  else cs.

(** [for (const line of lines) await this.processLine(line)] *)
Definition processLines (lines : list jsstring) (cs : SSEClient * S) : SSEClient * S :=
  fold_left (fun acc l => processLine l acc) lines cs.

(** The reads of [processStream] that deliver text: append to the buffer,
    split, keep the last piece ([lines.pop() || '']), process the others.
    Returns the buffer left over with the state. *)
Fixpoint readLoop (chunks : list jsstring) (buffer : jsstring)
    (cs : SSEClient * S) : SSEClient * S * jsstring :=
  match chunks with
  | [] => (cs, buffer)
  | value :: rest =>
      let buffer1 := buffer ++ value in
      let lines := split buffer1 in
      let buffer2 := or_else (last lines []) [] in
      readLoop rest buffer2 (processLines (removelast lines) cs)
  end.

(** [processStream]: the read loop, then [onComplete] when the reader
    reports [done] or the error of the failing read; the [finally] block
    runs in both cases. *)
Definition processStream (body : Body) (cs : SSEClient * S) : option Error * (SSEClient * S) :=
  let '((c, s), _) := readLoop (chunks body) [] cs in
  let '(thrown, s1) :=
    match ending body with
    | EndOfStream => (None, fire_onComplete c s)
    | ReadFails e => (Some e, s)
    end in
  let c1 := set_isConnected false c in
  (thrown, (c1, fire_onConnectionChange Status.disconnected c1 s1)).

(** [disconnect] *)
Definition disconnect (cs : SSEClient * S) : SSEClient * S :=
  let (c, s) := cs in
  let c1 := match abortController c with
            | Some _ => set_abortController None c
            | None => c
            end in
  let c2 := set_isConnected false c1 in
  (c2, fire_onConnectionChange Status.disconnected c2 s).

(** [this.options.retryAttempts || 3] *)
Definition retryBudget (c : SSEClient) : Z :=
  match retryAttempts (options c) with
  | Some 0%Z | None => 3%Z
  | Some n => n
  end.

(** [this.options.retryDelay || 1000] *)
Definition baseDelay (c : SSEClient) : Z :=
  match retryDelay (options c) with
  | Some 0%Z | None => 1000%Z
  | Some d => d
  end.

(** The [try] block of [attemptConnection] after the [fetch] has settled:
    the thrown error, if any, with the state at the throw. *)
Definition tryConnection (o : FetchOutcome) (cs : SSEClient * S) : option Error * (SSEClient * S) :=
  let (c, s) := cs in
  match o with
  | FetchRejects e => (Some e, cs)
  | FetchResponds ok status statusText body =>
      if negb ok then
        (Some (new_Error (str "HTTP " ++ ofZ status ++ str ": " ++ statusText)), cs)
      else
        match body with
        | None =>
            (Some (new_Error (str "Response body is not available for streaming")), cs)
        | Some b =>
            let c1 := set_isConnected true c in
            processStream b (c1, fire_onConnectionChange Status.connected c1 s)
        end
  end.

(** The text of the retry warning. *)
Definition retryWarning (c : SSEClient) : jsstring :=
  str "SSE connection failed, retrying (" ++ ofZ (retryCount c) ++ str "/"
  ++ match retryAttempts (options c) with
     | Some n => ofZ n
     | None => str "undefined"
     end
  ++ str ")...".

(** [attemptConnection]. Each call performs one [fetch] and takes its
    outcome from the head of the script; the result carries the attempts
    of the script that were never made. *)
Fixpoint attemptConnection (script : list Attempt) (c : SSEClient) (s : S)
    : Settled * (SSEClient * S) * list Attempt :=
  match abortController c with
  | None => (Rejected (new_Error (str "Connection aborted")), (c, s), script)
  | Some _ =>
      let s0 := host Fetch (fire_onConnectionChange Status.connecting c s) in
      match script with
      | [] => (Pending, (c, s0), [])
      | a :: script' =>
          match tryConnection (outcome a) (c, s0) with
          | (None, cs1) => (Resolved, cs1, script')
          | (Some err, (c1, s1)) =>
              if isAbortError err then (Resolved, (c1, s1), script')
              else
                let c2 := set_isConnected false c1 in
                let s2 := fire_onConnectionChange Status.error c2 s1 in
                if Z.ltb (retryCount c2) (retryBudget c2) then
                  let c3 := set_retryCount (retryCount c2 + 1) c2 in
                  let s3 := host (Console warn [Text (retryWarning c3); Thrown err]) s2 in
                  let s4 := host (SetTimeout (baseDelay c3 * retryCount c3)) s3 in
                  let (c5, s5) :=
                    if disconnectDuringBackoff a then disconnect (c3, s4)
                    else (c3, s4) in
                  match abortController c5 with
                  | Some ac =>
                      if negb (aborted ac) then attemptConnection script' c5 s5
                      else (Resolved, (c5, s5), script')
                  | None => (Resolved, (c5, s5), script')
                  end
                else
                  (Rejected err, (c2, fire_onError err c2 s2), script')
          end
      end
  end.

(** [connect] *)
Definition connect (script : list Attempt) (c : SSEClient) (s : S)
    : Settled * (SSEClient * S) * list Attempt :=
  let c1 := set_abortController (Some {| aborted := false |}) c in
  let c2 := set_retryCount 0 c1 in
  attemptConnection script c2 s.

(** [isActive] *)
Definition isActive (c : SSEClient) : bool :=
  isConnected c && match abortController c with Some _ => true | None => false end.

(** [getRetryCount] *)
Definition getRetryCount (c : SSEClient) : Z := retryCount c.

End Client.

End SSE.

(* ================================================================== *)
(** ** The chat store ([useChatStore]) *)
(* ================================================================== *)

(** The [feedback] of a message; [rating] is [true] for ['positive']. *)
Module Feedback.
Record t : Type := { rating : bool; comment : option jsstring; timestamp : jsstring }.
End Feedback.

Module Message.
Inductive Role : Type := user | assistant.
(** [Message]; the declaration is outside the sources at hand, the fields
    are the ones the store writes. *)
Record t : Type := {
  id : jsstring;
  content : jsstring;
  role : Role;
  timestamp : jsstring;
  isStreaming : bool;
  feedback : option Feedback.t;
  metadata : option Metadata
}.
End Message.

Module Conversation.
Record t : Type := {
  id : jsstring;
  messages : list Message.t;
  createdAt : jsstring;
  updatedAt : jsstring
}.
End Conversation.

(** The host of the store: [uuidv4()] and [new Date().toISOString()] answer
    from two sources, one value per call, and the effects of the client and
    of [console.error] are appended to [effects]. *)
Record World : Type := {
  uuid_source : nat -> jsstring;
  uuid_calls : nat;
  date_source : nat -> jsstring;
  date_calls : nat;
  effects : list Effect
}.

Definition uuidv4 (w : World) : jsstring * World :=
  (uuid_source w (uuid_calls w),
   {| uuid_source := uuid_source w; uuid_calls := S (uuid_calls w);
      date_source := date_source w; date_calls := date_calls w;
      effects := effects w |}).

(** [new Date().toISOString()] *)
Definition Date_now (w : World) : jsstring * World :=
  (date_source w (date_calls w),
   {| uuid_source := uuid_source w; uuid_calls := uuid_calls w;
      date_source := date_source w; date_calls := S (date_calls w);
      effects := effects w |}).

Definition perform (e : Effect) (w : World) : World :=
  {| uuid_source := uuid_source w; uuid_calls := uuid_calls w;
     date_source := date_source w; date_calls := date_calls w;
     effects := effects w ++ [e] |}.

(** [l.map(f)] for an [f] that reads the host. *)
Fixpoint mapW (A : Type) (f : A -> World -> A * World) (l : list A) (w : World)
    : list A * World :=
  match l with
  | [] => ([], w)
  | x :: r =>
      let (y, w1) := f x w in
      let (r', w2) := mapW f r w1 in
      (y :: r', w2)
  end.

(** Truthiness of a string that may be [null] or [undefined]. *)
Definition truthy_opt (o : option jsstring) : bool :=
  match o with Some s => truthy s | None => false end.

Module Chat.

(** The store keeps a reference to the client object. *)
Inductive SSEClientRef : Type := ClientObject.

Record ChatState : Type := {
  conversations : list Conversation.t;
  currentConversationId : option jsstring;
  currentConversation : option Conversation.t;
  isStreaming : bool;
  isLoading : bool;
  error : option jsstring;
  streamingMessage : option Message.t;
  connectionStatus : Status.t;
  sseClient : option SSEClientRef
}.

(** The initial state of the store. *)
Definition initialState : ChatState :=
  {| conversations := []; currentConversationId := None;
     currentConversation := None; isStreaming := false; isLoading := false;
     error := None; streamingMessage := None;
     connectionStatus := Status.disconnected; sseClient := None |}.

(** [set({ field: value })], one definition per field. *)
Definition set_conversations v (st : ChatState) :=
  {| conversations := v; currentConversationId := currentConversationId st;
     currentConversation := currentConversation st; isStreaming := isStreaming st;
     isLoading := isLoading st; error := error st;
     streamingMessage := streamingMessage st;
     connectionStatus := connectionStatus st; sseClient := sseClient st |}.
Definition set_currentConversationId v (st : ChatState) :=
  {| conversations := conversations st; currentConversationId := v;
     currentConversation := currentConversation st; isStreaming := isStreaming st;
     isLoading := isLoading st; error := error st;
     streamingMessage := streamingMessage st;
     connectionStatus := connectionStatus st; sseClient := sseClient st |}.
Definition set_currentConversation v (st : ChatState) :=
  {| conversations := conversations st;
     currentConversationId := currentConversationId st;
     currentConversation := v; isStreaming := isStreaming st;
     isLoading := isLoading st; error := error st;
     streamingMessage := streamingMessage st;
     connectionStatus := connectionStatus st; sseClient := sseClient st |}.
Definition set_isStreaming v (st : ChatState) :=
  {| conversations := conversations st;
     currentConversationId := currentConversationId st;
     currentConversation := currentConversation st; isStreaming := v;
     isLoading := isLoading st; error := error st;
     streamingMessage := streamingMessage st;
     connectionStatus := connectionStatus st; sseClient := sseClient st |}.
Definition set_isLoading v (st : ChatState) :=
  {| conversations := conversations st;
     currentConversationId := currentConversationId st;
     currentConversation := currentConversation st; isStreaming := isStreaming st;
     isLoading := v; error := error st;
     streamingMessage := streamingMessage st;
     connectionStatus := connectionStatus st; sseClient := sseClient st |}.
Definition set_error v (st : ChatState) :=
  {| conversations := conversations st;
     currentConversationId := currentConversationId st;
     currentConversation := currentConversation st; isStreaming := isStreaming st;
     isLoading := isLoading st; error := v;
     streamingMessage := streamingMessage st;
     connectionStatus := connectionStatus st; sseClient := sseClient st |}.
Definition set_streamingMessage v (st : ChatState) :=
  {| conversations := conversations st;
     currentConversationId := currentConversationId st;
     currentConversation := currentConversation st; isStreaming := isStreaming st;
     isLoading := isLoading st; error := error st;
     streamingMessage := v;
     connectionStatus := connectionStatus st; sseClient := sseClient st |}.
Definition set_connectionStatus v (st : ChatState) :=
  {| conversations := conversations st;
     currentConversationId := currentConversationId st;
     currentConversation := currentConversation st; isStreaming := isStreaming st;
     isLoading := isLoading st; error := error st;
     streamingMessage := streamingMessage st;
     connectionStatus := v; sseClient := sseClient st |}.
Definition set_sseClient v (st : ChatState) :=
  {| conversations := conversations st;
     currentConversationId := currentConversationId st;
     currentConversation := currentConversation st; isStreaming := isStreaming st;
     isLoading := isLoading st; error := error st;
     streamingMessage := streamingMessage st;
     connectionStatus := connectionStatus st; sseClient := v |}.

(** The store and its host. *)
Definition Env : Type := (ChatState * World)%type.

(** [createMessage(content, role, isStreaming)] *)
Definition createMessage (content : jsstring) (role : Message.Role)
    (isStreaming : bool) (w : World) : Message.t * World :=
  let (i, w1) := uuidv4 w in
  let (t, w2) := Date_now w1 in
  ({| Message.id := i; Message.content := content; Message.role := role;
      Message.timestamp := t; Message.isStreaming := isStreaming;
      Message.feedback := None; Message.metadata := None |}, w2).

(** [createConversation(initialMessage)] *)
Definition createConversation (initialMessage : option Message.t) (w : World)
    : Conversation.t * World :=
  let (i, w1) := uuidv4 w in
  let (t1, w2) := Date_now w1 in
  let (t2, w3) := Date_now w2 in
  ({| Conversation.id := i;
      Conversation.messages :=
        match initialMessage with Some m => [m] | None => [] end;
      Conversation.createdAt := t1; Conversation.updatedAt := t2 |}, w3).

(** [{ ...c, messages: g(c.messages), updatedAt: new Date().toISOString() }] *)
Definition touch (g : list Message.t -> list Message.t) (c : Conversation.t)
    (w : World) : Conversation.t * World :=
  let (t, w1) := Date_now w in
  ({| Conversation.id := Conversation.id c;
      Conversation.messages := g (Conversation.messages c);
      Conversation.createdAt := Conversation.createdAt c;
      Conversation.updatedAt := t |}, w1).

(** [conversations.map((c) => c.id === cid ? touched : c)] *)
Definition touchWhere (cid : option jsstring)
    (g : list Message.t -> list Message.t) (l : list Conversation.t) (w : World)
    : list Conversation.t * World :=
  mapW (fun c w0 =>
          if opt_eqb (Some (Conversation.id c)) cid then touch g c w0
          else (c, w0)) l w.

(** [messages.map((m) => m.id === mid ? m' : m)] *)
Definition replaceMessage (mid : jsstring) (m' : Message.t)
    (l : list Message.t) : list Message.t :=
  List.map (fun m => if eqb (Message.id m) mid then m' else m) l.

(** The [TypeError] of [state.currentConversation!.messages] on [null]. *)
Definition nullMessages : Error :=
  {| name := str "TypeError";
     message := str "Cannot read properties of null (reading 'messages')" |}.

(** [addMessageToConversation(conversationId, message)]. The second
    property reads [state.currentConversation!.messages], which throws when
    the ids agree and there is no current conversation; [set] is then not
    reached. *)
Definition addMessageToConversation (conversationId : option jsstring)
    (message : Message.t) (env : Env) : Env * option Error :=
  let (st, w) := env in
  let (convs, w1) :=
    touchWhere conversationId (fun ms => ms ++ [message]) (conversations st) w in
  if opt_eqb (currentConversationId st) conversationId then
    match currentConversation st with
    | None => ((st, w1), Some nullMessages)
    | Some cur =>
        let (cur', w2) := touch (fun ms => ms ++ [message]) cur w1 in
        ((set_currentConversation (Some cur') (set_conversations convs st), w2), None)
    end
  else
    ((set_currentConversation (currentConversation st)
        (set_conversations convs st), w1), None).

(** The replacement that [updateStreamingMessage] and
    [completeStreamingMessage] share: in the conversations whose id is the
    current id, and in the current conversation, the messages with the id of
    the streaming message become [m']. *)
Definition replaceStreaming (sm m' : Message.t) (next : option Message.t)
    (env : Env) : Env :=
  let (st, w) := env in
  let g := replaceMessage (Message.id sm) m' in
  let (convs, w1) := touchWhere (currentConversationId st) g (conversations st) w in
  let (cur, w2) :=
    match currentConversation st with
    | Some c => let (c', w') := touch g c w1 in (Some c', w')
    | None => (None, w1)
    end in
  (set_currentConversation cur
     (set_conversations convs (set_streamingMessage next st)), w2).

(** [updateStreamingMessage(content)] *)
Definition updateStreamingMessage (content : jsstring) (env : Env) : Env :=
  let (st, w) := env in
  match streamingMessage st with
  | None => env
  | Some sm =>
      if negb (truthy_opt (currentConversationId st)) then env
      else
        let updatedMessage :=
          {| Message.id := Message.id sm; Message.content := content;
             Message.role := Message.role sm;
             Message.timestamp := Message.timestamp sm;
             Message.isStreaming := Message.isStreaming sm;
             Message.feedback := Message.feedback sm;
             Message.metadata := Message.metadata sm |} in
        replaceStreaming sm updatedMessage (Some updatedMessage) env
  end.

(** [completeStreamingMessage(finalContent, metadata)] *)
Definition completeStreamingMessage (finalContent : jsstring)
    (metadata : option Metadata) (env : Env) : Env :=
  let (st, w) := env in
  match streamingMessage st with
  | None => env
  | Some sm =>
      if negb (truthy_opt (currentConversationId st)) then env
      else
        let completedMessage :=
          {| Message.id := Message.id sm; Message.content := finalContent;
             Message.role := Message.role sm;
             Message.timestamp := Message.timestamp sm;
             Message.isStreaming := false;
             Message.feedback := Message.feedback sm;
             Message.metadata := metadata |} in
        replaceStreaming sm completedMessage None env
  end.

(** [setConnectionStatus(status)] *)
Definition setConnectionStatus (status : Status.t) (env : Env) : Env :=
  let (st, w) := env in (set_connectionStatus status st, w).

(** One call of [streamChatResponse]: the store with its host, and the two
    variables that the callbacks of the call close over. *)
Record Turn : Type := {
  env : Env;
  accumulatedContent : jsstring;
  finalMetadata : option Metadata
}.

Definition store (t : Turn) : ChatState := fst (env t).
Definition world (t : Turn) : World := snd (env t).

(** The effects of the client land in the host of the store. *)
Definition host (e : Effect) (t : Turn) : Turn :=
  {| env := (store t, perform e (world t));
     accumulatedContent := accumulatedContent t;
     finalMetadata := finalMetadata t |}.

(** [onConnectionChange] of [streamChatResponse] *)
Definition onConnectionChange (status : Status.t) (t : Turn) : Turn :=
  {| env := setConnectionStatus status (env t);
     accumulatedContent := accumulatedContent t;
     finalMetadata := finalMetadata t |}.

(** [onMessage] of [streamChatResponse] *)
Definition onMessage (data : Fragment.t) (t : Turn) : Turn * option Error :=
  match Fragment.type data with
  | Fragment.chunk =>
      let acc := accumulatedContent t ++ Fragment.content data in
      ({| env := updateStreamingMessage acc (env t);
          accumulatedContent := acc;
          finalMetadata := finalMetadata t |}, None)
  | Fragment.complete =>
      ({| env := env t;
          accumulatedContent :=
            if truthy (Fragment.content data) then Fragment.content data
            else accumulatedContent t;
          finalMetadata := Fragment.metadata data |}, None)
  | Fragment.error => (t, Some (new_Error (Fragment.content data)))
  end.

(** [onComplete] of [streamChatResponse] *)
Definition onComplete (t : Turn) : Turn :=
  let (st, w) :=
    completeStreamingMessage (accumulatedContent t) (finalMetadata t) (env t) in
  {| env :=
       (set_sseClient None (set_streamingMessage None (set_isStreaming false st)), w);
     accumulatedContent := accumulatedContent t;
     finalMetadata := finalMetadata t |}.

(** [onError] of [streamChatResponse]. The first [set] clears
    [streamingMessage]; [get()] is read after it. *)
Definition onError (err : Error) (t : Turn) : Turn :=
  let w := perform (Console error_level
                      [Text (str "SSE streaming error:"); Thrown err]) (world t) in
  let errorMessage := or_else (message err) (str "Streaming failed") in
  let state :=
    set_sseClient None
      (set_connectionStatus Status.error
         (set_error (Some errorMessage)
            (set_streamingMessage None (set_isStreaming false (store t))))) in
  let env' :=
    match streamingMessage state with
    | None => (state, w)
    | Some sm =>
        if truthy_opt (currentConversationId state) then
          match find (fun c => opt_eqb (Some (Conversation.id c))
                                 (currentConversationId state))
                     (conversations state) with
          | None => (state, w)
          | Some conversation =>
              let updatedMessages :=
                filter (fun m => negb (eqb (Message.id m) (Message.id sm)))
                       (Conversation.messages conversation) in
              let (convs, w1) :=
                touchWhere (currentConversationId state)
                  (fun _ => updatedMessages) (conversations state) w in
              let cur :=
                if opt_eqb (currentConversationId state)
                     (Some (Conversation.id conversation))
                then Some {| Conversation.id := Conversation.id conversation;
                             Conversation.messages := updatedMessages;
                             Conversation.createdAt :=
                               Conversation.createdAt conversation;
                             Conversation.updatedAt :=
                               Conversation.updatedAt conversation |}
                else currentConversation state in
              (set_currentConversation cur (set_conversations convs state), w1)
          end
        else (state, w)
    end in
  {| env := env';
     accumulatedContent := accumulatedContent t;
     finalMetadata := finalMetadata t |}.

(** The options that [streamChatResponse] gives to [new SSEClient]. *)
Definition chatOptions : SSE.SSEClientOptions Turn :=
  {| SSE.onMessage := Some onMessage;
     SSE.onError := Some onError;
     SSE.onComplete := Some onComplete;
     SSE.onConnectionChange := Some onConnectionChange;
     SSE.retryAttempts := Some 3%Z;
     SSE.retryDelay := Some 1000%Z |}.

Definition chatClient : SSE.SSEClient Turn := SSE.new_SSEClient chatOptions.

(** [ChatRequest] *)
Record ChatRequest : Type := {
  request_message : jsstring;
  conversation_id : option jsstring
}.

(** [stopStreaming]. The [disconnect()] of the client held by the store
    reaches the store through the [onConnectionChange] of that client. *)
Definition stopStreaming (e : Env) : Env :=
  let (st, w) := e in
  let st1 := match sseClient st with
             | Some _ => set_connectionStatus Status.disconnected st
             | None => st
             end in
  (set_sseClient None
     (set_connectionStatus Status.disconnected
        (set_streamingMessage None (set_isStreaming false st1))), w).

Section Stream.

Variable JSON_parse : jsstring -> Result Fragment.t.

(** [sseClient.connect()] for the client of one turn. *)
Definition connectChat (script : list SSE.Attempt) (t : Turn) :=
  SSE.connect host JSON_parse script chatClient t.

(** [streamChatResponse(chatRequest)]. A client left in the store by an
    earlier call is disconnected first, which reports [disconnected]
    through its own [onConnectionChange]. *)
Definition streamChatResponse (script : list SSE.Attempt)
    (chatRequest : ChatRequest) (e : Env)
    : SSE.Settled * Env * list SSE.Attempt :=
  let (state, w) := e in
  let e1 : Env :=
    match sseClient state with
    | Some _ => (set_connectionStatus Status.disconnected state, w)
    | None => e
    end in
  let (streamingMessage, w2) := createMessage [] Message.assistant true (snd e1) in
  let conversationId :=
    if truthy_opt (conversation_id chatRequest) then conversation_id chatRequest
    else currentConversationId state in
  let '(e3, thrown) :=
    if truthy_opt conversationId then
      match addMessageToConversation conversationId streamingMessage (fst e1, w2) with
      | (e', Some err) => (e', Some err)
      | ((st', w'), None) =>
          ((set_streamingMessage (Some streamingMessage) st', w'), None)
      end
    else ((fst e1, w2), None) in
  match thrown with
  | Some err => (SSE.Rejected err, e3, script)
  | None =>
      let t := {| env := (set_sseClient (Some ClientObject) (fst e3), snd e3);
                  accumulatedContent := [];
                  finalMetadata := None |} in
      match connectChat script t with
      | (r, (_, t'), rest) => (r, env t', rest)
      end
  end.

(** [sendMessage(messageContent)] *)
Definition sendMessage (script : list SSE.Attempt) (messageContent : jsstring)
    (e : Env) : SSE.Settled * Env * list SSE.Attempt :=
  let (state, w) := e in
  if isStreaming state then
    (SSE.Rejected (new_Error (str "Cannot send message while streaming")), e, script)
  else if negb (truthy (trim messageContent)) then
    (SSE.Rejected (new_Error (str "Message cannot be empty")), e, script)
  else
    let st1 := set_error None (set_isLoading true state) in
    let (userMessage, w1) := createMessage messageContent Message.user false w in
    let '(e2, conversationId, thrown) :=
      match currentConversation state with
      | None =>
          let (conversation, w2) := createConversation (Some userMessage) w1 in
          let cid := Some (Conversation.id conversation) in
          ((set_currentConversationId cid
              (set_currentConversation (Some conversation)
                 (set_conversations (conversations st1 ++ [conversation]) st1)),
            w2), cid, None)
      | Some _ =>
          let (e', thrown) :=
            addMessageToConversation (currentConversationId state) userMessage
              (st1, w1) in
          (e', currentConversationId state, thrown)
      end in
    let '(r, (st3, w3), rest) :=
      match thrown with
      | Some err => (SSE.Rejected err, e2, script)
      | None =>
          let e3 : Env :=
            (set_connectionStatus Status.connecting
               (set_isStreaming true (set_isLoading false (fst e2))), snd e2) in
          let chatRequest :=
            {| request_message := messageContent;
               conversation_id :=
                 if truthy_opt conversationId then conversationId else None |} in
          streamChatResponse script chatRequest e3
      end in
    match r with
    | SSE.Rejected err =>
        let errorMessage := or_else (message err) (str "Failed to send message") in
        (SSE.Rejected err,
         (set_connectionStatus Status.error
            (set_error (Some errorMessage)
               (set_isStreaming false (set_isLoading false st3))), w3),
         rest)
    | _ => (r, (st3, w3), rest)
    end.

End Stream.

End Chat.

(* ================================================================== *)
(** ** The job actions of the test store ([useTestStore]) *)
(* ================================================================== *)

Module Tests.

Inductive JobStatus : Type := pending | running | completed | failed | cancelled.

(** [ProcessingJob]; the declaration is outside the sources at hand, the
    fields are those of the jobs built in the tests of the store. *)
Record ProcessingJob : Type := {
  jobId : jsstring;
  status : JobStatus;
  progress : Z;
  currentStep : jsstring;
  errorMessage : option jsstring;
  estimatedCompletion : option jsstring;
  createdAt : jsstring;
  updatedAt : jsstring
}.

(** [Partial<ProcessingJob>]: [None] is a property that is not there. *)
Record JobUpdate : Type := {
  u_jobId : option jsstring;
  u_status : option JobStatus;
  u_progress : option Z;
  u_currentStep : option jsstring;
  u_errorMessage : option jsstring;
  u_estimatedCompletion : option jsstring;
  u_createdAt : option jsstring;
  u_updatedAt : option jsstring
}.

Definition over (A : Type) (old : A) (new : option A) : A :=
  match new with Some v => v | None => old end.

Definition over_opt (A : Type) (old new : option A) : option A :=
  match new with Some v => Some v | None => old end.

(** [{ ...job, ...updates }] *)
Definition merge (job : ProcessingJob) (updates : JobUpdate) : ProcessingJob :=
  {| jobId := over (jobId job) (u_jobId updates);
     status := over (status job) (u_status updates);
     progress := over (progress job) (u_progress updates);
     currentStep := over (currentStep job) (u_currentStep updates);
     errorMessage := over_opt (errorMessage job) (u_errorMessage updates);
     estimatedCompletion :=
       over_opt (estimatedCompletion job) (u_estimatedCompletion updates);
     createdAt := over (createdAt job) (u_createdAt updates);
     updatedAt := over (updatedAt job) (u_updatedAt updates) |}.

(** A whole job passed where a [Partial<ProcessingJob>] is expected. *)
Definition asUpdate (job : ProcessingJob) : JobUpdate :=
  {| u_jobId := Some (jobId job); u_status := Some (status job);
     u_progress := Some (progress job); u_currentStep := Some (currentStep job);
     u_errorMessage := errorMessage job;
     u_estimatedCompletion := estimatedCompletion job;
     u_createdAt := Some (createdAt job); u_updatedAt := Some (updatedAt job) |}.

(** The part of [TestState] that the job actions read and write. *)
Record TestState : Type := {
  processingJobs : list ProcessingJob;
  isLoadingJobs : bool;
  jobsError : option jsstring
}.

Definition set_processingJobs (l : list ProcessingJob) (st : TestState) :=
  {| processingJobs := l; isLoadingJobs := isLoadingJobs st;
     jobsError := jobsError st |}.

(** [updateJobStatus(jobId, updates)]; the listeners pass [update.jobId],
    which is [undefined] ([None]) when the payload has no such property. *)
Definition updateJobStatus (id : option jsstring) (updates : JobUpdate)
    (st : TestState) : TestState :=
  let updatedJobs :=
    List.map (fun job => if opt_eqb (Some (jobId job)) id then merge job updates
                         else job)
             (processingJobs st) in
  set_processingJobs updatedJobs st.

(** [updatedJobs[existingJobIndex] = job] at the first job with the id. *)
Fixpoint replaceFirst (job : ProcessingJob) (l : list ProcessingJob)
    : option (list ProcessingJob) :=
  match l with
  | [] => None
  | j :: r =>
      if eqb (jobId j) (jobId job) then Some (job :: r)
      else option_map (cons j) (replaceFirst job r)
  end.

(** [addJob(job)] *)
Definition addJob (job : ProcessingJob) (st : TestState) : TestState :=
  match replaceFirst job (processingJobs st) with
  | Some updatedJobs => set_processingJobs updatedJobs st
  | None => set_processingJobs (job :: processingJobs st) st
  end.

(** [removeJob(jobId)] *)
Definition removeJob (id : jsstring) (st : TestState) : TestState :=
  set_processingJobs
    (filter (fun job => negb (eqb (jobId job) id)) (processingJobs st)) st.

Definition jobIds (st : TestState) : list jsstring :=
  List.map jobId (processingJobs st).

End Tests.

(* ================================================================== *)
(** ** The listeners of [useETLMonitoring] *)
(* ================================================================== *)

Module ETL.

Import Tests.

(** The payload of an unnamed message: [{ type, job?, jobId? }]. *)
Record JobMessage : Type := {
  m_type : jsstring;
  m_job : option ProcessingJob;
  m_jobId : option jsstring
}.

(** What the event source delivers to the hook. *)
Inductive Event : Type :=
| Open
| Unnamed (data : jsstring)              (* [onmessage] *)
| Failure                                (* [onerror] *)
| Named (event : jsstring) (data : jsstring).

(** The refs of the hook: whether an event source is held, the reconnect
    counter, and the delay of the pending reconnect timer. *)
Record Hook : Type := {
  eventSourceRef : bool;
  reconnectAttemptsRef : Z;
  reconnectTimeoutRef : option Z
}.

(** The hook, the store it writes to, and the console. *)
Record Sys : Type := {
  hook : Hook;
  tests : TestState;
  console : list Effect
}.

Section Listeners.

(** [JSON.parse(event.data)] at the three types at which the listeners use
    the result; [Throw] is what the [try] block of a listener throws before
    it reaches the store. *)
Variable JSON_parse_message : jsstring -> Result JobMessage.
Variable JSON_parse_job : jsstring -> Result ProcessingJob.
Variable JSON_parse_update : jsstring -> Result JobUpdate.

Variable reconnectInterval : Z.
Variable maxReconnectAttempts : Z.

Definition with_tests (f : TestState -> TestState) (s : Sys) : Sys :=
  {| hook := hook s; tests := f (tests s); console := console s |}.

Definition console_error (what : string) (e : Error) (s : Sys) : Sys :=
  {| hook := hook s; tests := tests s;
     console := console s ++ [Console error_level [Text (str what); Thrown e]] |}.

(** [cond && value]: the value when the condition holds. *)
Definition guard (A : Type) (cond : bool) (value : option A) : option A :=
  if cond then value else None.

(** [handleJobUpdate(data)] *)
Definition handleJobUpdate (data : JobMessage) (st : TestState) : TestState :=
  match guard (eqb (m_type data) (str "job_update")) (m_job data) with
  | Some job => updateJobStatus (Some (jobId job)) (asUpdate job) st
  | None =>
      match guard (eqb (m_type data) (str "job_created")) (m_job data) with
      | Some job => addJob job st
      | None =>
          match guard (eqb (m_type data) (str "job_removed")) (m_jobId data) with
          | Some id => if truthy id then removeJob id st else st
          | None => st
          end
      end
  end.

(** [eventSource.onopen] *)
Definition onopen (s : Sys) : Sys :=
  {| hook := {| eventSourceRef := eventSourceRef (hook s);
                reconnectAttemptsRef := 0;
                reconnectTimeoutRef := reconnectTimeoutRef (hook s) |};
     tests := tests s; console := console s |}.

(** [eventSource.onmessage] *)
Definition onmessage (data : jsstring) (s : Sys) : Sys :=
  match JSON_parse_message data with
  | Ok d => with_tests (handleJobUpdate d) s
  | Throw e => console_error "Failed to parse ETL job update:" e s
  end.

(** [eventSource.onerror]: close, forget the source, and schedule a
    reconnect while the budget lasts. *)
Definition onerror (s : Sys) : Sys :=
  let h := hook s in
  let retry := Z.ltb (reconnectAttemptsRef h) maxReconnectAttempts in
  {| hook := {| eventSourceRef := false;
                reconnectAttemptsRef :=
                  if retry then reconnectAttemptsRef h + 1
                  else reconnectAttemptsRef h;
                reconnectTimeoutRef :=
                  if retry then Some reconnectInterval
                  else reconnectTimeoutRef h |};
     tests := tests s;
     console := console s ++ [Console error_level
                                [Text (str "ETL monitoring error:")]] |}.

(** The listener of [job_started] *)
Definition on_job_started (data : jsstring) (s : Sys) : Sys :=
  match JSON_parse_job data with
  | Ok job => with_tests (addJob job) s
  | Throw e => console_error "Failed to parse job_started event:" e s
  end.

(** The listener of [job_progress] *)
Definition on_job_progress (data : jsstring) (s : Sys) : Sys :=
  match JSON_parse_update data with
  | Ok update => with_tests (updateJobStatus (u_jobId update) update) s
  | Throw e => console_error "Failed to parse job_progress event:" e s
  end.

(** [{ ...update, status }], and [progress] when given. *)
Definition withStatus (st : JobStatus) (p : option Z) (u : JobUpdate) : JobUpdate :=
  {| u_jobId := u_jobId u; u_status := Some st;
     u_progress := over_opt (u_progress u) p;
     u_currentStep := u_currentStep u; u_errorMessage := u_errorMessage u;
     u_estimatedCompletion := u_estimatedCompletion u;
     u_createdAt := u_createdAt u; u_updatedAt := u_updatedAt u |}.

(** The listener of [job_completed] *)
Definition on_job_completed (data : jsstring) (s : Sys) : Sys :=
  match JSON_parse_update data with
  | Ok update =>
      with_tests (updateJobStatus (u_jobId update)
                    (withStatus completed (Some 100%Z) update)) s
  | Throw e => console_error "Failed to parse job_completed event:" e s
  end.

(** The listener of [job_failed] *)
Definition on_job_failed (data : jsstring) (s : Sys) : Sys :=
  match JSON_parse_update data with
  | Ok update =>
      with_tests (updateJobStatus (u_jobId update) (withStatus failed None update)) s
  | Throw e => console_error "Failed to parse job_failed event:" e s
  end.

(** The listener of [job_cancelled] *)
Definition on_job_cancelled (data : jsstring) (s : Sys) : Sys :=
  match JSON_parse_update data with
  | Ok update =>
      with_tests (updateJobStatus (u_jobId update)
                    (withStatus cancelled None update)) s
  | Throw e => console_error "Failed to parse job_cancelled event:" e s
  end.

(** The dispatch of the event source: a named event reaches the listener
    registered for its name, and no other. *)
Definition deliver (ev : Event) (s : Sys) : Sys :=
  match ev with
  | Open => onopen s
  | Unnamed data => onmessage data s
  | Failure => onerror s
  | Named event data =>
      if eqb event (str "job_started") then on_job_started data s
      else if eqb event (str "job_progress") then on_job_progress data s
      else if eqb event (str "job_completed") then on_job_completed data s
      else if eqb event (str "job_failed") then on_job_failed data s
      else if eqb event (str "job_cancelled") then on_job_cancelled data s
      else s
  end.

End Listeners.

End ETL.

(* ================================================================== *)
(** ** Vocabulary of the statements *)
(* ================================================================== *)

Module Observe.

Import Chat.

(** The first conversation with a given id, as [conversations.find]. *)
Definition findConversation (cid : jsstring) (st : ChatState) : option Conversation.t :=
  find (fun c => eqb (Conversation.id c) cid) (conversations st).

(** The first message with id [mid] of the first conversation with id
    [cid]. *)
Definition lookupMessage (cid mid : jsstring) (st : ChatState) : option Message.t :=
  match findConversation cid st with
  | Some c => find (fun m => eqb (Message.id m) mid) (Conversation.messages c)
  | None => None
  end.

(** [{ ...m, content }] *)
Definition withContent (content : jsstring) (m : Message.t) : Message.t :=
  {| Message.id := Message.id m; Message.content := content;
     Message.role := Message.role m; Message.timestamp := Message.timestamp m;
     Message.isStreaming := Message.isStreaming m;
     Message.feedback := Message.feedback m;
     Message.metadata := Message.metadata m |}.

(** [{ ...m, content, isStreaming: false, metadata }] *)
Definition completed (content : jsstring) (metadata : option Metadata)
    (m : Message.t) : Message.t :=
  {| Message.id := Message.id m; Message.content := content;
     Message.role := Message.role m; Message.timestamp := Message.timestamp m;
     Message.isStreaming := false;
     Message.feedback := Message.feedback m;
     Message.metadata := metadata |}.

(** The first message with id [mid] of [currentConversation]. *)
Definition lookupCurrent (mid : jsstring) (st : ChatState) : option Message.t :=
  match currentConversation st with
  | Some c => find (fun m => eqb (Message.id m) mid) (Conversation.messages c)
  | None => None
  end.

(** A turn in which the placeholder [sm] is being streamed into the
    conversation [cid] and shows [text]: the accumulator holds [text], and
    the streaming message, its entry in the conversation [cid] and its
    entry in the current conversation are [sm] with the content [text]. *)
Definition Streaming (sm : Message.t) (cid text : jsstring)
    (fm : option Metadata) (t : Turn) : Prop :=
  accumulatedContent t = text
  /\ finalMetadata t = fm
  /\ streamingMessage (store t) = Some (withContent text sm)
  /\ currentConversationId (store t) = Some cid
  /\ truthy cid = true
  /\ lookupMessage cid (Message.id sm) (store t) = Some (withContent text sm)
  /\ lookupCurrent (Message.id sm) (store t) = Some (withContent text sm).

Definition isChunk (f : Fragment.t) : bool :=
  match Fragment.type f with Fragment.chunk => true | _ => false end.

Definition isComplete (f : Fragment.t) : bool :=
  match Fragment.type f with Fragment.complete => true | _ => false end.

(** The contents of the chunks among some fragments, in their order. *)
Definition chunkText (fs : list Fragment.t) : jsstring :=
  List.concat (List.map Fragment.content (filter isChunk fs)).

(** The fragments of a stream handed to [onMessage] in their order of
    arrival; what [onMessage] throws goes to the [catch] of [processLine]. *)
Definition deliver (fs : list Fragment.t) (t : Turn) : Turn :=
  fold_left (fun acc f => fst (onMessage f acc)) fs t.

(** The payload of a [data:] line, as [processLine] extracts it. *)
Definition payloadOf (l : jsstring) : option jsstring :=
  let trimmedLine := trim l in
  if negb (truthy trimmedLine) || startsWith trimmedLine (str ":") then None
  else if startsWith trimmedLine (str "data: ") then Some (slice 6 trimmedLine)
  else None.

(** Whether a line is the [[DONE]] sentinel. *)
Definition isDone (l : jsstring) : bool :=
  match payloadOf l with
  | Some data => eqb data (str "[DONE]")
  | None => false
  end.

(** The fragments that the [data:] lines of a text decode to. *)
Definition fragmentsOf (JSON_parse : jsstring -> Result Fragment.t)
    (lines : list jsstring) : list Fragment.t :=
  flat_map (fun l =>
              match payloadOf l with
              | Some data =>
                  if eqb data (str "[DONE]") then []
                  else match JSON_parse data with
                       | Ok f => [f]
                       | Throw _ => []
                       end
              | None => []
              end) lines.

(** The complete lines of a body. *)
Definition linesOf (chunks : list jsstring) : list jsstring :=
  removelast (split (List.concat chunks)).

(** The error that the [try] block of [attemptConnection] throws for an
    attempt of the script, if it throws. *)
Definition failure (a : SSE.Attempt) : option Error :=
  match SSE.outcome a with
  | SSE.FetchRejects e => Some e
  | SSE.FetchResponds ok status statusText body =>
      if negb ok then
        Some (new_Error (str "HTTP " ++ ofZ status ++ str ": " ++ statusText))
      else
        match body with
        | None => Some (new_Error (str "Response body is not available for streaming"))
        | Some b =>
            match SSE.ending b with
            | SSE.ReadFails e => Some e
            | SSE.EndOfStream => None
            end
        end
  end.

(** An attempt that ends in a transport failure: an error other than the
    abort of the client, with no [disconnect()] during the wait. *)
Definition transportFailure (a : SSE.Attempt) : bool :=
  negb (SSE.disconnectDuringBackoff a)
  && match failure a with
     | Some e => negb (isAbortError e)
     | None => false
     end.

(** An attempt whose response is a stream that ends cleanly. *)
Definition cleanStream (a : SSE.Attempt) : bool :=
  match SSE.outcome a with
  | SSE.FetchResponds true _ _ (Some b) =>
      match SSE.ending b with SSE.EndOfStream => true | _ => false end
  | _ => false
  end.

(** What a retry leaves alone in a client: everything but [isConnected]
    and the delay that a [retry:] line may set. *)
Definition core (S : Type) (c : SSE.SSEClient S) :=
  (SSE.abortController c, SSE.retryCount c,
   SSE.retryAttempts (SSE.options c),
   SSE.onMessage (SSE.options c), SSE.onError (SSE.options c),
   SSE.onComplete (SSE.options c), SSE.onConnectionChange (SSE.options c)).

(** The callbacks of a client, which no method of the client changes. *)
Definition handlers (S : Type) (c : SSE.SSEClient S) :=
  (SSE.onMessage (SSE.options c), SSE.onError (SSE.options c),
   SSE.onComplete (SSE.options c), SSE.onConnectionChange (SSE.options c)).

End Observe.

(** ** Sample values for the concrete runs *)

Module Sample.

Import Chat Tests.

(** A host whose ids are [id-0], [id-1], ... and whose dates are [t0],
    [t1], ... *)
Definition world0 : World :=
  {| uuid_source := fun n => str "id-" ++ ofN (N.of_nat n);
     uuid_calls := 0;
     date_source := fun n => str "t" ++ ofN (N.of_nat n);
     date_calls := 0;
     effects := [] |}.

Definition syntaxError : Error :=
  {| name := str "SyntaxError"; message := str "Unexpected token" |}.

(** [{"type":"chunk","content":"Hel"}] and the like. *)
Definition payload (type content : string) : jsstring :=
  str "{" ++ quoted "type" ++ str ":" ++ quoted type ++ str ","
  ++ quoted "content" ++ str ":" ++ quoted content ++ str "}".

Definition fragment (k : Fragment.kind) (content : string) : Fragment.t :=
  {| Fragment.type := k; Fragment.content := str content;
     Fragment.metadata := None |}.

(** The value of [JSON.parse] on the payloads of the runs below; every
    other text of these runs is not JSON. *)
Definition JSON_parse (data : jsstring) : Result Fragment.t :=
  if eqb data (payload "chunk" "Hel") then Ok (fragment Fragment.chunk "Hel")
  else if eqb data (payload "chunk" "lo") then Ok (fragment Fragment.chunk "lo")
  else if eqb data (payload "error" "boom") then Ok (fragment Fragment.error "boom")
  else if eqb data (payload "complete" "Hello!")
  then Ok (fragment Fragment.complete "Hello!")
  else Throw syntaxError.

(** [data: <payload>] followed by a line feed. *)
Definition dataLine (p : jsstring) : jsstring := str "data: " ++ p ++ [LF].

(** [{"jobId":"b","progress":10}] *)
Definition progressPayload : jsstring :=
  str "{" ++ quoted "jobId" ++ str ":" ++ quoted "b" ++ str ","
  ++ quoted "progress" ++ str ":10}".

Definition progressUpdate : JobUpdate :=
  {| u_jobId := Some (str "b"); u_status := None; u_progress := Some 10%Z;
     u_currentStep := None; u_errorMessage := None;
     u_estimatedCompletion := None; u_createdAt := None; u_updatedAt := None |}.

Definition JSON_parse_update (data : jsstring) : Result JobUpdate :=
  if eqb data progressPayload then Ok progressUpdate else Throw syntaxError.

Definition JSON_parse_job (data : jsstring) : Result ProcessingJob :=
  Throw syntaxError.

Definition JSON_parse_message (data : jsstring) : Result ETL.JobMessage :=
  Throw syntaxError.

Definition jobA : ProcessingJob :=
  {| jobId := str "a"; status := running; progress := 50;
     currentStep := str "Processing"; errorMessage := None;
     estimatedCompletion := None; createdAt := str "t0"; updatedAt := str "t1" |}.

Definition emptyTests : TestState :=
  {| processingJobs := []; isLoadingJobs := false; jobsError := None |}.

Definition etl0 (jobs : list ProcessingJob) : ETL.Sys :=
  {| ETL.hook := {| ETL.eventSourceRef := true; ETL.reconnectAttemptsRef := 0;
                    ETL.reconnectTimeoutRef := None |};
     ETL.tests := set_processingJobs jobs emptyTests;
     ETL.console := [] |}.

(** A response whose body delivers the given chunks and ends. *)
Definition respond (chunks : list jsstring) (ending : SSE.StreamEnd) : SSE.Attempt :=
  {| SSE.outcome :=
       SSE.FetchResponds true 200 (str "OK")
         (Some {| SSE.chunks := chunks; SSE.ending := ending |});
     SSE.disconnectDuringBackoff := false |}.

Definition networkError : Error :=
  {| name := str "TypeError"; message := str "Failed to fetch" |}.

(** A [fetch] that is refused. *)
Definition refuse : SSE.Attempt :=
  {| SSE.outcome := SSE.FetchRejects networkError;
     SSE.disconnectDuringBackoff := false |}.

(** A store in the middle of a turn: the conversation [c1] holds the
    message of the user and the empty placeholder of the assistant. *)
Definition userMessage : Message.t :=
  {| Message.id := str "u1"; Message.content := str "hi";
     Message.role := Message.user; Message.timestamp := str "t0";
     Message.isStreaming := false; Message.feedback := None;
     Message.metadata := None |}.

Definition placeholder : Message.t :=
  {| Message.id := str "p1"; Message.content := [];
     Message.role := Message.assistant; Message.timestamp := str "t1";
     Message.isStreaming := true; Message.feedback := None;
     Message.metadata := None |}.

Definition conversation1 : Conversation.t :=
  {| Conversation.id := str "c1";
     Conversation.messages := [userMessage; placeholder];
     Conversation.createdAt := str "t0"; Conversation.updatedAt := str "t1" |}.

Definition streamingState : ChatState :=
  {| conversations := [conversation1];
     currentConversationId := Some (str "c1");
     currentConversation := Some conversation1;
     isStreaming := true; isLoading := false; error := None;
     streamingMessage := Some placeholder;
     connectionStatus := Status.connected;
     sseClient := Some ClientObject |}.

Definition streamingTurn : Turn :=
  {| env := (streamingState, world0);
     accumulatedContent := [];
     finalMetadata := None |}.

End Sample.

(* ================================================================== *)
(** ** The other actions of the chat store *)
(* ================================================================== *)

Module ChatActions.

Import Chat.

(** [messages.findIndex(p)]: the index of the first match, [-1] without
    one. *)
Fixpoint findIndex (A : Type) (p : A -> bool) (l : list A) : Z :=
  match l with
  | [] => (-1)%Z
  | x :: r =>
      if p x then 0%Z
      else match findIndex p r with
           | Zneg _ => (-1)%Z
           | i => (i + 1)%Z
           end
  end.

(** [messages.slice(0, end)] for an [end] that is not negative. *)
Definition sliceTo (A : Type) (e : Z) (l : list A) : list A :=
  firstn (Z.to_nat e) l.

Definition isUser (m : Message.t) : bool :=
  match Message.role m with Message.user => true | Message.assistant => false end.

(** [createNewConversation] *)
Definition createNewConversation (e : Env) : Env :=
  let (st, w) := e in
  let (newConversation, w1) := createConversation None w in
  (set_error None
     (set_currentConversationId (Some (Conversation.id newConversation))
        (set_currentConversation (Some newConversation)
           (set_conversations (newConversation :: conversations st) st))), w1).

(** [setCurrentConversation(conversationId)] *)
Definition setCurrentConversation (conversationId : option jsstring) (e : Env) : Env :=
  let (st, w) := e in
  if negb (truthy_opt conversationId) then
    (set_currentConversationId None (set_currentConversation None st), w)
  else
    match find (fun c => opt_eqb (Some (Conversation.id c)) conversationId)
               (conversations st) with
    | Some conversation =>
        (set_currentConversationId conversationId
           (set_currentConversation (Some conversation) st), w)
    | None => e
    end.

(** [clearCurrentConversation] *)
Definition clearCurrentConversation (e : Env) : Env :=
  let (st, w) := e in
  (set_error None
     (set_currentConversationId None (set_currentConversation None st)), w).

(** [clearError] *)
Definition clearError (e : Env) : Env :=
  let (st, w) := e in (set_error None st, w).

(** What a rejected request of [apiClient] carries:
    [error.response?.data?.message] and [error.message]. *)
Record ApiError : Type := {
  responseMessage : option jsstring;
  errorMessage : option jsstring
}.

(** [error.response?.data?.message || error.message || fallback] *)
Definition errorText (err : ApiError) (fallback : string) : jsstring :=
  if truthy_opt (responseMessage err) then
    match responseMessage err with Some m => m | None => str fallback end
  else if truthy_opt (errorMessage err) then
    match errorMessage err with Some m => m | None => str fallback end
  else str fallback.

(** [deleteConversation(conversationId)]; [rejected] is the error of
    [apiClient.delete], if it rejects. The result is the error that the
    action throws. *)
Definition deleteConversation (rejected : option ApiError)
    (conversationId : jsstring) (e : Env) : option ApiError * Env :=
  let (st, w) := e in
  match rejected with
  | None =>
      let updatedConversations :=
        filter (fun c => negb (eqb (Conversation.id c) conversationId))
               (conversations st) in
      let isCurrentConversation :=
        opt_eqb (currentConversationId st) (Some conversationId) in
      (None,
       (set_currentConversationId
          (if isCurrentConversation then None else currentConversationId st)
          (set_currentConversation
             (if isCurrentConversation then None else currentConversation st)
             (set_conversations updatedConversations st)), w))
  | Some err =>
      (Some err,
       (set_error (Some (errorText err "Failed to delete conversation")) st, w))
  end.

(** [clearAllConversations] *)
Definition clearAllConversations (rejected : option ApiError) (e : Env)
    : option ApiError * Env :=
  let (st, w) := e in
  match rejected with
  | None =>
      (None,
       (set_error None
          (set_currentConversationId None
             (set_currentConversation None (set_conversations [] st))), w))
  | Some err =>
      (Some err,
       (set_error (Some (errorText err "Failed to clear conversations")) st, w))
  end.

Section Retry.

Variable JSON_parse : jsstring -> Result Fragment.t.

(** [retryLastMessage] *)
Definition retryLastMessage (script : list SSE.Attempt) (e : Env)
    : SSE.Settled * Env * list SSE.Attempt :=
  let (state, w) := e in
  let noMessage :=
    (SSE.Rejected (new_Error (str "No message to retry")), e, script) in
  match currentConversation state with
  | None => noMessage
  | Some cur =>
      let messages := Conversation.messages cur in
      match messages with
      | [] => noMessage
      | _ :: _ =>
          match find isUser (rev messages) with
          | None =>
              (SSE.Rejected (new_Error (str "No user message to retry")), e, script)
          | Some lastUserMessage =>
              let lastUserMessageIndex :=
                findIndex (fun m => eqb (Message.id m) (Message.id lastUserMessage))
                          messages in
              let filteredMessages := sliceTo (lastUserMessageIndex + 1) messages in
              let (convs, w1) :=
                touchWhere (currentConversationId state)
                  (fun _ => filteredMessages) (conversations state) w in
              let cur' :=
                {| Conversation.id := Conversation.id cur;
                   Conversation.messages := filteredMessages;
                   Conversation.createdAt := Conversation.createdAt cur;
                   Conversation.updatedAt := Conversation.updatedAt cur |} in
              sendMessage JSON_parse script (Message.content lastUserMessage)
                (set_currentConversation (Some cur') (set_conversations convs state),
                 w1)
          end
      end
  end.

End Retry.

End ChatActions.

(* ================================================================== *)
(** ** The other job actions and the selectors of the test store *)
(* ================================================================== *)

Module TestActions.

Import Tests.

Definition set_jobsError (v : option jsstring) (st : TestState) : TestState :=
  {| processingJobs := processingJobs st; isLoadingJobs := isLoadingJobs st;
     jobsError := v |}.

(** The three ways in which a call of [testsApi] ends: a response with
    [success], a response without it and with [error?.message], or a
    rejection, whose value is an [Error] with a message or something
    else. *)
Inductive ApiOutcome (A : Type) : Type :=
| Succeeded (data : A)
| Refused (message : option jsstring)
| Failed (thrown : option jsstring).
Arguments Succeeded {A} data.
Arguments Refused {A} message.
Arguments Failed {A} thrown.

(** [a?.message || fallback] and [error instanceof Error ? error.message :
    fallback]. *)
Definition messageOr (m : option jsstring) (fallback : string) : jsstring :=
  match m with
  | Some s => if truthy s then s else str fallback
  | None => str fallback
  end.

Definition thrownOr (m : option jsstring) (fallback : string) : jsstring :=
  match m with
  | Some s => s
  | None => str fallback
  end.

Definition statusUpdate (s : JobStatus) : JobUpdate :=
  {| u_jobId := None; u_status := Some s; u_progress := None;
     u_currentStep := None; u_errorMessage := None;
     u_estimatedCompletion := None; u_createdAt := None; u_updatedAt := None |}.

(** [cancelJob(jobId)] *)
Definition cancelJob (response : ApiOutcome unit) (id : jsstring)
    (st : TestState) : TestState :=
  match response with
  | Succeeded _ => updateJobStatus (Some id) (statusUpdate cancelled) st
  | Refused m => set_jobsError (Some (messageOr m "Failed to cancel job")) st
  | Failed m => set_jobsError (Some (thrownOr m "Failed to cancel job")) st
  end.

(** [monitorJob(jobId)] *)
Definition monitorJob (response : ApiOutcome ProcessingJob) (id : jsstring)
    (st : TestState) : TestState :=
  match response with
  | Succeeded data => updateJobStatus (Some id) (asUpdate data) st
  | Refused _ => st
  | Failed _ => st
  end.

Definition isActive (job : ProcessingJob) : bool :=
  match status job with
  | pending | running => true
  | _ => false
  end.

Definition isFinished (job : ProcessingJob) : bool :=
  match status job with
  | completed | failed | cancelled => true
  | _ => false
  end.

(** [useActiveJobs] *)
Definition useActiveJobs (st : TestState) : list ProcessingJob :=
  filter isActive (processingJobs st).

(** [useCompletedJobs] *)
Definition useCompletedJobs (st : TestState) : list ProcessingJob :=
  filter isFinished (processingJobs st).

End TestActions.

(* ================================================================== *)
(** ** The reconnect loop of [useETLMonitoring] and [monitorETLJob] *)
(* ================================================================== *)

Module Hook.

Import Tests ETL.

(** The hook with the number of calls of [createETLJobsEventSource]. *)
Record Run : Type := { sys : Sys; created : nat }.

(** [connect]; [throws] is the error of [createETLJobsEventSource], if
    it throws. *)
Definition connect (throws : option Error) (r : Run) : Run :=
  let s := sys r in
  if eventSourceRef (hook s) then r
  else
    match throws with
    | None =>
        {| sys := {| hook := {| eventSourceRef := true;
                                reconnectAttemptsRef := reconnectAttemptsRef (hook s);
                                reconnectTimeoutRef := reconnectTimeoutRef (hook s) |};
                     tests := tests s; console := console s |};
           created := S (created r) |}
    | Some e =>
        {| sys := {| hook := hook s; tests := tests s;
                     console :=
                       console s
                       ++ [Console error_level
                             [Text (str "Failed to connect to ETL monitoring:");
                              Thrown e]] |};
           created := S (created r) |}
    end.

(** [disconnect] *)
Definition disconnect (r : Run) : Run :=
  {| sys := {| hook := {| eventSourceRef := false;
                          reconnectAttemptsRef := 0;
                          reconnectTimeoutRef := None |};
               tests := tests (sys r); console := console (sys r) |};
     created := created r |}.

Section Reconnect.

Variable reconnectInterval : Z.
Variable maxReconnectAttempts : Z.

(** One error of the event source, followed by the callback of the timer
    that [onerror] set, if it set one: [connect()]. *)
Definition errorThenTimer (throws : option Error) (r : Run) : Run :=
  let scheduled :=
    Z.ltb (reconnectAttemptsRef (hook (sys r))) maxReconnectAttempts in
  let r1 := {| sys := onerror reconnectInterval maxReconnectAttempts (sys r);
               created := created r |} in
  if scheduled then connect throws r1 else r1.

(** [n] errors in a row, each new event source failing before it opens. *)
Fixpoint errorsInARow (n : nat) (r : Run) : Run :=
  match n with
  | O => r
  | S k => errorsInARow k (errorThenTimer None r)
  end.

End Reconnect.

(** What the event source of one job delivers to [monitorETLJob]: a
    message, an error, or nothing for thirty seconds. *)
Inductive SourceEvent : Type :=
| Message (data : jsstring)
| SourceError
| Timeout.

(** How the generator stands after the events: it has returned, it has
    thrown ([None] is the error event of the source), or it waits. *)
Inductive Ending : Type :=
| Returned
| Threw (e : option Error)
| Waiting.

Definition isTerminal (s : JobStatus) : bool :=
  match s with
  | completed | failed | cancelled => true
  | _ => false
  end.

Section Monitor.

Variable JSON_parse_job : jsstring -> Result ProcessingJob.

(** [monitorETLJob(jobId)]: the jobs it yields and how it ends. *)
Fixpoint monitorETLJob (events : list SourceEvent) : list ProcessingJob * Ending :=
  match events with
  | [] => ([], Waiting)
  | Message data :: rest =>
      match JSON_parse_job data with
      | Throw e => ([], Threw (Some e))
      | Ok job =>
          if isTerminal (status job) then ([job], Returned)
          else let (more, ending) := monitorETLJob rest in (job :: more, ending)
      end
  | SourceError :: _ => ([], Threw None)
  | Timeout :: _ => ([], Threw (Some (new_Error (str "EventSource timeout"))))
  end.

End Monitor.

End Hook.

(* ================================================================== *)
(** ** [NetworkMonitor] *)
(* ================================================================== *)

Module Network.

Inductive NetworkStatus : Type := online | offline | slow.

Definition status_eqb (a b : NetworkStatus) : bool :=
  match a, b with
  | online, online | offline, offline | slow, slow => true
  | _, _ => false
  end.

(** [NetworkMonitorOptions]; [onStatusChange] is there or not. *)
Record NetworkMonitorOptions : Type := {
  onStatusChange : bool;
  pingUrl : option jsstring;
  pingInterval : option Z;
  slowThreshold : option Z
}.

(** A call of a callback: of [options.onStatusChange], or of the listener
    with a given identity. *)
Inductive Call : Type :=
| OnStatusChange (s : NetworkStatus)
| Listener (id : nat) (s : NetworkStatus).

(** The monitor: its fields, and the calls it has made. [listeners] is a
    [Set], kept in the order of insertion. *)
Record NetworkMonitor : Type := {
  status : NetworkStatus;
  options : NetworkMonitorOptions;
  pingTimer : bool;
  listeners : list nat;
  calls : list Call;
  pings : nat
}.

(** The constructor: [{ pingUrl: '/api/health', pingInterval: 30000,
    slowThreshold: 5000, ...options }]. *)
Definition new_NetworkMonitor (o : NetworkMonitorOptions) : NetworkMonitor :=
  {| status := online;
     options :=
       {| onStatusChange := onStatusChange o;
          pingUrl := match pingUrl o with
                     | Some u => Some u
                     | None => Some (str "/api/health")
                     end;
          pingInterval := match pingInterval o with
                          | Some i => Some i
                          | None => Some 30000%Z
                          end;
          slowThreshold := match slowThreshold o with
                           | Some t => Some t
                           | None => Some 5000%Z
                           end |};
     pingTimer := false;
     listeners := [];
     calls := [];
     pings := 0 |}.

(** [updateStatus(newStatus)] *)
Definition updateStatus (newStatus : NetworkStatus) (m : NetworkMonitor)
    : NetworkMonitor :=
  if negb (status_eqb (status m) newStatus) then
    {| status := newStatus;
       options := options m;
       pingTimer := pingTimer m;
       listeners := listeners m;
       calls :=
         calls m
         ++ (if onStatusChange (options m) then [OnStatusChange newStatus] else [])
         ++ List.map (fun l => Listener l newStatus) (listeners m);
       pings := pings m |}
  else m.

(** [handleOnline], [handleOffline] *)
Definition handleOnline (m : NetworkMonitor) : NetworkMonitor := updateStatus online m.
Definition handleOffline (m : NetworkMonitor) : NetworkMonitor := updateStatus offline m.

(** [handleConnectionChange]; [effectiveType] is [None] when
    [navigator.connection] is missing. *)
Definition handleConnectionChange (effectiveType : option jsstring)
    (onLine : bool) (m : NetworkMonitor) : NetworkMonitor :=
  match effectiveType with
  | None => m
  | Some t =>
      if existsb (eqb t) [str "slow-2g"; str "2g"] then updateStatus slow m
      else if onLine then updateStatus online m
      else m
  end.

(** What the [fetch] of a ping does: a response after [duration]
    milliseconds, or a rejection. *)
Inductive PingOutcome : Type :=
| Responded (ok : bool) (duration : Z)
| PingRejected (e : Error).

(** [this.options.slowThreshold || 5000] *)
Definition threshold (m : NetworkMonitor) : Z :=
  match slowThreshold (options m) with
  | Some 0%Z | None => 5000%Z
  | Some t => t
  end.

(** [performPing] *)
Definition performPing (o : PingOutcome) (m : NetworkMonitor) : NetworkMonitor :=
  if negb (truthy_opt (pingUrl (options m))) then m
  else
    let m1 := {| status := status m; options := options m;
                 pingTimer := pingTimer m; listeners := listeners m;
                 calls := calls m; pings := S (pings m) |} in
    match o with
    | Responded ok duration =>
        if ok then
          if Z.ltb (threshold m) duration then updateStatus slow m1
          else updateStatus online m1
        else updateStatus slow m1
    | PingRejected e =>
        if eqb (name e) (str "TimeoutError") then updateStatus slow m1
        else updateStatus offline m1
    end.

(** [start] / [startPinging]: the timer is set and the first ping is
    made, unless a timer runs or there is no url. *)
Definition start (first : PingOutcome) (m : NetworkMonitor) : NetworkMonitor :=
  if pingTimer m || negb (truthy_opt (pingUrl (options m))) then m
  else
    performPing first
      {| status := status m; options := options m; pingTimer := true;
         listeners := listeners m; calls := calls m; pings := pings m |}.

(** [stop] / [stopPinging] *)
Definition stop (m : NetworkMonitor) : NetworkMonitor :=
  {| status := status m; options := options m; pingTimer := false;
     listeners := listeners m; calls := calls m; pings := pings m |}.

(** [addListener(listener)]: [Set.add]. *)
Definition addListener (l : nat) (m : NetworkMonitor) : NetworkMonitor :=
  {| status := status m; options := options m; pingTimer := pingTimer m;
     listeners :=
       if existsb (Nat.eqb l) (listeners m) then listeners m
       else listeners m ++ [l];
     calls := calls m; pings := pings m |}.

(** The function that [addListener] returns: [Set.delete]. *)
Definition removeListener (l : nat) (m : NetworkMonitor) : NetworkMonitor :=
  {| status := status m; options := options m; pingTimer := pingTimer m;
     listeners := filter (fun x => negb (Nat.eqb l x)) (listeners m);
     calls := calls m; pings := pings m |}.

(** [destroy] *)
Definition destroy (m : NetworkMonitor) : NetworkMonitor :=
  {| status := status m; options := options m; pingTimer := false;
     listeners := []; calls := calls m; pings := pings m |}.

(** What reaches a monitor: the events of the window, the firing of the
    ping timer, and the calls of its methods. *)
Inductive Op : Type :=
| WindowOnline
| WindowOffline
| ConnectionChange (effectiveType : option jsstring) (onLine : bool)
| PingTimer (o : PingOutcome)
| Start (first : PingOutcome)
| Stop
| AddListener (l : nat)
| RemoveListener (l : nat).

Definition apply (op : Op) (m : NetworkMonitor) : NetworkMonitor :=
  match op with
  | WindowOnline => handleOnline m
  | WindowOffline => handleOffline m
  | ConnectionChange t onLine => handleConnectionChange t onLine m
  | PingTimer o => if pingTimer m then performPing o m else m
  | Start first => start first m
  | Stop => stop m
  | AddListener l => addListener l m
  | RemoveListener l => removeListener l m
  end.

Definition run (ops : list Op) (m : NetworkMonitor) : NetworkMonitor :=
  fold_left (fun acc op => apply op acc) ops m.

(** The statuses passed to [options.onStatusChange], in order. *)
Definition reported (cs : list Call) : list NetworkStatus :=
  flat_map (fun c => match c with OnStatusChange s => [s] | Listener _ _ => [] end) cs.

(** The statuses passed to the listener [l], in order. *)
Definition heardBy (l : nat) (cs : list Call) : list NetworkStatus :=
  flat_map (fun c => match c with
                     | Listener l' s => if Nat.eqb l l' then [s] else []
                     | OnStatusChange _ => []
                     end) cs.

(** What one step of a monitor may do: nothing that is reported, or one
    change of the status, reported once. *)
Definition quietOrChanged (m m' : NetworkMonitor) : Prop :=
  options m' = options m
  /\ ((status m' = status m /\ calls m' = calls m)
      \/ (status m' <> status m
          /\ reported (calls m')
             = reported (calls m)
               ++ (if onStatusChange (options m) then [status m'] else []))).

(** No two neighbours of a list are equal, nor its head and [s]. *)
Fixpoint changing (s : NetworkStatus) (l : list NetworkStatus) : Prop :=
  match l with
  | [] => True
  | x :: r => x <> s /\ changing x r
  end.

End Network.

(* ================================================================== *)
(** ** Vocabulary of the further statements *)
(* ================================================================== *)

Module Trace.

Import Chat.

(** An attempt that fails before a body is read: the [fetch] is rejected
    with an error other than the abort, the response is not [ok], or it has
    no body; and [disconnect()] is not called during the wait. *)
Definition refusal (a : SSE.Attempt) : bool :=
  negb (SSE.disconnectDuringBackoff a)
  && match SSE.outcome a with
     | SSE.FetchRejects e => negb (isAbortError e)
     | SSE.FetchResponds ok _ _ body =>
         negb ok || match body with None => true | Some _ => false end
     end.

(** The delays of the timers that were awaited, in order. *)
Definition timers (w : World) : list Z :=
  flat_map (fun e => match e with SetTimeout ms => [ms] | _ => [] end) (effects w).

(** The number of calls of [fetch]. *)
Definition fetches (w : World) : nat :=
  List.length (filter (fun e => match e with Fetch => true | _ => false end)
                 (effects w)).

(** The delays [d * (r + 1)], ..., [d * (r + n)]. *)
Definition backoff (d r : Z) (n : nat) : list Z :=
  List.map (fun k => (d * (r + Z.of_nat k))%Z) (seq 1 n).

(** The ids of a conversation and of its messages, in order. *)
Definition outline (c : Conversation.t) : jsstring * list jsstring :=
  (Conversation.id c, List.map Message.id (Conversation.messages c)).

(** The outline of the store: of every conversation of the list, and of
    the current conversation. *)
Definition shape (st : ChatState)
    : list (jsstring * list jsstring) * option (jsstring * list jsstring) :=
  (List.map outline (conversations st), option_map outline (currentConversation st)).

(** The client of a turn after the method has settled. *)
Definition clientOf (S : Type)
    (r : SSE.Settled * (SSE.SSEClient S * S) * list SSE.Attempt) : SSE.SSEClient S :=
  fst (snd (fst r)).

End Trace.

(** ** Further sample values *)

Module Examples.

Import Tests.

(** One property of a JSON object: ["key":value]. *)
Definition property (key : string) (value : jsstring) : jsstring :=
  quoted key ++ str ":" ++ value.

(** [{"jobId":"a","status":"pending","progress":0,"currentStep":"Starting",
    "createdAt":"t0","updatedAt":"t0"}] *)
Definition startedPayload : jsstring :=
  str "{" ++ property "jobId" (quoted "a") ++ str ","
  ++ property "status" (quoted "pending") ++ str ","
  ++ property "progress" (str "0") ++ str ","
  ++ property "currentStep" (quoted "Starting") ++ str ","
  ++ property "createdAt" (quoted "t0") ++ str ","
  ++ property "updatedAt" (quoted "t0") ++ str "}".

Definition startedJob : ProcessingJob :=
  {| jobId := str "a"; status := pending; progress := 0;
     currentStep := str "Starting"; errorMessage := None;
     estimatedCompletion := None; createdAt := str "t0"; updatedAt := str "t0" |}.

(** [{"jobId":"a","progress":50}] *)
Definition halfPayload : jsstring :=
  str "{" ++ property "jobId" (quoted "a") ++ str ","
  ++ property "progress" (str "50") ++ str "}".

Definition halfUpdate : JobUpdate :=
  {| u_jobId := Some (str "a"); u_status := None; u_progress := Some 50%Z;
     u_currentStep := None; u_errorMessage := None;
     u_estimatedCompletion := None; u_createdAt := None; u_updatedAt := None |}.

(** [{"jobId":"a"}] *)
Definition idPayload : jsstring :=
  str "{" ++ property "jobId" (quoted "a") ++ str "}".

Definition idUpdate : JobUpdate :=
  {| u_jobId := Some (str "a"); u_status := None; u_progress := None;
     u_currentStep := None; u_errorMessage := None;
     u_estimatedCompletion := None; u_createdAt := None; u_updatedAt := None |}.

(** The value of [JSON.parse] on the payloads above; every other text of
    the runs is not JSON. *)
Definition JSON_parse_job (data : jsstring) : Result ProcessingJob :=
  if eqb data startedPayload then Ok startedJob else Throw Sample.syntaxError.

Definition JSON_parse_update (data : jsstring) : Result JobUpdate :=
  if eqb data halfPayload then Ok halfUpdate
  else if eqb data idPayload then Ok idUpdate
  else Throw Sample.syntaxError.

(** A job that has finished. *)
Definition doneJob : ProcessingJob :=
  {| jobId := str "d"; status := completed; progress := 100;
     currentStep := str "Done"; errorMessage := None;
     estimatedCompletion := None; createdAt := str "t0"; updatedAt := str "t9" |}.

(** [{"jobId":"d","status":"completed","progress":100,...}] *)
Definition donePayload : jsstring :=
  str "{" ++ property "jobId" (quoted "d") ++ str ","
  ++ property "status" (quoted "completed") ++ str ","
  ++ property "progress" (str "100") ++ str ","
  ++ property "currentStep" (quoted "Done") ++ str ","
  ++ property "createdAt" (quoted "t0") ++ str ","
  ++ property "updatedAt" (quoted "t9") ++ str "}".

Definition JSON_parse_monitored (data : jsstring) : Result ProcessingJob :=
  if eqb data startedPayload then Ok startedJob
  else if eqb data donePayload then Ok doneJob
  else Throw Sample.syntaxError.

End Examples.

(** ** What [sendMessage] builds on a store without a current conversation *)

Module Fresh.

Import Chat.

(** The three ids that the turn draws, in the order of the calls of
    [uuidv4]: the message of the user, the conversation, the placeholder. *)
Definition userId (w : World) : jsstring := uuid_source w (uuid_calls w).
Definition conversationId (w : World) : jsstring := uuid_source w (1 + uuid_calls w).
Definition placeholderId (w : World) : jsstring := uuid_source w (2 + uuid_calls w).

(** The date of the [k]-th call of [Date] of the turn. *)
Definition date (k : nat) (w : World) : jsstring := date_source w (k + date_calls w).

Definition userMessage (content : jsstring) (w : World) : Message.t :=
  {| Message.id := userId w; Message.content := content;
     Message.role := Message.user; Message.timestamp := date 0 w;
     Message.isStreaming := false; Message.feedback := None;
     Message.metadata := None |}.

Definition placeholder (w : World) : Message.t :=
  {| Message.id := placeholderId w; Message.content := [];
     Message.role := Message.assistant; Message.timestamp := date 3 w;
     Message.isStreaming := true; Message.feedback := None;
     Message.metadata := None |}.

(** The new conversation with its two messages, last updated at the
    [updated]-th date. *)
Definition conversation (content : jsstring) (w : World) (updated : nat)
    : Conversation.t :=
  {| Conversation.id := conversationId w;
     Conversation.messages := [userMessage content w; placeholder w];
     Conversation.createdAt := date 1 w;
     Conversation.updatedAt := date updated w |}.

(** The store when the client of the turn is about to connect. *)
Definition opened (content : jsstring) (st : ChatState) (w : World) : ChatState :=
  {| conversations := conversations st ++ [conversation content w 4];
     currentConversationId := Some (conversationId w);
     currentConversation := Some (conversation content w 5);
     isStreaming := true; isLoading := false; error := None;
     streamingMessage := Some (placeholder w);
     connectionStatus :=
       match sseClient st with
       | Some _ => Status.disconnected
       | None => Status.connecting
       end;
     sseClient := Some ClientObject |}.

(** The host after the three ids and the six dates of the turn. *)
Definition later (w : World) : World :=
  {| uuid_source := uuid_source w; uuid_calls := 3 + uuid_calls w;
     date_source := date_source w; date_calls := 6 + date_calls w;
     effects := effects w |}.

Definition turn (content : jsstring) (st : ChatState) (w : World) : Turn :=
  {| env := (opened content st w, later w);
     accumulatedContent := [];
     finalMetadata := None |}.

(** The [catch] of [sendMessage] on the result of the stream. *)
Definition settle (r : SSE.Settled * (SSE.SSEClient Turn * Turn) * list SSE.Attempt)
    : SSE.Settled * Env * list SSE.Attempt :=
  match r with
  | (SSE.Rejected err, (_, t), rest) =>
      (SSE.Rejected err,
       (set_connectionStatus Status.error
          (set_error (Some (or_else (message err) (str "Failed to send message")))
             (set_isStreaming false (set_isLoading false (store t)))),
        world t), rest)
  | (r0, (_, t), rest) => (r0, env t, rest)
  end.

End Fresh.

(* ------------------------------------------------------------------ *)
(** ** The store under its synchronous actions *)

Module Session.

Import Chat.

(** The actions of the chat store that write in one [set]; the two
    requests of [apiClient] write when they have settled, so they stand
    here with their outcome. *)
Inductive Action : Type :=
| CreateNewConversation
| SetCurrentConversation (conversationId : option jsstring)
| ClearCurrentConversation
| ClearError
| DeleteConversation (rejected : option ChatActions.ApiError)
    (conversationId : jsstring)
| ClearAllConversations (rejected : option ChatActions.ApiError)
| AddMessageToConversation (conversationId : option jsstring) (message : Message.t)
| UpdateStreamingMessage (content : jsstring)
| CompleteStreamingMessage (finalContent : jsstring) (metadata : option Metadata)
| StopStreaming
| SetConnectionStatus (status : Status.t).

Definition act (a : Action) (e : Env) : Env :=
  match a with
  | CreateNewConversation => ChatActions.createNewConversation e
  | SetCurrentConversation cid => ChatActions.setCurrentConversation cid e
  | ClearCurrentConversation => ChatActions.clearCurrentConversation e
  | ClearError => ChatActions.clearError e
  | DeleteConversation rejected cid =>
      snd (ChatActions.deleteConversation rejected cid e)
  | ClearAllConversations rejected =>
      snd (ChatActions.clearAllConversations rejected e)
  | AddMessageToConversation cid m => fst (addMessageToConversation cid m e)
  | UpdateStreamingMessage content => updateStreamingMessage content e
  | CompleteStreamingMessage content metadata =>
      completeStreamingMessage content metadata e
  | StopStreaming => stopStreaming e
  | SetConnectionStatus status => setConnectionStatus status e
  end.

Definition acts (l : list Action) (e : Env) : Env :=
  fold_left (fun e0 a => act a e0) l e.

(** The current conversation and the list agree: without a current
    conversation there is no current id; with one, the current id is its
    id, and the first conversation of the list with that id has the same
    messages. (The two differ in [updatedAt], which every action reads
    anew for each.) *)
Definition Synced (st : ChatState) : Prop :=
  match currentConversation st with
  | None => currentConversationId st = None
  | Some cur =>
      currentConversationId st = Some (Conversation.id cur)
      /\ exists c,
           Observe.findConversation (Conversation.id cur) st = Some c
           /\ Conversation.messages c = Conversation.messages cur
  end.

End Session.

(* ================================================================== *)
(** * Properties *)
(* ================================================================== *)

Unset Implicit Arguments.

(** ** Strings and lines *)

Lemma eqb_eq (a b : jsstring) : eqb a b = true <-> a = b.
Proof.
  unfold eqb. destruct (list_eq_dec N.eq_dec a b); split; congruence.
Qed.

Lemma eqb_refl (a : jsstring) : eqb a a = true.
Proof. apply eqb_eq. reflexivity. Qed.

Lemma eqb_neq (a b : jsstring) : eqb a b = false <-> a <> b.
Proof.
  unfold eqb. destruct (list_eq_dec N.eq_dec a b); split; congruence.
Qed.

Example split_empty : split [] = [[]].
Proof. reflexivity. Qed.

Example split_two : split (line "a" ++ line "b") = [str "a"; str "b"; []].
Proof. reflexivity. Qed.

Example trim_cr : trim (str "  data: x" ++ [13%N]) = str "data: x".
Proof. reflexivity. Qed.

Example parseInt_examples :
  parseInt (str " 2500ms") = Some 2500%Z /\ parseInt (str "-7") = Some (-7)%Z
  /\ parseInt (str "soon") = None /\ parseInt [] = None.
Proof. repeat split. Qed.

Example ofZ_examples :
  ofZ 503 = str "503" /\ ofZ (-2) = str "-2" /\ ofZ 0 = str "0".
Proof. repeat split. Qed.

Lemma split_not_nil (s : jsstring) : split s <> [].
Proof.
  induction s as [|c s IH]; simpl; [discriminate|].
  destruct (N.eqb c LF); [discriminate|].
  destruct (split s); discriminate.
Qed.

(** Splitting a concatenation: the complete lines of the first part, then
    the split of its unfinished line followed by the second part. *)
Lemma split_app (x y : jsstring) :
  split (x ++ y) = removelast (split x) ++ split (last (split x) [] ++ y).
Proof.
  induction x as [|c x IH]; [reflexivity|].
  pose proof (split_not_nil x) as Hx.
  change (split ((c :: x) ++ y)) with (split (c :: (x ++ y))).
  cbn [split]. rewrite IH.
  destruct (N.eqb c LF) eqn:Ec.
  - destruct (split x) as [|l ls]; [congruence|]. reflexivity.
  - destruct (split x) as [|l ls]; [congruence|].
    destruct ls as [|l' ls'].
    + cbn [removelast last app]. cbn [split]. rewrite Ec. reflexivity.
    + reflexivity.
Qed.

Lemma or_else_nil (s : jsstring) : or_else s [] = s.
Proof. destruct s; reflexivity. Qed.

Lemma removelast_app_r (A : Type) (l m : list A) :
  m <> [] -> removelast (l ++ m) = l ++ removelast m.
Proof. intros H. apply removelast_app. exact H. Qed.

Lemma last_app_r (A : Type) (l m : list A) (d : A) :
  m <> [] -> last (l ++ m) d = last m d.
Proof.
  intros H. induction l as [|a l IH]; simpl; [reflexivity|].
  destruct (l ++ m) eqn:E.
  - apply app_eq_nil in E. destruct E; congruence.
  - exact IH.
Qed.

Lemma split_noLF (b : jsstring) : ~ In LF b -> split b = [b].
Proof.
  induction b as [|c b IH]; intros H; [reflexivity|].
  cbn [split]. destruct (N.eqb c LF) eqn:Ec.
  - apply N.eqb_eq in Ec. exfalso. apply H. left. exact Ec.
  - rewrite IH; [reflexivity|]. intros Hin. apply H. right. exact Hin.
Qed.

Lemma last_split_noLF (s : jsstring) : ~ In LF (last (split s) []).
Proof.
  induction s as [|c s IH]; [intros []|].
  pose proof (split_not_nil s) as Hs.
  cbn [split]. destruct (N.eqb c LF) eqn:Ec.
  - destruct (split s) as [|l ls]; [congruence|]. exact IH.
  - destruct (split s) as [|l ls]; [congruence|].
    destruct ls as [|l' ls'].
    + cbn [last] in *. intros [Hc|Hin].
      * apply N.eqb_neq in Ec. congruence.
      * exact (IH Hin).
    + exact IH.
Qed.

(** ** The line parser of the client *)

Section ClientFacts.

Variable S : Type.
Variable host : Effect -> S -> S.
Variable JSON_parse : jsstring -> Result Fragment.t.

Local Abbreviation processLine := (SSE.processLine host JSON_parse).
Local Abbreviation processLines := (SSE.processLines host JSON_parse).
Local Abbreviation readLoop := (SSE.readLoop host JSON_parse).
Local Abbreviation processStream := (SSE.processStream host JSON_parse).

Lemma processLines_app (l1 l2 : list jsstring) (cs : SSE.SSEClient S * S) :
  processLines (l1 ++ l2) cs = processLines l2 (processLines l1 cs).
Proof. unfold SSE.processLines. apply fold_left_app. Qed.

(** The read loop processes the complete lines of the text received so
    far, whatever the chunk boundaries, and keeps the unfinished line. *)
Lemma readLoop_lines (chunks : list jsstring) :
  forall (buffer : jsstring) (cs : SSE.SSEClient S * S),
    ~ In LF buffer ->
    readLoop chunks buffer cs =
      (processLines (removelast (split (buffer ++ List.concat chunks))) cs,
       last (split (buffer ++ List.concat chunks)) []).
Proof.
  induction chunks as [|value rest IH]; intros buffer cs Hb.
  - cbn [SSE.readLoop List.concat]. rewrite app_nil_r, (split_noLF buffer Hb). reflexivity.
  - cbn [SSE.readLoop List.concat]. rewrite or_else_nil.
    rewrite IH by apply last_split_noLF.
    rewrite app_assoc, (split_app (buffer ++ value) (List.concat rest)).
    pose proof (split_not_nil (last (split (buffer ++ value)) [] ++ List.concat rest)) as Hne.
    rewrite (removelast_app_r _ _ _ Hne), (last_app_r _ _ _ _ Hne), processLines_app.
    reflexivity.
Qed.

(** What [processLine] does with a [data:] line. *)
Lemma processLine_data (l data : jsstring) (c : SSE.SSEClient S) (s : S) :
  Observe.payloadOf l = Some data ->
  processLine l (c, s) =
    if eqb data (str "[DONE]") then (c, SSE.fire_onComplete c s)
    else
      let failed e s' :=
        (c, host (Console warn [Text (str "Failed to parse SSE message:");
                                Thrown e; Text (str "Raw data:"); Text data]) s') in
      match JSON_parse data with
      | Throw e => failed e s
      | Ok parsed =>
          match SSE.fire_onMessage parsed c s with
          | (s', None) => (c, s')
          | (s', Some e) => failed e s'
          end
      end.
Proof.
  unfold Observe.payloadOf, SSE.processLine. intros H.
  destruct (negb (truthy (trim l)) || startsWith (trim l) (str ":"));
    [discriminate|].
  destruct (startsWith (trim l) (str "data: ")); [|discriminate].
  injection H as H. subst data. reflexivity.
Qed.

(** Every other line leaves the state of the owner alone, up to an entry
    in the console, and calls no callback. *)
Lemma processLine_other (l : jsstring) (c : SSE.SSEClient S) (s : S) :
  Observe.payloadOf l = None ->
  exists c' s',
    processLine l (c, s) = (c', s')
    /\ Observe.core c' = Observe.core c
    /\ (s' = s \/ exists more, s' = host (Console debug more) s).
Proof.
  unfold Observe.payloadOf, SSE.processLine. intros H.
  destruct (negb (truthy (trim l)) || startsWith (trim l) (str ":")).
  { exists c, s. auto. }
  destruct (startsWith (trim l) (str "data: ")); [discriminate|].
  destruct (startsWith (trim l) (str "event: ")).
  { eexists c, _. split; [reflexivity|]. split; [reflexivity|]. right. eauto. }
  destruct (startsWith (trim l) (str "retry: ")); [|exists c, s; auto].
  destruct (parseInt (slice 7 (trim l))); [|exists c, s; auto].
  eexists _, s. split; [reflexivity|]. split; [reflexivity|]. left. reflexivity.
Qed.

Lemma payloadOf_data (l data : jsstring) :
  trim l = str "data: " ++ data -> Observe.payloadOf l = Some data.
Proof. unfold Observe.payloadOf. intros H. rewrite H. reflexivity. Qed.

(** No line changes the abort controller, the retry counter, the retry
    budget or the callbacks of the client. *)
Lemma processLine_core (l : jsstring) (cs : SSE.SSEClient S * S) :
  Observe.core (fst (processLine l cs)) = Observe.core (fst cs).
Proof.
  destruct cs as [c s].
  destruct (Observe.payloadOf l) as [data|] eqn:E.
  - rewrite (processLine_data l data c s E).
    destruct (eqb data (str "[DONE]")); [reflexivity|].
    cbv zeta. destruct (JSON_parse data); [|reflexivity].
    destruct (SSE.fire_onMessage a c s) as [s' [e|]]; reflexivity.
  - destruct (processLine_other l c s E) as (c' & s' & H & Hc & _).
    rewrite H. exact Hc.
Qed.

Lemma processLines_core (ls : list jsstring) :
  forall cs : SSE.SSEClient S * S,
    Observe.core (fst (processLines ls cs)) = Observe.core (fst cs).
Proof.
  induction ls as [|l ls IH]; intros cs; [reflexivity|].
  change (processLines (l :: ls) cs) with (processLines ls (processLine l cs)).
  rewrite IH. apply processLine_core.
Qed.

Lemma set_isConnected_core (b : bool) (c : SSE.SSEClient S) :
  Observe.core (SSE.set_isConnected b c) = Observe.core c.
Proof. reflexivity. Qed.

(** The error that [processStream] throws is the one of the failing read,
    and the client keeps its core. *)
Lemma processStream_spec (b : SSE.Body) (cs : SSE.SSEClient S * S) :
  fst (processStream b cs)
    = match SSE.ending b with SSE.ReadFails e => Some e | SSE.EndOfStream => None end
  /\ Observe.core (fst (snd (processStream b cs))) = Observe.core (fst cs).
Proof.
  unfold SSE.processStream.
  rewrite (readLoop_lines (SSE.chunks b) [] cs) by (intros []).
  pose proof (processLines_core (removelast (split ([] ++ List.concat (SSE.chunks b)))) cs) as Hc.
  destruct (processLines _ cs) as [c s]. cbn [fst] in Hc.
  destruct (SSE.ending b); cbn [fst snd]; (split; [reflexivity|]);
    rewrite set_isConnected_core; exact Hc.
Qed.

(** The [try] block of [attemptConnection] throws the error of the
    attempt, if any, and the client keeps its core. *)
Lemma tryConnection_spec (a : SSE.Attempt) (cs : SSE.SSEClient S * S) :
  fst (SSE.tryConnection host JSON_parse (SSE.outcome a) cs) = Observe.failure a
  /\ Observe.core (fst (snd (SSE.tryConnection host JSON_parse (SSE.outcome a) cs)))
     = Observe.core (fst cs).
Proof.
  unfold Observe.failure, SSE.tryConnection. destruct cs as [c s].
  destruct (SSE.outcome a) as [e|ok status statusText body].
  - split; reflexivity.
  - destruct ok; cbn [negb]; [|split; reflexivity].
    destruct body as [b|]; [|split; reflexivity].
    destruct (processStream_spec b
                (SSE.set_isConnected true c,
                 SSE.fire_onConnectionChange Status.connected
                   (SSE.set_isConnected true c) s)) as [H1 H2].
    split; [exact H1|]. rewrite H2. reflexivity.
Qed.

End ClientFacts.

(** C5. Parsing is invariant under chunk boundaries: however a text is cut
    into chunks, the read loop of [processStream] processes the lines that
    the text holds as one chunk, in the same order and with the same
    unfinished line left in the buffer; so the whole of [processStream],
    every callback and effect included, ends in the same state. *)
Theorem chunk_boundaries_do_not_matter
    (S : Type) (host : Effect -> S -> S)
    (JSON_parse : jsstring -> Result Fragment.t)
    (chunks : list jsstring) (ending : SSE.StreamEnd)
    (cs : SSE.SSEClient S * S) :
  SSE.readLoop host JSON_parse chunks [] cs
    = SSE.readLoop host JSON_parse [List.concat chunks] [] cs
  /\ SSE.readLoop host JSON_parse chunks [] cs
    = (SSE.processLines host JSON_parse (removelast (split (List.concat chunks))) cs,
       last (split (List.concat chunks)) [])
  /\ SSE.processStream host JSON_parse
       {| SSE.chunks := chunks; SSE.ending := ending |} cs
    = SSE.processStream host JSON_parse
       {| SSE.chunks := [List.concat chunks]; SSE.ending := ending |} cs.
Proof.
  assert (H : forall l, SSE.readLoop host JSON_parse l [] cs
            = (SSE.processLines host JSON_parse (removelast (split (List.concat l))) cs,
               last (split (List.concat l)) [])).
  { intros l. rewrite readLoop_lines by (intros []). reflexivity. }
  assert (E : SSE.readLoop host JSON_parse chunks [] cs
            = SSE.readLoop host JSON_parse [List.concat chunks] [] cs).
  { rewrite (H chunks), (H [List.concat chunks]). cbn [List.concat].
    rewrite app_nil_r. reflexivity. }
  split; [exact E|]. split; [apply H|].
  unfold SSE.processStream. cbn [SSE.chunks SSE.ending]. rewrite E. reflexivity.
Qed.

(** ** The retry loop of the client *)

Section RetryFacts.

Variable S : Type.
Variable host : Effect -> S -> S.
Variable JSON_parse : jsstring -> Result Fragment.t.

Local Abbreviation attemptConnection := (SSE.attemptConnection host JSON_parse).
Local Abbreviation connect := (SSE.connect host JSON_parse).

Lemma core_inv (c1 c : SSE.SSEClient S) :
  Observe.core c1 = Observe.core c ->
  SSE.abortController c1 = SSE.abortController c
  /\ SSE.retryCount c1 = SSE.retryCount c
  /\ SSE.retryBudget c1 = SSE.retryBudget c
  /\ SSE.onError (SSE.options c1) = SSE.onError (SSE.options c)
  /\ SSE.onConnectionChange (SSE.options c1) = SSE.onConnectionChange (SSE.options c)
  /\ Observe.handlers c1 = Observe.handlers c.
Proof.
  unfold Observe.core, Observe.handlers, SSE.retryBudget. intros H.
  injection H as H1 H2 H3 H4 H5 H6 H7.
  rewrite H1, H2, H3, H4, H5, H6, H7. repeat split.
Qed.

(** A transport failure while the budget lasts: the counter goes up by one
    and the next attempt of the script is made. *)
Lemma attempt_failed_retry (a : SSE.Attempt) (script : list SSE.Attempt)
    (c : SSE.SSEClient S) (s : S) (ac : SSE.AbortController) :
  Observe.transportFailure a = true ->
  SSE.abortController c = Some ac -> SSE.aborted ac = false ->
  (SSE.retryCount c < SSE.retryBudget c)%Z ->
  exists c' s',
    attemptConnection (a :: script) c s = attemptConnection script c' s'
    /\ Observe.core c' = Observe.core (SSE.set_retryCount (SSE.retryCount c + 1) c).
Proof.
  intros Hf Hac Hna Hlt.
  unfold Observe.transportFailure in Hf.
  apply andb_true_iff in Hf. destruct Hf as [Hd Hf].
  apply negb_true_iff in Hd.
  destruct (Observe.failure a) as [e|] eqn:Ef; [|discriminate].
  apply negb_true_iff in Hf.
  cbn [SSE.attemptConnection]. rewrite Hac.
  set (s0 := host Fetch (SSE.fire_onConnectionChange Status.connecting c s)).
  destruct (tryConnection_spec S host JSON_parse a (c, s0)) as [Ht Hc].
  destruct (SSE.tryConnection host JSON_parse (SSE.outcome a) (c, s0))
    as [thrown [c1 s1]].
  cbn [fst snd] in Ht, Hc. rewrite Ht, Ef, Hf.
  destruct (core_inv c1 c Hc) as (Ha & Hr & Hb & _).
  replace (SSE.retryCount (SSE.set_isConnected false c1)) with (SSE.retryCount c)
    by (symmetry; exact Hr).
  replace (SSE.retryBudget (SSE.set_isConnected false c1)) with (SSE.retryBudget c)
    by (symmetry; exact Hb).
  apply Z.ltb_lt in Hlt. rewrite Hlt, Hd.
  cbn [SSE.abortController SSE.set_retryCount SSE.set_isConnected].
  rewrite Ha, Hac, Hna. cbn [negb].
  eexists _, _. split; [reflexivity|].
  unfold Observe.core in *. cbn.
  injection Hc as H1 H2 H3 H4 H5 H6 H7.
  rewrite H1, H3, H4, H5, H6, H7. reflexivity.
Qed.

(** A transport failure once the budget is spent: [error] is reported,
    [onError] is called, the promise is rejected, and the rest of the
    script is not touched. *)
Lemma attempt_failed_final (a : SSE.Attempt) (script : list SSE.Attempt)
    (c : SSE.SSEClient S) (s : S) (ac : SSE.AbortController) (e : Error) :
  Observe.transportFailure a = true ->
  Observe.failure a = Some e ->
  SSE.abortController c = Some ac ->
  (SSE.retryBudget c <= SSE.retryCount c)%Z ->
  exists c' s0,
    attemptConnection (a :: script) c s =
      (SSE.Rejected e,
       (c', SSE.fire_onError e c' (SSE.fire_onConnectionChange Status.error c' s0)),
       script)
    /\ SSE.isConnected c' = false
    /\ Observe.core c' = Observe.core c.
Proof.
  intros Hf Ef Hac Hge.
  unfold Observe.transportFailure in Hf. rewrite Ef in Hf.
  apply andb_true_iff in Hf. destruct Hf as [_ Hf].
  apply negb_true_iff in Hf.
  cbn [SSE.attemptConnection]. rewrite Hac.
  set (s0 := host Fetch (SSE.fire_onConnectionChange Status.connecting c s)).
  destruct (tryConnection_spec S host JSON_parse a (c, s0)) as [Ht Hc].
  destruct (SSE.tryConnection host JSON_parse (SSE.outcome a) (c, s0))
    as [thrown [c1 s1]].
  cbn [fst snd] in Ht, Hc. rewrite Ht, Ef, Hf.
  destruct (core_inv c1 c Hc) as (Ha & Hr & Hb & _).
  replace (SSE.retryCount (SSE.set_isConnected false c1)) with (SSE.retryCount c)
    by (symmetry; exact Hr).
  replace (SSE.retryBudget (SSE.set_isConnected false c1)) with (SSE.retryBudget c)
    by (symmetry; exact Hb).
  apply Z.ltb_ge in Hge. rewrite Hge.
  exists (SSE.set_isConnected false c1), s1.
  split; [reflexivity|]. split; [reflexivity|].
  rewrite set_isConnected_core. exact Hc.
Qed.

(** An attempt whose stream ends cleanly resolves the promise. *)
Lemma attempt_clean (a : SSE.Attempt) (script : list SSE.Attempt)
    (c : SSE.SSEClient S) (s : S) (ac : SSE.AbortController) :
  Observe.cleanStream a = true ->
  SSE.abortController c = Some ac ->
  exists c' s',
    attemptConnection (a :: script) c s = (SSE.Resolved, (c', s'), script)
    /\ Observe.core c' = Observe.core c.
Proof.
  intros Hk Hac.
  assert (Ef : Observe.failure a = None).
  { unfold Observe.cleanStream in Hk. unfold Observe.failure.
    destruct (SSE.outcome a) as [e|ok status statusText body]; [discriminate|].
    destruct ok; [|discriminate]. destruct body as [b|]; [|discriminate].
    cbn [negb]. destruct (SSE.ending b); [reflexivity|discriminate]. }
  cbn [SSE.attemptConnection]. rewrite Hac.
  set (s0 := host Fetch (SSE.fire_onConnectionChange Status.connecting c s)).
  destruct (tryConnection_spec S host JSON_parse a (c, s0)) as [Ht Hc].
  destruct (SSE.tryConnection host JSON_parse (SSE.outcome a) (c, s0))
    as [thrown [c1 s1]].
  cbn [fst snd] in Ht, Hc. rewrite Ht, Ef.
  exists c1, s1. split; [reflexivity|exact Hc].
Qed.

(** A run of transport failures within the budget: each one is retried,
    and the counter ends at the number of failures above its start. *)
Lemma attempt_failures (failures : list SSE.Attempt) :
  forall (script : list SSE.Attempt) (c : SSE.SSEClient S) (s : S)
         (ac : SSE.AbortController),
    forallb Observe.transportFailure failures = true ->
    SSE.abortController c = Some ac -> SSE.aborted ac = false ->
    (SSE.retryCount c + Z.of_nat (List.length failures) <= SSE.retryBudget c)%Z ->
    exists c' s',
      attemptConnection (failures ++ script) c s = attemptConnection script c' s'
      /\ Observe.core c'
         = Observe.core
             (SSE.set_retryCount (SSE.retryCount c + Z.of_nat (List.length failures)) c).
Proof.
  induction failures as [|a failures IH]; intros script c s ac Hall Hac Hna Hle.
  - exists c, s. split; [reflexivity|].
    cbn [List.length Z.of_nat]. rewrite Z.add_0_r. destruct c; reflexivity.
  - cbn [forallb] in Hall. apply andb_true_iff in Hall. destruct Hall as [Ha Hall].
    cbn [List.length] in Hle. rewrite Nat2Z.inj_succ in Hle.
    destruct (attempt_failed_retry a (failures ++ script) c s ac Ha Hac Hna)
      as (c1 & s1 & E1 & C1); [lia|].
    destruct (core_inv _ _ C1) as (Ha1 & Hr1 & Hb1 & _).
    cbn [SSE.abortController SSE.retryCount SSE.set_retryCount] in Ha1, Hr1.
    assert (Hb1' : SSE.retryBudget c1 = SSE.retryBudget c) by exact Hb1.
    destruct (IH script c1 s1 ac Hall) as (c2 & s2 & E2 & C2).
    + rewrite Ha1. exact Hac.
    + exact Hna.
    + rewrite Hr1, Hb1'. lia.
    + exists c2, s2. split.
      * change ((a :: failures) ++ script) with (a :: (failures ++ script)).
        rewrite E1. exact E2.
      * rewrite C2. cbn [List.length]. rewrite Nat2Z.inj_succ, Hr1.
        unfold Observe.core in *. cbn.
        injection C1 as H1 H2 H3 H4 H5 H6 H7. cbn in H1, H3, H4, H5, H6, H7.
        rewrite H1, H3, H4, H5, H6, H7.
        replace (SSE.retryCount c + 1 + Z.of_nat (List.length failures))%Z
          with (SSE.retryCount c + Z.succ (Z.of_nat (List.length failures)))%Z by lia.
        reflexivity.
Qed.

End RetryFacts.

(** C7. Once [retryAttempts || 3] consecutive transport failures have been
    retried, the next transport failure ends the run: the status [error] is
    reported, [onError] is called with the error, the promise of [connect]
    is rejected with it, and the attempts that the script still holds are
    never made; the client is left inactive with its counter at the budget.
    A manual [connect()] sets the counter to zero before it attempts: the
    counter that the client had before has no influence on the run. *)
Theorem retry_budget_exhausted
    (S : Type) (host : Effect -> S -> S)
    (JSON_parse : jsstring -> Result Fragment.t)
    (c : SSE.SSEClient S) (s : S)
    (failures : list SSE.Attempt) (final : SSE.Attempt)
    (rest : list SSE.Attempt) (e : Error)
    (Hall : forallb Observe.transportFailure failures = true)
    (Hfinal : Observe.transportFailure final = true)
    (He : Observe.failure final = Some e)
    (Hlen : Z.of_nat (List.length failures) = Z.max 0 (SSE.retryBudget c)) :
  (exists c' s0,
      SSE.connect host JSON_parse (failures ++ final :: rest) c s
        = (SSE.Rejected e,
           (c', SSE.fire_onError e c'
                  (SSE.fire_onConnectionChange Status.error c' s0)),
           rest)
      /\ SSE.getRetryCount c' = Z.max 0 (SSE.retryBudget c)
      /\ SSE.isActive c' = false
      /\ Observe.handlers c' = Observe.handlers c)
  /\ (forall (k : Z) (script : list SSE.Attempt),
        SSE.connect host JSON_parse script (SSE.set_retryCount k c) s
          = SSE.connect host JSON_parse script c s)
  /\ (forall script : list SSE.Attempt,
        exists c0,
          SSE.connect host JSON_parse script c s
            = SSE.attemptConnection host JSON_parse script c0 s
          /\ SSE.getRetryCount c0 = 0%Z).
Proof.
  split; [|split; [reflexivity|]].
  2:{ intros script. eexists. split; [reflexivity|reflexivity]. }
  unfold SSE.connect.
  set (c2 := SSE.set_retryCount 0
               (SSE.set_abortController (Some {| SSE.aborted := false |}) c)).
  assert (Hb : SSE.retryBudget c2 = SSE.retryBudget c) by reflexivity.
  assert (Hh : Observe.handlers c2 = Observe.handlers c) by reflexivity.
  assert (Hrun : exists c1 s1,
             SSE.attemptConnection host JSON_parse (failures ++ final :: rest) c2 s
               = SSE.attemptConnection host JSON_parse (final :: rest) c1 s1
             /\ Observe.core c1
                = Observe.core (SSE.set_retryCount (Z.max 0 (SSE.retryBudget c)) c2)).
  { destruct failures as [|a failures].
    - exists c2, s. split; [reflexivity|].
      cbn [List.length Z.of_nat] in Hlen. rewrite <- Hlen. reflexivity.
    - destruct (attempt_failures S host JSON_parse (a :: failures)
                  (final :: rest) c2 s {| SSE.aborted := false |} Hall)
        as (c1 & s1 & E & C); [reflexivity|reflexivity| |].
      + rewrite Hb. change (SSE.retryCount c2) with 0%Z.
        cbn [List.length] in *. lia.
      + exists c1, s1. split; [exact E|]. rewrite C.
        change (SSE.retryCount c2) with 0%Z. rewrite Hlen. reflexivity. }
  destruct Hrun as (c1 & s1 & E & C).
  destruct (core_inv S _ _ C) as (Ha & Hr & Hb1 & _ & _ & Hh1).
  cbn [SSE.abortController SSE.retryCount SSE.set_retryCount] in Ha, Hr.
  destruct (attempt_failed_final S host JSON_parse final rest c1 s1
              {| SSE.aborted := false |} e Hfinal He)
    as (c' & s0 & E' & Hconn & C'); [exact Ha| |].
  { rewrite Hr. change (SSE.retryBudget c1 = SSE.retryBudget c) in Hb1.
    rewrite Hb1. lia. }
  destruct (core_inv S _ _ C') as (_ & Hr' & _ & _ & _ & Hh').
  exists c', s0. split; [rewrite E; exact E'|].
  split; [unfold SSE.getRetryCount; rewrite Hr'; exact Hr|].
  split; [unfold SSE.isActive; rewrite Hconn; reflexivity|].
  rewrite Hh', Hh1. reflexivity.
Qed.

(** The budget of the chat client is three retries: the fourth refusal in a
    row ends the run, and the response that would have followed is never
    requested. *)
Lemma retry_budget_exhausted_witness :
  (exists c' s0,
      SSE.connect Chat.host Sample.JSON_parse
        ([Sample.refuse; Sample.refuse; Sample.refuse]
           ++ Sample.refuse :: [Sample.respond [] SSE.EndOfStream])
        Chat.chatClient
        {| Chat.env := (Chat.initialState, Sample.world0);
           Chat.accumulatedContent := []; Chat.finalMetadata := None |}
        = (SSE.Rejected Sample.networkError,
           (c', SSE.fire_onError Sample.networkError c'
                  (SSE.fire_onConnectionChange Status.error c' s0)),
           [Sample.respond [] SSE.EndOfStream])
      /\ SSE.getRetryCount c' = Z.max 0 (SSE.retryBudget Chat.chatClient)
      /\ SSE.isActive c' = false
      /\ Observe.handlers c' = Observe.handlers Chat.chatClient)
  /\ (forall (k : Z) (script : list SSE.Attempt),
        SSE.connect Chat.host Sample.JSON_parse script
          (SSE.set_retryCount k Chat.chatClient)
          {| Chat.env := (Chat.initialState, Sample.world0);
             Chat.accumulatedContent := []; Chat.finalMetadata := None |}
          = SSE.connect Chat.host Sample.JSON_parse script Chat.chatClient
              {| Chat.env := (Chat.initialState, Sample.world0);
                 Chat.accumulatedContent := []; Chat.finalMetadata := None |})
  /\ (forall script : list SSE.Attempt,
        exists c0,
          SSE.connect Chat.host Sample.JSON_parse script Chat.chatClient
            {| Chat.env := (Chat.initialState, Sample.world0);
               Chat.accumulatedContent := []; Chat.finalMetadata := None |}
            = SSE.attemptConnection Chat.host Sample.JSON_parse script c0
                {| Chat.env := (Chat.initialState, Sample.world0);
                   Chat.accumulatedContent := []; Chat.finalMetadata := None |}
          /\ SSE.getRetryCount c0 = 0%Z).
Proof.
  apply (retry_budget_exhausted Chat.Turn Chat.host Sample.JSON_parse
           Chat.chatClient
           {| Chat.env := (Chat.initialState, Sample.world0);
              Chat.accumulatedContent := []; Chat.finalMetadata := None |}
           [Sample.refuse; Sample.refuse; Sample.refuse] Sample.refuse
           [Sample.respond [] SSE.EndOfStream] Sample.networkError);
    reflexivity.
Defined.

(** C6. A successful attempt leaves the retry counter where the failures
    before it put it: after [k] transport failures within the budget and a
    response whose stream ends cleanly, [connect] resolves and
    [getRetryCount()] is [k], not zero. Only [connect] resets the counter;
    the reconnect counter of [useETLMonitoring] is reset by [onopen]. *)
Theorem attempt_counter_survives_success
    (S : Type) (host : Effect -> S -> S)
    (JSON_parse : jsstring -> Result Fragment.t)
    (c : SSE.SSEClient S) (s : S)
    (failures : list SSE.Attempt) (success : SSE.Attempt)
    (rest : list SSE.Attempt)
    (Hall : forallb Observe.transportFailure failures = true)
    (Hlen : (Z.of_nat (List.length failures) <= SSE.retryBudget c)%Z)
    (Hok : Observe.cleanStream success = true) :
  (exists c' s',
      SSE.connect host JSON_parse (failures ++ success :: rest) c s
        = (SSE.Resolved, (c', s'), rest)
      /\ SSE.getRetryCount c' = Z.of_nat (List.length failures))
  /\ (forall sys : ETL.Sys,
        ETL.reconnectAttemptsRef (ETL.hook (ETL.onopen sys)) = 0%Z).
Proof.
  split; [|reflexivity].
  unfold SSE.connect.
  set (c2 := SSE.set_retryCount 0
               (SSE.set_abortController (Some {| SSE.aborted := false |}) c)).
  destruct (attempt_failures S host JSON_parse failures (success :: rest) c2 s
              {| SSE.aborted := false |} Hall)
    as (c1 & s1 & E & C); [reflexivity|reflexivity|exact Hlen|].
  destruct (core_inv S _ _ C) as (Ha & Hr & _).
  cbn [SSE.abortController SSE.retryCount SSE.set_retryCount] in Ha, Hr.
  destruct (attempt_clean S host JSON_parse success rest c1 s1
              {| SSE.aborted := false |} Hok Ha)
    as (c' & s' & E' & C').
  destruct (core_inv S _ _ C') as (_ & Hr' & _).
  exists c', s'. split; [rewrite E; exact E'|].
  unfold SSE.getRetryCount. rewrite Hr', Hr. reflexivity.
Qed.

(** One refusal, then a response: the counter reads one after the
    connection has succeeded. *)
Lemma attempt_counter_survives_success_witness :
  (exists c' s',
      SSE.connect Chat.host Sample.JSON_parse
        ([Sample.refuse] ++ Sample.respond [] SSE.EndOfStream :: [])
        Chat.chatClient
        {| Chat.env := (Chat.initialState, Sample.world0);
           Chat.accumulatedContent := []; Chat.finalMetadata := None |}
        = (SSE.Resolved, (c', s'), [])
      /\ SSE.getRetryCount c' = Z.of_nat (List.length [Sample.refuse]))
  /\ (forall sys : ETL.Sys,
        ETL.reconnectAttemptsRef (ETL.hook (ETL.onopen sys)) = 0%Z).
Proof.
  apply (attempt_counter_survives_success Chat.Turn Chat.host Sample.JSON_parse
           Chat.chatClient
           {| Chat.env := (Chat.initialState, Sample.world0);
              Chat.accumulatedContent := []; Chat.finalMetadata := None |}
           [Sample.refuse] (Sample.respond [] SSE.EndOfStream) []).
  - reflexivity.
  - vm_compute. discriminate.
  - reflexivity.
Defined.

(** ** The store of the chat *)

Section ChatFacts.

Import Chat Observe.

Lemma withContent_withContent (a b : jsstring) (m : Message.t) :
  withContent a (withContent b m) = withContent a m.
Proof. reflexivity. Qed.

Lemma withContent_same (m : Message.t) : withContent (Message.content m) m = m.
Proof. destruct m; reflexivity. Qed.

Lemma touch_spec (g : list Message.t -> list Message.t) (c : Conversation.t)
    (w : World) :
  Conversation.id (fst (touch g c w)) = Conversation.id c
  /\ Conversation.messages (fst (touch g c w)) = g (Conversation.messages c)
  /\ effects (snd (touch g c w)) = effects w.
Proof. repeat split. Qed.

(** [touchWhere] rewrites the messages of the first conversation with the
    id, and of the others with it. *)
Lemma touchWhere_find (cid : jsstring) (g : list Message.t -> list Message.t) :
  forall (l : list Conversation.t) (w : World) (c : Conversation.t),
    find (fun c => eqb (Conversation.id c) cid) l = Some c ->
    exists c',
      find (fun c => eqb (Conversation.id c) cid) (fst (touchWhere (Some cid) g l w))
        = Some c'
      /\ Conversation.id c' = Conversation.id c
      /\ Conversation.messages c' = g (Conversation.messages c).
Proof.
  induction l as [|a l IH]; intros w c H; [discriminate|].
  unfold touchWhere in *. cbn [mapW]. cbn [opt_eqb find] in *.
  destruct (eqb (Conversation.id a) cid) eqn:Ea.
  - injection H as H. subst a.
    destruct (touch g c w) as [c' w1] eqn:Et.
    destruct (mapW _ l w1) as [l' w2]. cbn [fst find].
    pose proof (touch_spec g c w) as (Hi & Hm & _). rewrite Et in Hi, Hm.
    cbn [fst] in Hi, Hm. rewrite Hi, Ea. exists c'. auto.
  - destruct (IH w c H) as (c' & Hf & Hi & Hm).
    destruct (mapW _ l w) as [l' w2]. cbn [fst find] in *. rewrite Ea.
    exists c'. auto.
Qed.

(** [touchWhere] does not write to the console. *)
Lemma touchWhere_effects (cid : option jsstring)
    (g : list Message.t -> list Message.t) :
  forall (l : list Conversation.t) (w : World),
    effects (snd (touchWhere cid g l w)) = effects w.
Proof.
  induction l as [|a l IH]; intros w; [reflexivity|].
  unfold touchWhere in *. cbn [mapW].
  destruct (opt_eqb (Some (Conversation.id a)) cid).
  - destruct (touch g a w) as [c' w1] eqn:Et.
    specialize (IH w1). destruct (mapW _ l w1) as [l' w2]. cbn [snd] in *.
    rewrite IH. pose proof (touch_spec g a w) as (_ & _ & He).
    rewrite Et in He. exact He.
  - specialize (IH w). destruct (mapW _ l w) as [l' w2]. exact IH.
Qed.

Lemma replaceMessage_find (mid : jsstring) (m' : Message.t) :
  Message.id m' = mid ->
  forall (ms : list Message.t) (x : Message.t),
    find (fun m => eqb (Message.id m) mid) ms = Some x ->
    find (fun m => eqb (Message.id m) mid) (replaceMessage mid m' ms) = Some m'.
Proof.
  intros Hid. induction ms as [|a ms IH]; intros x H; [discriminate|].
  cbn [replaceMessage List.map find] in *.
  destruct (eqb (Message.id a) mid) eqn:Ea.
  - rewrite Hid, eqb_refl. reflexivity.
  - rewrite Ea. exact (IH x H).
Qed.

(** What [replaceStreaming] leaves in the store. *)
Lemma replaceStreaming_spec (sm m' x y : Message.t) (next : option Message.t)
    (cid : jsstring) (st : ChatState) (w : World) :
  Message.id m' = Message.id sm ->
  currentConversationId st = Some cid ->
  lookupMessage cid (Message.id sm) st = Some x ->
  lookupCurrent (Message.id sm) st = Some y ->
  let st' := fst (replaceStreaming sm m' next (st, w)) in
  streamingMessage st' = next
  /\ currentConversationId st' = Some cid
  /\ lookupMessage cid (Message.id sm) st' = Some m'
  /\ lookupCurrent (Message.id sm) st' = Some m'
  /\ isStreaming st' = isStreaming st
  /\ isLoading st' = isLoading st
  /\ error st' = error st
  /\ connectionStatus st' = connectionStatus st
  /\ sseClient st' = sseClient st
  /\ effects (snd (replaceStreaming sm m' next (st, w))) = effects w.
Proof.
  intros Hid Hcid Hx Hy. unfold replaceStreaming. rewrite Hcid.
  unfold lookupMessage, findConversation in Hx.
  destruct (find (fun c => eqb (Conversation.id c) cid) (conversations st))
    as [c|] eqn:Ec; [|discriminate].
  destruct (touchWhere_find cid (replaceMessage (Message.id sm) m')
              (conversations st) w c Ec) as (c' & Hf & Hi & Hm).
  pose proof (touchWhere_effects (Some cid) (replaceMessage (Message.id sm) m')
                (conversations st) w) as He.
  destruct (touchWhere (Some cid) (replaceMessage (Message.id sm) m')
              (conversations st) w) as [convs w1].
  cbn [fst snd] in Hf, He.
  unfold lookupCurrent in Hy.
  destruct (currentConversation st) as [cur|] eqn:Ecur; [|discriminate].
  destruct (touch (replaceMessage (Message.id sm) m') cur w1) as [cur' w2] eqn:Et.
  pose proof (touch_spec (replaceMessage (Message.id sm) m') cur w1) as (_ & Hcm & Hce).
  rewrite Et in Hcm, Hce. cbn [fst snd] in Hcm, Hce.
  cbv zeta. cbn [fst snd].
  unfold lookupMessage, findConversation, lookupCurrent.
  cbn [streamingMessage currentConversationId conversations currentConversation
       isStreaming isLoading error connectionStatus sseClient
       set_currentConversation set_conversations set_streamingMessage].
  rewrite Hf, Hm, Hcm.
  rewrite (replaceMessage_find (Message.id sm) m' Hid _ x Hx).
  rewrite (replaceMessage_find (Message.id sm) m' Hid _ y Hy).
  rewrite Hce, He. repeat split; reflexivity || exact Hcid.
Qed.

(** One chunk extends what the placeholder shows by its content. *)
Lemma chunk_step (sm : Message.t) (cid text : jsstring) (fm : option Metadata)
    (t : Turn) (f : Fragment.t) :
  Streaming sm cid text fm t ->
  isChunk f = true ->
  snd (onMessage f t) = None
  /\ Streaming sm cid (text ++ Fragment.content f) fm (fst (onMessage f t))
  /\ isStreaming (store (fst (onMessage f t))) = isStreaming (store t)
  /\ effects (world (fst (onMessage f t))) = effects (world t).
Proof.
  intros (Hacc & Hfm & Hsm & Hcid & Htr & Hin & Hcur) Hf.
  unfold isChunk in Hf. unfold onMessage.
  destruct (Fragment.type f); try discriminate. cbn [fst snd].
  destruct t as [[st w] acc fm0]. unfold store, world in *. cbn [env fst snd] in *.
  cbn [accumulatedContent finalMetadata] in *. subst acc fm0.
  unfold updateStreamingMessage. rewrite Hsm, Hcid. cbn [truthy_opt]. rewrite Htr.
  cbn [negb].
  pose proof (replaceStreaming_spec (withContent text sm)
                (withContent (text ++ Fragment.content f) sm)
                (withContent text sm) (withContent text sm)
                (Some (withContent (text ++ Fragment.content f) sm))
                cid st w eq_refl Hcid Hin Hcur) as H.
  cbv zeta in H.
  destruct H as (H1 & H2 & H3 & H4 & H5 & _ & _ & _ & _ & H10).
  change (Message.id (withContent text sm)) with (Message.id sm) in H3, H4.
  unfold Streaming, store. cbn [env accumulatedContent finalMetadata].
  split; [reflexivity|]. split; [|split; [exact H5|exact H10]].
  repeat split; assumption.
Qed.

(** An entry in the console changes nothing in a streaming turn. *)
Lemma host_Streaming (sm : Message.t) (cid text : jsstring)
    (fm : option Metadata) (t : Turn) (e : Effect) :
  Streaming sm cid text fm t -> Streaming sm cid text fm (Chat.host e t).
Proof. intros H. exact H. Qed.

Lemma deliver_app (fs gs : list Fragment.t) (t : Turn) :
  deliver (fs ++ gs) t = deliver gs (deliver fs t).
Proof. unfold deliver. apply fold_left_app. Qed.

(** The chunks of a stream add up in the placeholder. *)
Lemma deliver_chunks (sm : Message.t) (cid : jsstring) (fm : option Metadata)
    (fs : list Fragment.t) :
  forall (text : jsstring) (t : Turn),
    forallb isChunk fs = true ->
    Streaming sm cid text fm t ->
    Streaming sm cid (text ++ List.concat (List.map Fragment.content fs)) fm
      (deliver fs t).
Proof.
  induction fs as [|f fs IH]; intros text t Hall H.
  - cbn [List.map List.concat]. rewrite app_nil_r. exact H.
  - cbn [forallb] in Hall. apply andb_true_iff in Hall. destruct Hall as [Hf Hall].
    destruct (chunk_step sm cid text fm t f H Hf) as (_ & H1 & _).
    cbn [List.map List.concat]. rewrite app_assoc.
    exact (IH _ _ Hall H1).
Qed.

End ChatFacts.

(** C1. While chunks arrive, the placeholder shows their concatenation in
    the order of arrival: after the chunks [fs], the accumulator, the
    streaming message, its entry in the current conversation of the list
    and its entry in [currentConversation] all hold what the placeholder
    held before, followed by the contents of [fs]. No chunk throws, and one
    more chunk appends its content to what is shown. *)
Theorem chunks_concatenate
    (t : Chat.Turn) (sm : Message.t) (cid : jsstring) (fs : list Fragment.t)
    (Hchunks : forallb Observe.isChunk fs = true)
    (Hsm : Chat.streamingMessage (Chat.store t) = Some sm)
    (Hacc : Chat.accumulatedContent t = Message.content sm)
    (Hcid : Chat.currentConversationId (Chat.store t) = Some cid)
    (Htruthy : truthy cid = true)
    (Hin : Observe.lookupMessage cid (Message.id sm) (Chat.store t) = Some sm)
    (Hcur : Observe.lookupCurrent (Message.id sm) (Chat.store t) = Some sm) :
  let text := Message.content sm ++ List.concat (List.map Fragment.content fs) in
  let t' := Observe.deliver fs t in
  Chat.accumulatedContent t' = text
  /\ Chat.streamingMessage (Chat.store t') = Some (Observe.withContent text sm)
  /\ Observe.lookupMessage cid (Message.id sm) (Chat.store t')
     = Some (Observe.withContent text sm)
  /\ Observe.lookupCurrent (Message.id sm) (Chat.store t')
     = Some (Observe.withContent text sm)
  /\ (forall f : Fragment.t,
        Observe.isChunk f = true ->
        snd (Chat.onMessage f t') = None
        /\ Chat.streamingMessage (Chat.store (Observe.deliver (fs ++ [f]) t))
           = Some (Observe.withContent (text ++ Fragment.content f) sm)).
Proof.
  intros text t'.
  assert (H0 : Observe.Streaming sm cid (Message.content sm)
                 (Chat.finalMetadata t) t).
  { unfold Observe.Streaming. rewrite withContent_same. repeat split; assumption. }
  pose proof (deliver_chunks sm cid (Chat.finalMetadata t) fs _ t Hchunks H0) as H.
  fold text in H. fold t' in H.
  destruct H as (H1 & H2 & H3 & H4 & H5 & H6 & H7).
  split; [exact H1|]. split; [exact H3|]. split; [exact H6|]. split; [exact H7|].
  intros f Hf.
  destruct (chunk_step sm cid text (Chat.finalMetadata t) t' f) as (E & S & _).
  { unfold Observe.Streaming. repeat split; assumption. }
  { exact Hf. }
  split; [exact E|].
  rewrite deliver_app. fold t'. destruct S as (_ & _ & S3 & _). exact S3.
Qed.

(** Two chunks into the empty placeholder of the sample turn. *)
Lemma chunks_concatenate_witness :
  let fs := [Sample.fragment Fragment.chunk "Hel";
             Sample.fragment Fragment.chunk "lo"] in
  let text := Message.content Sample.placeholder
                ++ List.concat (List.map Fragment.content fs) in
  let t' := Observe.deliver fs Sample.streamingTurn in
  Chat.accumulatedContent t' = text
  /\ Chat.streamingMessage (Chat.store t')
     = Some (Observe.withContent text Sample.placeholder)
  /\ Observe.lookupMessage (str "c1") (Message.id Sample.placeholder) (Chat.store t')
     = Some (Observe.withContent text Sample.placeholder)
  /\ Observe.lookupCurrent (Message.id Sample.placeholder) (Chat.store t')
     = Some (Observe.withContent text Sample.placeholder)
  /\ (forall f : Fragment.t,
        Observe.isChunk f = true ->
        snd (Chat.onMessage f t') = None
        /\ Chat.streamingMessage
             (Chat.store (Observe.deliver (fs ++ [f]) Sample.streamingTurn))
           = Some (Observe.withContent (text ++ Fragment.content f)
                     Sample.placeholder)).
Proof.
  apply (chunks_concatenate Sample.streamingTurn Sample.placeholder (str "c1")
           [Sample.fragment Fragment.chunk "Hel";
            Sample.fragment Fragment.chunk "lo"]);
    reflexivity.
Defined.

Example chunks_concatenate_text :
  option_map Message.content
    (Observe.lookupMessage (str "c1") (str "p1")
       (Chat.store
          (Observe.deliver [Sample.fragment Fragment.chunk "Hel";
                            Sample.fragment Fragment.chunk "lo"]
             Sample.streamingTurn)))
  = Some (str "Hello").
Proof. reflexivity. Qed.

(** ** A stream of the chat client, line by line *)

Section ChatStreamFacts.

Import Chat Observe.

Variable JSON_parse : jsstring -> Result Fragment.t.

Lemma fragmentsOf_cons (l : jsstring) (ls : list jsstring) :
  fragmentsOf JSON_parse (l :: ls)
    = fragmentsOf JSON_parse [l] ++ fragmentsOf JSON_parse ls.
Proof. unfold fragmentsOf. cbn [flat_map]. rewrite app_nil_r. reflexivity. Qed.

Lemma chunkText_app (fs gs : list Fragment.t) :
  chunkText (fs ++ gs) = chunkText fs ++ chunkText gs.
Proof. unfold chunkText. rewrite filter_app, List.map_app, concat_app. reflexivity. Qed.

Lemma chat_handlers (c : SSE.SSEClient Turn) :
  handlers c = handlers chatClient ->
  SSE.onMessage (SSE.options c) = Some onMessage
  /\ SSE.onError (SSE.options c) = Some onError
  /\ SSE.onComplete (SSE.options c) = Some onComplete
  /\ SSE.onConnectionChange (SSE.options c) = Some onConnectionChange.
Proof. unfold handlers. cbn. intros H. injection H as H1 H2 H3 H4. auto. Qed.

(** One line of a stream that holds neither the sentinel nor a [complete]
    fragment: a chunk extends what the placeholder shows, every other line
    leaves it as it is. *)
Lemma processLine_streaming (sm : Message.t) (cid text : jsstring)
    (fm : option Metadata) (l : jsstring) (c : SSE.SSEClient Turn) (t : Turn) :
  handlers c = handlers chatClient ->
  Streaming sm cid text fm t ->
  isDone l = false ->
  forallb (fun f => negb (isComplete f)) (fragmentsOf JSON_parse [l]) = true ->
  exists c' t',
    SSE.processLine host JSON_parse l (c, t) = (c', t')
    /\ core c' = core c
    /\ Streaming sm cid (text ++ chunkText (fragmentsOf JSON_parse [l])) fm t'.
Proof.
  intros Hh HS Hd Hc.
  destruct (chat_handlers c Hh) as (Hm & _).
  unfold isDone in Hd. unfold fragmentsOf in *. cbn [flat_map] in *.
  rewrite app_nil_r in *.
  destruct (payloadOf l) as [data|] eqn:Ep.
  - rewrite (processLine_data Turn host JSON_parse l data c t Ep). rewrite Hd in *.
    cbv zeta. destruct (JSON_parse data) as [f|e].
    + unfold SSE.fire_onMessage. rewrite Hm.
      cbn [forallb] in Hc. rewrite andb_true_r in Hc. apply negb_true_iff in Hc.
      unfold isComplete in Hc. unfold chunkText, isChunk. cbn [filter].
      destruct (Fragment.type f) eqn:Ef; [| discriminate |].
      * destruct (chunk_step sm cid text fm t f HS) as (E & S' & _).
        { unfold isChunk. rewrite Ef. reflexivity. }
        destruct (onMessage f t) as [t' thrown]. cbn [fst snd] in E, S'. subst thrown.
        exists c, t'. split; [reflexivity|]. split; [reflexivity|].
        cbn [List.map List.concat]. rewrite app_nil_r. exact S'.
      * unfold onMessage. rewrite Ef. eexists c, _. split; [reflexivity|].
        split; [reflexivity|]. cbn [List.map List.concat]. rewrite app_nil_r.
        apply host_Streaming. exact HS.
    + eexists c, _. split; [reflexivity|]. split; [reflexivity|].
      unfold chunkText. cbn [filter List.map List.concat]. rewrite app_nil_r.
      apply host_Streaming. exact HS.
  - destruct (processLine_other Turn host JSON_parse l c t Ep)
      as (c' & t' & E & C & Ht).
    exists c', t'. split; [exact E|]. split; [exact C|].
    unfold chunkText. cbn [filter List.map List.concat]. rewrite app_nil_r.
    destruct Ht as [Ht|[more Ht]]; subst t'; [exact HS|].
    apply host_Streaming. exact HS.
Qed.

Lemma processLines_streaming (sm : Message.t) (cid : jsstring)
    (fm : option Metadata) (ls : list jsstring) :
  forall (text : jsstring) (c : SSE.SSEClient Turn) (t : Turn),
    handlers c = handlers chatClient ->
    Streaming sm cid text fm t ->
    existsb isDone ls = false ->
    forallb (fun f => negb (isComplete f)) (fragmentsOf JSON_parse ls) = true ->
    exists c' t',
      SSE.processLines host JSON_parse ls (c, t) = (c', t')
      /\ core c' = core c
      /\ Streaming sm cid (text ++ chunkText (fragmentsOf JSON_parse ls)) fm t'.
Proof.
  induction ls as [|l ls IH]; intros text c t Hh HS Hd Hc.
  - exists c, t. split; [reflexivity|]. split; [reflexivity|].
    unfold chunkText. cbn. rewrite app_nil_r. exact HS.
  - cbn [existsb] in Hd. apply orb_false_iff in Hd. destruct Hd as [Hd Hds].
    rewrite fragmentsOf_cons in Hc. rewrite forallb_app in Hc.
    apply andb_true_iff in Hc. destruct Hc as [Hc Hcs].
    destruct (processLine_streaming sm cid text fm l c t Hh HS Hd Hc)
      as (c1 & t1 & E1 & C1 & S1).
    assert (Hh1 : handlers c1 = handlers chatClient).
    { destruct (core_inv Turn c1 c C1) as (_ & _ & _ & _ & _ & H). rewrite H. exact Hh. }
    destruct (IH _ c1 t1 Hh1 S1 Hds Hcs) as (c2 & t2 & E2 & C2 & S2).
    exists c2, t2. split.
    + change (SSE.processLines host JSON_parse (l :: ls) (c, t))
        with (SSE.processLines host JSON_parse ls
                (SSE.processLine host JSON_parse l (c, t))).
      rewrite E1. exact E2.
    + split; [rewrite C2; exact C1|].
      rewrite fragmentsOf_cons, chunkText_app, app_assoc. exact S2.
Qed.

(** [onComplete] on a streaming turn: the placeholder becomes the
    completed message and stays where it is. *)
Lemma onComplete_spec (sm : Message.t) (cid text : jsstring)
    (fm : option Metadata) (t : Turn) :
  Streaming sm cid text fm t ->
  isStreaming (store (onComplete t)) = false
  /\ streamingMessage (store (onComplete t)) = None
  /\ sseClient (store (onComplete t)) = None
  /\ lookupMessage cid (Message.id sm) (store (onComplete t))
     = Some (completed text fm sm)
  /\ lookupCurrent (Message.id sm) (store (onComplete t))
     = Some (completed text fm sm).
Proof.
  intros (Hacc & Hfm & Hsm & Hcid & Htr & Hin & Hcur).
  destruct t as [[st w] acc fm0]. unfold store in *.
  cbn [env fst snd accumulatedContent finalMetadata] in *. subst acc fm0.
  unfold onComplete. cbn [env accumulatedContent finalMetadata].
  unfold completeStreamingMessage. rewrite Hsm, Hcid. cbn [truthy_opt].
  rewrite Htr. cbn [negb].
  pose proof (replaceStreaming_spec (withContent text sm) (completed text fm sm)
                (withContent text sm) (withContent text sm) None
                cid st w eq_refl Hcid Hin Hcur) as H.
  cbv zeta in H. destruct H as (_ & _ & H3 & H4 & _).
  change (Message.id (withContent text sm)) with (Message.id sm) in H3, H4.
  change ({| Message.id := Message.id (withContent text sm);
             Message.content := text;
             Message.role := Message.role (withContent text sm);
             Message.timestamp := Message.timestamp (withContent text sm);
             Message.isStreaming := false;
             Message.feedback := Message.feedback (withContent text sm);
             Message.metadata := fm |}) with (completed text fm sm).
  destruct (replaceStreaming (withContent text sm) (completed text fm sm) None (st, w))
    as [st' w']. cbn [fst snd] in *.
  repeat split; assumption.
Qed.

End ChatStreamFacts.

(** C10. A stream that ends without the [[DONE]] sentinel and without a
    [complete] fragment still finalizes the placeholder: [processStream]
    returns without an error, [onComplete] has run, the store is no longer
    streaming, and the message of the placeholder is still in its
    conversation, not streaming any more, with the concatenation of the
    chunks as its content. *)
Theorem stream_end_finalizes
    (JSON_parse : jsstring -> Result Fragment.t)
    (c : SSE.SSEClient Chat.Turn) (t : Chat.Turn)
    (sm : Message.t) (cid : jsstring) (chunks : list jsstring)
    (Hh : Observe.handlers c = Observe.handlers Chat.chatClient)
    (Hsm : Chat.streamingMessage (Chat.store t) = Some sm)
    (Hacc : Chat.accumulatedContent t = Message.content sm)
    (Hcid : Chat.currentConversationId (Chat.store t) = Some cid)
    (Htruthy : truthy cid = true)
    (Hin : Observe.lookupMessage cid (Message.id sm) (Chat.store t) = Some sm)
    (Hcur : Observe.lookupCurrent (Message.id sm) (Chat.store t) = Some sm)
    (Hnodone : existsb Observe.isDone (Observe.linesOf chunks) = false)
    (Hnocomplete :
       forallb (fun f => negb (Observe.isComplete f))
         (Observe.fragmentsOf JSON_parse (Observe.linesOf chunks)) = true) :
  let text :=
    Message.content sm
    ++ Observe.chunkText (Observe.fragmentsOf JSON_parse (Observe.linesOf chunks)) in
  exists c' t',
    SSE.processStream Chat.host JSON_parse
      {| SSE.chunks := chunks; SSE.ending := SSE.EndOfStream |} (c, t)
      = (None, (c', t'))
    /\ Chat.isStreaming (Chat.store t') = false
    /\ Chat.streamingMessage (Chat.store t') = None
    /\ Observe.lookupMessage cid (Message.id sm) (Chat.store t')
       = Some (Observe.completed text (Chat.finalMetadata t) sm)
    /\ Observe.lookupCurrent (Message.id sm) (Chat.store t')
       = Some (Observe.completed text (Chat.finalMetadata t) sm)
    /\ Chat.connectionStatus (Chat.store t') = Status.disconnected.
Proof.
  intros text.
  assert (H0 : Observe.Streaming sm cid (Message.content sm)
                 (Chat.finalMetadata t) t).
  { unfold Observe.Streaming. rewrite withContent_same. repeat split; assumption. }
  destruct (processLines_streaming JSON_parse sm cid (Chat.finalMetadata t)
              (Observe.linesOf chunks) _ c t Hh H0 Hnodone Hnocomplete)
    as (c1 & t1 & E & C & S1).
  fold text in S1.
  unfold SSE.processStream. cbn [SSE.chunks SSE.ending].
  rewrite (readLoop_lines Chat.Turn Chat.host JSON_parse chunks [] (c, t))
    by (intros []).
  change (removelast (split ([] ++ List.concat chunks))) with (Observe.linesOf chunks).
  rewrite E.
  destruct (core_inv Chat.Turn c1 c C) as (_ & _ & _ & _ & _ & Hh1).
  rewrite Hh in Hh1. destruct (chat_handlers c1 Hh1) as (_ & _ & Hc & Hs).
  unfold SSE.fire_onComplete, SSE.fire_onConnectionChange.
  cbn [SSE.options SSE.set_isConnected]. rewrite Hc, Hs.
  eexists _, _. split; [reflexivity|].
  destruct (onComplete_spec sm cid text (Chat.finalMetadata t) t1 S1)
    as (A1 & A2 & _ & A4 & A5).
  destruct (Chat.onComplete t1) as [[st w] acc fm].
  unfold Chat.store in *. cbn in *. repeat split; assumption.
Qed.

(** Two chunks and an [error] fragment in two reads, then the end of the
    stream: the placeholder of the sample turn is finalized. *)
Lemma stream_end_finalizes_witness :
  let chunks :=
    [Sample.dataLine (Sample.payload "chunk" "Hel");
     Sample.dataLine (Sample.payload "error" "boom")
       ++ Sample.dataLine (Sample.payload "chunk" "lo")] in
  let text :=
    Message.content Sample.placeholder
    ++ Observe.chunkText
         (Observe.fragmentsOf Sample.JSON_parse (Observe.linesOf chunks)) in
  exists c' t',
    SSE.processStream Chat.host Sample.JSON_parse
      {| SSE.chunks := chunks; SSE.ending := SSE.EndOfStream |}
      (Chat.chatClient, Sample.streamingTurn)
      = (None, (c', t'))
    /\ Chat.isStreaming (Chat.store t') = false
    /\ Chat.streamingMessage (Chat.store t') = None
    /\ Observe.lookupMessage (str "c1") (Message.id Sample.placeholder) (Chat.store t')
       = Some (Observe.completed text (Chat.finalMetadata Sample.streamingTurn)
                 Sample.placeholder)
    /\ Observe.lookupCurrent (Message.id Sample.placeholder) (Chat.store t')
       = Some (Observe.completed text (Chat.finalMetadata Sample.streamingTurn)
                 Sample.placeholder)
    /\ Chat.connectionStatus (Chat.store t') = Status.disconnected.
Proof.
  apply (stream_end_finalizes Sample.JSON_parse Chat.chatClient
           Sample.streamingTurn Sample.placeholder (str "c1")
           [Sample.dataLine (Sample.payload "chunk" "Hel");
            Sample.dataLine (Sample.payload "error" "boom")
              ++ Sample.dataLine (Sample.payload "chunk" "lo")]);
    reflexivity.
Defined.

(** The whole turn, from [sendMessage] on the initial store to the end of
    a stream of two chunks: the promise resolves and the conversation holds
    the message of the user and the finished answer. *)
Example sendMessage_stream_end :
  match Chat.sendMessage Sample.JSON_parse
          [Sample.respond [Sample.dataLine (Sample.payload "chunk" "Hel");
                           Sample.dataLine (Sample.payload "chunk" "lo")]
             SSE.EndOfStream]
          (str "hi") (Chat.initialState, Sample.world0) with
  | (r, (st, _), rest) =>
      (r, Chat.isStreaming st, rest,
       List.map (fun c =>
                   List.map (fun m => (Message.role m, Message.content m,
                                       Message.isStreaming m))
                     (Conversation.messages c))
         (Chat.conversations st))
  end
  = (SSE.Resolved, false, [],
     [[(Message.user, str "hi", false); (Message.assistant, str "Hello", false)]]).
Proof. vm_compute. reflexivity. Qed.

(** C9. While a stream is active, [sendMessage] throws its error before
    anything else happens: the promise is rejected with
    [Cannot send message while streaming], the store and its host are
    what they were, and no attempt of the script is made. *)
Theorem sendMessage_rejects_while_streaming
    (JSON_parse : jsstring -> Result Fragment.t)
    (script : list SSE.Attempt) (messageContent : jsstring)
    (st : Chat.ChatState) (w : World)
    (Hstreaming : Chat.isStreaming st = true) :
  Chat.sendMessage JSON_parse script messageContent (st, w)
    = (SSE.Rejected (new_Error (str "Cannot send message while streaming")),
       (st, w), script).
Proof. unfold Chat.sendMessage. rewrite Hstreaming. reflexivity. Qed.

Lemma sendMessage_rejects_while_streaming_witness :
  Chat.sendMessage Sample.JSON_parse [Sample.respond [] SSE.EndOfStream]
    (str "again") (Sample.streamingState, Sample.world0)
    = (SSE.Rejected (new_Error (str "Cannot send message while streaming")),
       (Sample.streamingState, Sample.world0),
       [Sample.respond [] SSE.EndOfStream]).
Proof.
  apply (sendMessage_rejects_while_streaming Sample.JSON_parse
           [Sample.respond [] SSE.EndOfStream] (str "again")
           Sample.streamingState Sample.world0).
  reflexivity.
Defined.

(** C2. [onError] does not remove the placeholder. Its first [set] clears
    [streamingMessage], and the removal that follows is guarded by the
    [streamingMessage] of the state read after that [set]: the guard never
    holds, so the conversations and the current conversation are what they
    were. In the sample turn the placeholder [p1] is still in the
    conversation [c1] after [onError]; and after [sendMessage] has used up
    the retry budget on four refusals, the conversation still ends with
    the empty placeholder, marked as streaming. *)
Theorem onError_keeps_the_placeholder :
  (forall (err : Error) (t : Chat.Turn),
      Chat.conversations (Chat.store (Chat.onError err t))
        = Chat.conversations (Chat.store t)
      /\ Chat.currentConversation (Chat.store (Chat.onError err t))
         = Chat.currentConversation (Chat.store t))
  /\ Observe.lookupMessage (str "c1") (str "p1")
       (Chat.store (Chat.onError Sample.networkError Sample.streamingTurn))
     = Some Sample.placeholder
  /\ match Chat.sendMessage Sample.JSON_parse
             [Sample.refuse; Sample.refuse; Sample.refuse; Sample.refuse]
             (str "hi") (Chat.initialState, Sample.world0) with
     | (r, (st, _), _) =>
         (r,
          List.map (fun c =>
                      List.map (fun m => (Message.role m, Message.content m,
                                          Message.isStreaming m))
                        (Conversation.messages c))
            (Chat.conversations st))
     end
     = (SSE.Rejected Sample.networkError,
        [[(Message.user, str "hi", false); (Message.assistant, [], true)]]).
Proof.
  split; [|split].
  - intros err [[st w] acc fm]. split; reflexivity.
  - reflexivity.
  - vm_compute. reflexivity.
Qed.

(** C4. A fragment of type [error] does not end the turn. [onMessage]
    throws [new Error(data.content)] inside the [try] of [processLine],
    whose [catch] reports it as a failure to parse and returns: the client
    and the store are what they were, only the console has one more
    warning, [onError] is not called, and the lines that follow are
    processed as before. *)
Theorem error_fragment_is_swallowed
    (JSON_parse : jsstring -> Result Fragment.t)
    (c : SSE.SSEClient Chat.Turn) (t : Chat.Turn)
    (l data : jsstring) (f : Fragment.t)
    (Hh : SSE.onMessage (SSE.options c) = Some Chat.onMessage)
    (Hline : trim l = str "data: " ++ data)
    (Hdone : data <> str "[DONE]")
    (Hparse : JSON_parse data = Ok f)
    (Htype : Fragment.type f = Fragment.error) :
  SSE.processLine Chat.host JSON_parse l (c, t)
    = (c, Chat.host (Console warn
                       [Text (str "Failed to parse SSE message:");
                        Thrown (new_Error (Fragment.content f));
                        Text (str "Raw data:"); Text data]) t)
  /\ Chat.store (snd (SSE.processLine Chat.host JSON_parse l (c, t))) = Chat.store t.
Proof.
  assert (E : SSE.processLine Chat.host JSON_parse l (c, t)
              = (c, Chat.host (Console warn
                                 [Text (str "Failed to parse SSE message:");
                                  Thrown (new_Error (Fragment.content f));
                                  Text (str "Raw data:"); Text data]) t)).
  { rewrite (processLine_data Chat.Turn Chat.host JSON_parse l data c t
               (payloadOf_data l data Hline)).
    apply eqb_neq in Hdone. rewrite Hdone, Hparse. cbv zeta.
    unfold SSE.fire_onMessage. rewrite Hh. unfold Chat.onMessage. rewrite Htype.
    reflexivity. }
  split; [exact E|]. rewrite E. reflexivity.
Qed.

Lemma error_fragment_is_swallowed_witness :
  SSE.processLine Chat.host Sample.JSON_parse
    (Sample.dataLine (Sample.payload "error" "boom"))
    (Chat.chatClient, Sample.streamingTurn)
    = (Chat.chatClient,
       Chat.host (Console warn
                    [Text (str "Failed to parse SSE message:");
                     Thrown (new_Error
                               (Fragment.content
                                  (Sample.fragment Fragment.error "boom")));
                     Text (str "Raw data:");
                     Text (Sample.payload "error" "boom")])
         Sample.streamingTurn)
  /\ Chat.store (snd (SSE.processLine Chat.host Sample.JSON_parse
                        (Sample.dataLine (Sample.payload "error" "boom"))
                        (Chat.chatClient, Sample.streamingTurn)))
     = Chat.store Sample.streamingTurn.
Proof.
  apply (error_fragment_is_swallowed Sample.JSON_parse Chat.chatClient
           Sample.streamingTurn
           (Sample.dataLine (Sample.payload "error" "boom"))
           (Sample.payload "error" "boom")
           (Sample.fragment Fragment.error "boom")).
  - reflexivity.
  - reflexivity.
  - vm_compute. discriminate.
  - reflexivity.
  - reflexivity.
Defined.

(** The turn goes on after an [error] fragment: the chunk that follows it
    is shown, the end of the stream finalizes the answer, [sendMessage]
    resolves and the store holds no error. *)
Example error_fragment_run :
  match Chat.sendMessage Sample.JSON_parse
          [Sample.respond [Sample.dataLine (Sample.payload "error" "boom");
                           Sample.dataLine (Sample.payload "chunk" "lo")]
             SSE.EndOfStream;
           Sample.refuse]
          (str "hi") (Chat.initialState, Sample.world0) with
  | (r, (st, _), rest) =>
      (r, Chat.error st, List.length rest,
       List.map (fun c =>
                   List.map (fun m => (Message.role m, Message.content m,
                                       Message.isStreaming m))
                     (Conversation.messages c))
         (Chat.conversations st))
  end
  = (SSE.Resolved, None, 1%nat,
     [[(Message.user, str "hi", false); (Message.assistant, str "lo", false)]]).
Proof. vm_compute. reflexivity. Qed.

(** C8. A [data:] line whose payload is not JSON is dropped: [processLine]
    returns with the client, the store and the accumulator of the turn
    unchanged and one warning more in the console; the [onmessage] of the
    job stream likewise returns with the hook and the test store unchanged
    and one error more in the console. Neither has a throwing outcome: the
    call of [JSON.parse] is inside the [try] of each. *)
Theorem malformed_payload_is_dropped
    (JSON_parse : jsstring -> Result Fragment.t)
    (JSON_parse_message : jsstring -> Result ETL.JobMessage)
    (c : SSE.SSEClient Chat.Turn) (t : Chat.Turn) (sys : ETL.Sys)
    (l data : jsstring) (e e' : Error)
    (Hline : trim l = str "data: " ++ data)
    (Hdone : data <> str "[DONE]")
    (Hparse : JSON_parse data = Throw e)
    (Hparse' : JSON_parse_message data = Throw e') :
  (exists t',
      SSE.processLine Chat.host JSON_parse l (c, t) = (c, t')
      /\ Chat.store t' = Chat.store t
      /\ Chat.accumulatedContent t' = Chat.accumulatedContent t
      /\ Chat.finalMetadata t' = Chat.finalMetadata t
      /\ effects (Chat.world t')
         = effects (Chat.world t)
           ++ [Console warn [Text (str "Failed to parse SSE message:"); Thrown e;
                             Text (str "Raw data:"); Text data]])
  /\ (let sys' := ETL.onmessage JSON_parse_message data sys in
      ETL.tests sys' = ETL.tests sys
      /\ ETL.hook sys' = ETL.hook sys
      /\ ETL.console sys'
         = ETL.console sys
           ++ [Console error_level
                 [Text (str "Failed to parse ETL job update:"); Thrown e']]).
Proof.
  split.
  - eexists. split.
    + rewrite (processLine_data Chat.Turn Chat.host JSON_parse l data c t
                 (payloadOf_data l data Hline)).
      apply eqb_neq in Hdone. rewrite Hdone, Hparse. reflexivity.
    + repeat split.
  - unfold ETL.onmessage. rewrite Hparse'. repeat split.
Qed.

Lemma malformed_payload_is_dropped_witness :
  (exists t',
      SSE.processLine Chat.host Sample.JSON_parse (line "data: not-json")
        (Chat.chatClient, Sample.streamingTurn) = (Chat.chatClient, t')
      /\ Chat.store t' = Chat.store Sample.streamingTurn
      /\ Chat.accumulatedContent t' = Chat.accumulatedContent Sample.streamingTurn
      /\ Chat.finalMetadata t' = Chat.finalMetadata Sample.streamingTurn
      /\ effects (Chat.world t')
         = effects (Chat.world Sample.streamingTurn)
           ++ [Console warn [Text (str "Failed to parse SSE message:");
                             Thrown Sample.syntaxError;
                             Text (str "Raw data:"); Text (str "not-json")]])
  /\ (let sys' := ETL.onmessage Sample.JSON_parse_message (str "not-json")
                    (Sample.etl0 [Sample.jobA]) in
      ETL.tests sys' = ETL.tests (Sample.etl0 [Sample.jobA])
      /\ ETL.hook sys' = ETL.hook (Sample.etl0 [Sample.jobA])
      /\ ETL.console sys'
         = ETL.console (Sample.etl0 [Sample.jobA])
           ++ [Console error_level
                 [Text (str "Failed to parse ETL job update:");
                  Thrown Sample.syntaxError]]).
Proof.
  apply (malformed_payload_is_dropped Sample.JSON_parse Sample.JSON_parse_message
           Chat.chatClient Sample.streamingTurn (Sample.etl0 [Sample.jobA])
           (line "data: not-json") (str "not-json")
           Sample.syntaxError Sample.syntaxError).
  - reflexivity.
  - vm_compute. discriminate.
  - reflexivity.
  - reflexivity.
Defined.

(** ** The job collection *)

Section JobFacts.

Import Tests.

Lemma map_unchanged (A : Type) (f : A -> A) (l : list A) :
  (forall x, In x l -> f x = x) -> List.map f l = l.
Proof.
  induction l as [|a l IH]; intros H; [reflexivity|].
  cbn [List.map]. rewrite (H a (or_introl eq_refl)), IH; [reflexivity|].
  intros x Hx. apply H. right. exact Hx.
Qed.

(** An update for an id that no job has changes no job. *)
Lemma updateJobStatus_unknown (b : jsstring) (updates : JobUpdate) (st : TestState) :
  ~ In b (jobIds st) -> updateJobStatus (Some b) updates st = st.
Proof.
  intros H. unfold updateJobStatus.
  rewrite map_unchanged.
  - destruct st; reflexivity.
  - intros job Hj. cbn [opt_eqb].
    destruct (eqb (jobId job) b) eqn:E; [|reflexivity].
    apply eqb_eq in E. exfalso. apply H. unfold jobIds.
    rewrite <- E. apply in_map. exact Hj.
Qed.

(** An update that carries the id it is filed under, or none, keeps the
    ids of the collection, each in its place. *)
Lemma updateJobStatus_ids (b : jsstring) (updates : JobUpdate) (st : TestState) :
  u_jobId updates = Some b \/ u_jobId updates = None ->
  jobIds (updateJobStatus (Some b) updates st) = jobIds st.
Proof.
  intros H. unfold jobIds, updateJobStatus. cbn [processingJobs set_processingJobs].
  rewrite List.map_map. apply map_ext_in. intros job _. cbn [opt_eqb].
  destruct (eqb (jobId job) b) eqn:E; [|reflexivity].
  apply eqb_eq in E. unfold merge. cbn [jobId].
  destruct H as [H|H]; rewrite H; cbn [over]; congruence.
Qed.

End JobFacts.

(** C3, as stated, fails: a [job_progress] event for the job [b] on an
    empty collection leaves the collection empty, so the number of jobs
    with the id [b] is not one. *)
Lemma progress_for_unknown_job_counterexample :
  count_occ (list_eq_dec N.eq_dec)
    (Tests.jobIds
       (ETL.tests
          (ETL.deliver Sample.JSON_parse_message Sample.JSON_parse_job
             Sample.JSON_parse_update 5000 5
             (ETL.Named (str "job_progress") Sample.progressPayload)
             (Sample.etl0 []))))
    (str "b")
  <> 1%nat.
Proof. vm_compute. discriminate. Qed.

(** C3, amended. A [job_progress] event whose [jobId] no job of the
    collection has is dropped: the listener calls [updateJobStatus], which
    only maps over the jobs it finds, so the hook, the store and the
    console are what they were and there is still no job with that id. On
    any collection the listener keeps the ids of the jobs, each in its
    place, so an id that appeared at most once still does. *)
Theorem progress_for_unknown_job_is_dropped
    (JSON_parse_message : jsstring -> Result ETL.JobMessage)
    (JSON_parse_job : jsstring -> Result Tests.ProcessingJob)
    (JSON_parse_update : jsstring -> Result Tests.JobUpdate)
    (reconnectInterval maxReconnectAttempts : Z)
    (data b : jsstring) (update : Tests.JobUpdate) (sys : ETL.Sys)
    (Hparse : JSON_parse_update data = Ok update)
    (Hid : Tests.u_jobId update = Some b)
    (Hunknown : ~ In b (Tests.jobIds (ETL.tests sys))) :
  let route :=
    ETL.deliver JSON_parse_message JSON_parse_job JSON_parse_update
      reconnectInterval maxReconnectAttempts
      (ETL.Named (str "job_progress") data) in
  route sys = sys
  /\ ~ In b (Tests.jobIds (ETL.tests (route sys)))
  /\ (forall sys0 : ETL.Sys,
        Tests.jobIds (ETL.tests (route sys0)) = Tests.jobIds (ETL.tests sys0))
  /\ (NoDup (Tests.jobIds (ETL.tests sys)) ->
      NoDup (Tests.jobIds (ETL.tests (route sys)))).
Proof.
  intros route.
  assert (R : forall s, route s
              = ETL.with_tests (Tests.updateJobStatus (Some b) update) s).
  { intros s. unfold route, ETL.deliver.
    replace (eqb (str "job_progress") (str "job_started")) with false by reflexivity.
    replace (eqb (str "job_progress") (str "job_progress")) with true by reflexivity.
    unfold ETL.on_job_progress. rewrite Hparse, Hid. reflexivity. }
  assert (E : route sys = sys).
  { rewrite R. unfold ETL.with_tests.
    rewrite (updateJobStatus_unknown b update (ETL.tests sys) Hunknown).
    destruct sys; reflexivity. }
  split; [exact E|]. split; [rewrite E; exact Hunknown|].
  split; [|rewrite E; auto].
  intros sys0. rewrite R. unfold ETL.with_tests. cbn [ETL.tests].
  apply updateJobStatus_ids. left. exact Hid.
Qed.

Lemma progress_for_unknown_job_is_dropped_witness :
  let route :=
    ETL.deliver Sample.JSON_parse_message Sample.JSON_parse_job
      Sample.JSON_parse_update 5000 5
      (ETL.Named (str "job_progress") Sample.progressPayload) in
  route (Sample.etl0 [Sample.jobA]) = Sample.etl0 [Sample.jobA]
  /\ ~ In (str "b") (Tests.jobIds (ETL.tests (route (Sample.etl0 [Sample.jobA]))))
  /\ (forall sys0 : ETL.Sys,
        Tests.jobIds (ETL.tests (route sys0)) = Tests.jobIds (ETL.tests sys0))
  /\ (NoDup (Tests.jobIds (ETL.tests (Sample.etl0 [Sample.jobA]))) ->
      NoDup (Tests.jobIds (ETL.tests (route (Sample.etl0 [Sample.jobA]))))).
Proof.
  apply (progress_for_unknown_job_is_dropped Sample.JSON_parse_message
           Sample.JSON_parse_job Sample.JSON_parse_update 5000 5
           Sample.progressPayload (str "b") Sample.progressUpdate
           (Sample.etl0 [Sample.jobA])).
  - reflexivity.
  - reflexivity.
  - vm_compute. intros [H|[]]. discriminate H.
Defined.

(** A known job takes the progress of the event. *)
Example progress_for_known_job :
  List.map (fun j => (Tests.jobId j, Tests.progress j))
    (Tests.processingJobs
       (Tests.updateJobStatus (Some (str "a"))
          {| Tests.u_jobId := Some (str "a"); Tests.u_status := None;
             Tests.u_progress := Some 75%Z; Tests.u_currentStep := None;
             Tests.u_errorMessage := None; Tests.u_estimatedCompletion := None;
             Tests.u_createdAt := None; Tests.u_updatedAt := None |}
          (Tests.set_processingJobs [Sample.jobA] Sample.emptyTests)))
  = [(str "a", 75%Z)].
Proof. reflexivity. Qed.

(** The store after the budget is spent: [sendMessage] is rejected with
    the last error, the store reports [error] and is no longer streaming,
    four requests were made, and the response that the script still held
    was never asked for. *)
Example sendMessage_budget_exhausted :
  match Chat.sendMessage Sample.JSON_parse
          [Sample.refuse; Sample.refuse; Sample.refuse; Sample.refuse;
           Sample.respond [] SSE.EndOfStream]
          (str "hi") (Chat.initialState, Sample.world0) with
  | (r, (st, w), rest) =>
      (r, Chat.connectionStatus st, Chat.isStreaming st, Chat.error st,
       List.length (filter (fun e => match e with Fetch => true | _ => false end)
                      (effects w)),
       filter (fun e => match e with SetTimeout _ => true | _ => false end)
         (effects w),
       rest)
  end
  = (SSE.Rejected Sample.networkError, Status.error, false,
     Some (str "Failed to fetch"), 4%nat,
     [SetTimeout 1000; SetTimeout 2000; SetTimeout 3000],
     [Sample.respond [] SSE.EndOfStream]).
Proof. vm_compute. reflexivity. Qed.


(* ================================================================== *)
(** * Further properties *)
(* ================================================================== *)

(** ** The client: abort, disconnect, backoff *)

Section ClientMore.

Variable S : Type.
Variable host : Effect -> S -> S.
Variable JSON_parse : jsstring -> Result Fragment.t.

(** The state of the client after [processStream] is never connected. *)
Lemma processStream_isConnected (b : SSE.Body) (cs : SSE.SSEClient S * S) :
  SSE.isConnected (fst (snd (SSE.processStream host JSON_parse b cs))) = false.
Proof.
  unfold SSE.processStream.
  destruct (SSE.readLoop host JSON_parse (SSE.chunks b) [] cs) as [[c s] buffer].
  destruct (SSE.ending b); reflexivity.
Qed.

Lemma tryConnection_isConnected (o : SSE.FetchOutcome) (c : SSE.SSEClient S) (s : S) :
  SSE.isConnected c = false ->
  SSE.isConnected (fst (snd (SSE.tryConnection host JSON_parse o (c, s)))) = false.
Proof.
  intros H. unfold SSE.tryConnection.
  destruct o as [e|ok status statusText body]; [exact H|].
  destruct ok; cbn [negb]; [|exact H].
  destruct body as [b|]; [|exact H].
  apply processStream_isConnected.
Qed.

Lemma disconnect_spec (c : SSE.SSEClient S) (s : S) :
  SSE.abortController (fst (SSE.disconnect (c, s))) = None
  /\ SSE.isConnected (fst (SSE.disconnect (c, s))) = false
  /\ SSE.retryCount (fst (SSE.disconnect (c, s))) = SSE.retryCount c
  /\ snd (SSE.disconnect (c, s))
     = SSE.fire_onConnectionChange Status.disconnected
         (fst (SSE.disconnect (c, s))) s.
Proof.
  unfold SSE.disconnect. destruct (SSE.abortController c) eqn:E; cbn; auto.
Qed.

End ClientMore.

(** X1. An abort is not a failure: when the [fetch] or a read of the body
    is rejected with an [AbortError], [attemptConnection] resolves at
    once. The state is the one at the throw: no [error] status is
    reported, [onError] is not called, nothing is logged, no timer is set,
    the retry counter is untouched, and the rest of the script is not
    attempted. *)
Theorem abort_is_silent
    (S : Type) (host : Effect -> S -> S)
    (JSON_parse : jsstring -> Result Fragment.t)
    (a : SSE.Attempt) (rest : list SSE.Attempt)
    (c : SSE.SSEClient S) (s : S) (ac : SSE.AbortController) (e : Error)
    (Hac : SSE.abortController c = Some ac)
    (He : Observe.failure a = Some e)
    (Habort : isAbortError e = true) :
  let atThrow :=
    snd (SSE.tryConnection host JSON_parse (SSE.outcome a)
           (c, host Fetch (SSE.fire_onConnectionChange Status.connecting c s))) in
  SSE.attemptConnection host JSON_parse (a :: rest) c s
    = (SSE.Resolved, atThrow, rest)
  /\ SSE.getRetryCount (fst atThrow) = SSE.getRetryCount c
  /\ Observe.handlers (fst atThrow) = Observe.handlers c.
Proof.
  intros atThrow. unfold atThrow.
  cbn [SSE.attemptConnection]. rewrite Hac.
  set (s0 := host Fetch (SSE.fire_onConnectionChange Status.connecting c s)).
  destruct (tryConnection_spec S host JSON_parse a (c, s0)) as [Ht Hc].
  destruct (SSE.tryConnection host JSON_parse (SSE.outcome a) (c, s0))
    as [thrown [c1 s1]].
  cbn [fst snd] in *. rewrite Ht, He, Habort.
  destruct (core_inv S c1 c Hc) as (_ & Hr & _ & _ & _ & Hh).
  split; [reflexivity|]. split; [exact Hr|exact Hh].
Qed.

Lemma abort_is_silent_witness :
  let a := {| SSE.outcome :=
                SSE.FetchRejects {| name := str "AbortError";
                                    message := str "The user aborted a request." |};
              SSE.disconnectDuringBackoff := false |} in
  let c := SSE.set_abortController (Some {| SSE.aborted := false |}) Chat.chatClient in
  let atThrow :=
    snd (SSE.tryConnection Chat.host Sample.JSON_parse (SSE.outcome a)
           (c, Chat.host Fetch
                 (SSE.fire_onConnectionChange Status.connecting c
                    Sample.streamingTurn))) in
  SSE.attemptConnection Chat.host Sample.JSON_parse (a :: [Sample.refuse]) c
    Sample.streamingTurn
    = (SSE.Resolved, atThrow, [Sample.refuse])
  /\ SSE.getRetryCount (fst atThrow) = SSE.getRetryCount c
  /\ Observe.handlers (fst atThrow) = Observe.handlers c.
Proof.
  apply (abort_is_silent Chat.Turn Chat.host Sample.JSON_parse
           {| SSE.outcome :=
                SSE.FetchRejects {| name := str "AbortError";
                                    message := str "The user aborted a request." |};
              SSE.disconnectDuringBackoff := false |}
           [Sample.refuse]
           (SSE.set_abortController (Some {| SSE.aborted := false |}) Chat.chatClient)
           Sample.streamingTurn {| SSE.aborted := false |}
           {| name := str "AbortError";
              message := str "The user aborted a request." |});
    reflexivity.
Defined.

(** X2. A [disconnect()] during the wait before a retry cancels the retry:
    after a transport failure within the budget, the counter is
    incremented and the timer awaited, but then [attemptConnection]
    resolves without another [fetch]; the client has no abort controller,
    is not active, and the last status reported is [disconnected]. *)
Theorem disconnect_cancels_retry
    (S : Type) (host : Effect -> S -> S)
    (JSON_parse : jsstring -> Result Fragment.t)
    (a : SSE.Attempt) (rest : list SSE.Attempt)
    (c : SSE.SSEClient S) (s : S) (ac : SSE.AbortController) (e : Error)
    (Hac : SSE.abortController c = Some ac)
    (He : Observe.failure a = Some e)
    (Hnot : isAbortError e = false)
    (Hdis : SSE.disconnectDuringBackoff a = true)
    (Hlt : (SSE.retryCount c < SSE.retryBudget c)%Z) :
  exists c' s0,
    SSE.attemptConnection host JSON_parse (a :: rest) c s
      = (SSE.Resolved,
         (c', SSE.fire_onConnectionChange Status.disconnected c' s0), rest)
    /\ SSE.abortController c' = None
    /\ SSE.isActive c' = false
    /\ SSE.getRetryCount c' = (SSE.retryCount c + 1)%Z.
Proof.
  cbn [SSE.attemptConnection]. rewrite Hac.
  set (s0 := host Fetch (SSE.fire_onConnectionChange Status.connecting c s)).
  destruct (tryConnection_spec S host JSON_parse a (c, s0)) as [Ht Hc].
  destruct (SSE.tryConnection host JSON_parse (SSE.outcome a) (c, s0))
    as [thrown [c1 s1]].
  cbn [fst snd] in Ht, Hc. rewrite Ht, He, Hnot.
  destruct (core_inv S c1 c Hc) as (Ha & Hr & Hb & _).
  replace (SSE.retryCount (SSE.set_isConnected false c1)) with (SSE.retryCount c)
    by (symmetry; exact Hr).
  replace (SSE.retryBudget (SSE.set_isConnected false c1)) with (SSE.retryBudget c)
    by (symmetry; exact Hb).
  apply Z.ltb_lt in Hlt. rewrite Hlt, Hdis.
  match goal with
  | |- context [SSE.disconnect (?c3, ?s4)] =>
      destruct (disconnect_spec S c3 s4) as (D1 & D2 & D3 & D4);
      destruct (SSE.disconnect (c3, s4)) as [c5 s5] eqn:Ed
  end.
  cbn [fst snd] in D1, D2, D3, D4. rewrite D1.
  exists c5. eexists. split; [rewrite D4; reflexivity|].
  split; [exact D1|]. split; [unfold SSE.isActive; rewrite D2; reflexivity|].
  unfold SSE.getRetryCount. rewrite D3. reflexivity.
Qed.

Lemma disconnect_cancels_retry_witness :
  let a := {| SSE.outcome := SSE.FetchRejects Sample.networkError;
              SSE.disconnectDuringBackoff := true |} in
  let c := SSE.set_abortController (Some {| SSE.aborted := false |}) Chat.chatClient in
  exists c' s0,
    SSE.attemptConnection Chat.host Sample.JSON_parse
      (a :: [Sample.respond [] SSE.EndOfStream]) c Sample.streamingTurn
      = (SSE.Resolved,
         (c', SSE.fire_onConnectionChange Status.disconnected c' s0),
         [Sample.respond [] SSE.EndOfStream])
    /\ SSE.abortController c' = None
    /\ SSE.isActive c' = false
    /\ SSE.getRetryCount c' = (SSE.retryCount c + 1)%Z.
Proof.
  apply (disconnect_cancels_retry Chat.Turn Chat.host Sample.JSON_parse
           {| SSE.outcome := SSE.FetchRejects Sample.networkError;
              SSE.disconnectDuringBackoff := true |}
           [Sample.respond [] SSE.EndOfStream]
           (SSE.set_abortController (Some {| SSE.aborted := false |}) Chat.chatClient)
           Sample.streamingTurn {| SSE.aborted := false |} Sample.networkError);
    reflexivity.
Defined.

(** ** The waits of the chat client *)

Section BackoffFacts.

Import Chat Trace.

Variable JSON_parse : jsstring -> Result Fragment.t.

Lemma timers_perform (e : Effect) (w : World) :
  timers (perform e w)
    = timers w ++ match e with SetTimeout ms => [ms] | _ => [] end.
Proof.
  unfold timers, perform. cbn [effects]. rewrite flat_map_app. cbn [flat_map].
  rewrite app_nil_r. reflexivity.
Qed.

Lemma fetches_perform (e : Effect) (w : World) :
  fetches (perform e w)
    = (fetches w + match e with Fetch => 1 | _ => 0 end)%nat.
Proof.
  unfold fetches, perform. cbn [effects]. rewrite filter_app, length_app.
  destruct e; reflexivity.
Qed.

Lemma backoff_cons (d r : Z) (n : nat) :
  backoff d r (S n) = (d * (r + 1))%Z :: backoff d (r + 1) n.
Proof.
  unfold backoff. cbn [seq List.map]. f_equal.
  rewrite <- seq_shift, List.map_map. apply map_ext. intros k.
  f_equal. lia.
Qed.

(** A refusal throws before the state is touched. *)
Lemma tryConnection_refusal (S : Type) (host : Effect -> S -> S)
    (a : SSE.Attempt) (cs : SSE.SSEClient S * S) :
  refusal a = true ->
  exists e,
    SSE.tryConnection host JSON_parse (SSE.outcome a) cs = (Some e, cs)
    /\ isAbortError e = false
    /\ SSE.disconnectDuringBackoff a = false.
Proof.
  unfold refusal, SSE.tryConnection. intros H.
  apply andb_true_iff in H. destruct H as [Hd H]. apply negb_true_iff in Hd.
  destruct cs as [c s].
  destruct (SSE.outcome a) as [e|ok status statusText body].
  - apply negb_true_iff in H. exists e. auto.
  - destruct ok; cbn [negb orb] in *.
    + destruct body; [discriminate|]. eexists. split; [reflexivity|]. auto.
    + eexists. split; [reflexivity|]. auto.
Qed.

(** One refusal within the budget of a client with the callbacks of the
    chat: one [fetch], one warning, one timer of the base delay times the
    new counter, and the next attempt. *)
Lemma refusal_step (a : SSE.Attempt) (script : list SSE.Attempt)
    (c : SSE.SSEClient Turn) (t : Turn) (ac : SSE.AbortController) :
  refusal a = true ->
  Observe.handlers c = Observe.handlers chatClient ->
  SSE.abortController c = Some ac -> SSE.aborted ac = false ->
  (SSE.retryCount c < SSE.retryBudget c)%Z ->
  exists t',
    SSE.attemptConnection host JSON_parse (a :: script) c t
      = SSE.attemptConnection host JSON_parse script
          (SSE.set_retryCount (SSE.retryCount c + 1) (SSE.set_isConnected false c)) t'
    /\ timers (world t')
       = timers (world t) ++ [(SSE.baseDelay c * (SSE.retryCount c + 1))%Z]
    /\ fetches (world t') = (fetches (world t) + 1)%nat.
Proof.
  intros Hr Hh Hac Hna Hlt.
  destruct (chat_handlers c Hh) as (_ & _ & _ & Hs).
  cbn [SSE.attemptConnection]. rewrite Hac.
  destruct (tryConnection_refusal Turn host a
              (c, host Fetch (SSE.fire_onConnectionChange Status.connecting c t)) Hr)
    as (e & E & He & Hd).
  rewrite E, He.
  change (SSE.retryCount (SSE.set_isConnected false c)) with (SSE.retryCount c).
  change (SSE.retryBudget (SSE.set_isConnected false c)) with (SSE.retryBudget c).
  apply Z.ltb_lt in Hlt. rewrite Hlt, Hd.
  cbn [SSE.abortController SSE.set_retryCount SSE.set_isConnected].
  rewrite Hac, Hna. cbn [negb].
  eexists. split; [reflexivity|].
  unfold SSE.fire_onConnectionChange. cbn [SSE.options SSE.set_isConnected].
  rewrite Hs. destruct t as [[st w] acc fm].
  unfold host, onConnectionChange, setConnectionStatus, world, store.
  cbn [env fst snd SSE.retryCount SSE.set_retryCount].
  rewrite !timers_perform, !fetches_perform. cbn.
  rewrite !app_nil_r, !Nat.add_0_r. split; reflexivity.
Qed.

(** Refusals in a row within the budget. *)
Lemma refusals (failures : list SSE.Attempt) :
  forall (script : list SSE.Attempt) (c : SSE.SSEClient Turn) (t : Turn)
         (ac : SSE.AbortController),
    forallb refusal failures = true ->
    Observe.handlers c = Observe.handlers chatClient ->
    SSE.abortController c = Some ac -> SSE.aborted ac = false ->
    (SSE.retryCount c + Z.of_nat (List.length failures) <= SSE.retryBudget c)%Z ->
    exists c' t',
      SSE.attemptConnection host JSON_parse (failures ++ script) c t
        = SSE.attemptConnection host JSON_parse script c' t'
      /\ timers (world t')
         = timers (world t)
           ++ backoff (SSE.baseDelay c) (SSE.retryCount c) (List.length failures)
      /\ fetches (world t') = (fetches (world t) + List.length failures)%nat
      /\ SSE.getRetryCount c'
         = (SSE.retryCount c + Z.of_nat (List.length failures))%Z.
Proof.
  induction failures as [|a failures IH]; intros script c t ac Hall Hh Hac Hna Hle.
  - exists c, t. cbn [List.length Z.of_nat backoff]. unfold backoff. cbn.
    rewrite app_nil_r, Nat.add_0_r, Z.add_0_r. auto.
  - cbn [forallb] in Hall. apply andb_true_iff in Hall. destruct Hall as [Ha Hall].
    cbn [List.length] in *. rewrite Nat2Z.inj_succ in Hle.
    destruct (refusal_step a (failures ++ script) c t ac Ha Hh Hac Hna)
      as (t1 & E1 & T1 & F1); [lia|].
    set (c1 := SSE.set_retryCount (SSE.retryCount c + 1)
                 (SSE.set_isConnected false c)) in *.
    destruct (IH script c1 t1 ac Hall) as (c2 & t2 & E2 & T2 & F2 & R2).
    + exact Hh.
    + exact Hac.
    + exact Hna.
    + change (SSE.retryCount c1) with (SSE.retryCount c + 1)%Z.
      change (SSE.retryBudget c1) with (SSE.retryBudget c). lia.
    + exists c2, t2.
      change ((a :: failures) ++ script) with (a :: (failures ++ script)).
      rewrite E1. split; [exact E2|].
      change (SSE.baseDelay c1) with (SSE.baseDelay c) in T2.
      change (SSE.retryCount c1) with (SSE.retryCount c + 1)%Z in T2, R2.
      rewrite T2, T1, backoff_cons, <- app_assoc. split; [reflexivity|].
      rewrite F2, F1, R2, Nat2Z.inj_succ. split; lia.
Qed.

End BackoffFacts.

(** X3. The backoff of the chat client is linear: when the first [n]
    attempts of [connect()] are refused and [n] is within the budget, the
    client makes [n] requests and waits [d], [2d], ..., [n d] milliseconds
    between them, where [d] is [retryDelay || 1000]; it then goes on with
    the next attempt, its counter at [n]. *)
Theorem backoff_is_linear
    (JSON_parse : jsstring -> Result Fragment.t)
    (c : SSE.SSEClient Chat.Turn) (t : Chat.Turn)
    (failures rest : list SSE.Attempt)
    (Hh : Observe.handlers c = Observe.handlers Chat.chatClient)
    (Hall : forallb Trace.refusal failures = true)
    (Hlen : (Z.of_nat (List.length failures) <= SSE.retryBudget c)%Z) :
  exists c' t',
    SSE.connect Chat.host JSON_parse (failures ++ rest) c t
      = SSE.attemptConnection Chat.host JSON_parse rest c' t'
    /\ Trace.timers (Chat.world t')
       = Trace.timers (Chat.world t)
         ++ Trace.backoff (SSE.baseDelay c) 0 (List.length failures)
    /\ Trace.fetches (Chat.world t')
       = (Trace.fetches (Chat.world t) + List.length failures)%nat
    /\ SSE.getRetryCount c' = Z.of_nat (List.length failures).
Proof.
  unfold SSE.connect.
  set (c2 := SSE.set_retryCount 0
               (SSE.set_abortController (Some {| SSE.aborted := false |}) c)).
  destruct (refusals JSON_parse failures rest c2 t {| SSE.aborted := false |} Hall)
    as (c' & t' & E & T & F & R);
    [exact Hh|reflexivity|reflexivity|exact Hlen|].
  exists c', t'. auto.
Qed.

Lemma backoff_is_linear_witness :
  exists c' t',
    SSE.connect Chat.host Sample.JSON_parse
      ([Sample.refuse; Sample.refuse; Sample.refuse]
         ++ [Sample.respond [] SSE.EndOfStream])
      Chat.chatClient Sample.streamingTurn
      = SSE.attemptConnection Chat.host Sample.JSON_parse
          [Sample.respond [] SSE.EndOfStream] c' t'
    /\ Trace.timers (Chat.world t')
       = Trace.timers (Chat.world Sample.streamingTurn)
         ++ Trace.backoff (SSE.baseDelay Chat.chatClient) 0
              (List.length [Sample.refuse; Sample.refuse; Sample.refuse])
    /\ Trace.fetches (Chat.world t')
       = (Trace.fetches (Chat.world Sample.streamingTurn)
          + List.length [Sample.refuse; Sample.refuse; Sample.refuse])%nat
    /\ SSE.getRetryCount c'
       = Z.of_nat (List.length [Sample.refuse; Sample.refuse; Sample.refuse]).
Proof.
  apply (backoff_is_linear Sample.JSON_parse Chat.chatClient Sample.streamingTurn
           [Sample.refuse; Sample.refuse; Sample.refuse]
           [Sample.respond [] SSE.EndOfStream]).
  - reflexivity.
  - reflexivity.
  - vm_compute. discriminate.
Defined.

Example backoff_delays :
  Trace.backoff 1000 0 3 = [1000; 2000; 3000]%Z.
Proof. reflexivity. Qed.

Section ActiveFacts.

Variable S : Type.
Variable host : Effect -> S -> S.
Variable JSON_parse : jsstring -> Result Fragment.t.

(** However the attempts end, the client is left not connected. *)
Lemma attemptConnection_isConnected (script : list SSE.Attempt) :
  forall (c : SSE.SSEClient S) (s : S),
    SSE.isConnected c = false ->
    SSE.isConnected
      (Trace.clientOf (SSE.attemptConnection host JSON_parse script c s)) = false.
Proof.
  induction script as [|a script IH]; intros c s H.
  - cbn [SSE.attemptConnection]. destruct (SSE.abortController c); exact H.
  - cbn [SSE.attemptConnection].
    destruct (SSE.abortController c) as [ac|]; [|exact H].
    set (s0 := host Fetch (SSE.fire_onConnectionChange Status.connecting c s)).
    pose proof (tryConnection_isConnected S host JSON_parse (SSE.outcome a) c s0 H)
      as H1.
    destruct (SSE.tryConnection host JSON_parse (SSE.outcome a) (c, s0))
      as [[err|] [c1 s1]]; cbn [fst snd] in H1; [|exact H1].
    destruct (isAbortError err); [exact H1|].
    destruct (Z.ltb _ _); [|reflexivity].
    match goal with
    | |- context [if ?b then SSE.disconnect ?x else ?y] =>
        assert (Hd : SSE.isConnected (fst (if b then SSE.disconnect x else y)) = false)
          by (destruct b; [destruct x as [cx sx];
                           apply (disconnect_spec S cx sx)|reflexivity]);
        destruct (if b then SSE.disconnect x else y) as [c5 s5]
    end.
    cbn [fst] in Hd.
    destruct (SSE.abortController c5) as [ac5|]; [|exact Hd].
    destruct (negb (SSE.aborted ac5)); [|exact Hd].
    apply IH. exact Hd.
Qed.

End ActiveFacts.

(** X4. [isActive()] is false whenever [connect()] has settled or waits
    for a [fetch]: [isConnected] is set only for the time in which the
    body of a response is read, and every way out of the read loop, of the
    retry loop and of [disconnect] clears it. *)
Theorem settled_client_is_not_active
    (S : Type) (host : Effect -> S -> S)
    (JSON_parse : jsstring -> Result Fragment.t)
    (script : list SSE.Attempt) (c : SSE.SSEClient S) (s : S)
    (Hidle : SSE.isConnected c = false) :
  SSE.isActive (Trace.clientOf (SSE.connect host JSON_parse script c s)) = false.
Proof.
  unfold SSE.isActive, SSE.connect.
  rewrite (attemptConnection_isConnected S host JSON_parse script); [reflexivity|].
  exact Hidle.
Qed.

Lemma settled_client_is_not_active_witness :
  SSE.isActive
    (Trace.clientOf
       (SSE.connect Chat.host Sample.JSON_parse
          [Sample.refuse;
           Sample.respond [Sample.dataLine (Sample.payload "chunk" "Hel")]
             (SSE.ReadFails Sample.networkError);
           Sample.respond [] SSE.EndOfStream]
          Chat.chatClient Sample.streamingTurn)) = false.
Proof.
  apply (settled_client_is_not_active Chat.Turn Chat.host Sample.JSON_parse
           [Sample.refuse;
            Sample.respond [Sample.dataLine (Sample.payload "chunk" "Hel")]
              (SSE.ReadFails Sample.networkError);
            Sample.respond [] SSE.EndOfStream]
           Chat.chatClient Sample.streamingTurn).
  reflexivity.
Defined.

(** ** The chat store: what fragments can and cannot do *)

Section ChatMore.

Import Chat Observe Trace.

Lemma touchWhere_cons (cid : option jsstring) (g : list Message.t -> list Message.t)
    (c : Conversation.t) (l : list Conversation.t) (w : World) :
  touchWhere cid g (c :: l) w
    = (let (c', w1) :=
         if opt_eqb (Some (Conversation.id c)) cid then touch g c w else (c, w) in
       let (l', w2) := touchWhere cid g l w1 in
       (c' :: l', w2)).
Proof. reflexivity. Qed.

(** [touchWhere] keeps the outline of the conversations when the change of
    the messages keeps their ids. *)
Lemma touchWhere_outline (cid : option jsstring)
    (g : list Message.t -> list Message.t) :
  (forall ms, List.map Message.id (g ms) = List.map Message.id ms) ->
  forall (l : list Conversation.t) (w : World),
    List.map outline (fst (touchWhere cid g l w)) = List.map outline l.
Proof.
  intros Hg. induction l as [|c l IH]; intros w; [reflexivity|].
  rewrite touchWhere_cons.
  destruct (opt_eqb (Some (Conversation.id c)) cid).
  - unfold touch. cbn [Date_now]. specialize (IH (snd (Date_now w))).
    cbn [Date_now snd] in IH.
    destruct (touchWhere cid g l _) as [l' w2]. cbn [fst List.map] in *.
    rewrite IH. unfold outline at 1. cbn. rewrite Hg. reflexivity.
  - specialize (IH w). destruct (touchWhere cid g l w) as [l' w2].
    cbn [fst List.map] in *. rewrite IH. reflexivity.
Qed.

(** Without a conversation of the id, [touchWhere] changes nothing and
    reads no date. *)
Lemma touchWhere_nomatch (cid : option jsstring)
    (g : list Message.t -> list Message.t) :
  forall (l : list Conversation.t) (w : World),
    forallb (fun c => negb (opt_eqb (Some (Conversation.id c)) cid)) l = true ->
    touchWhere cid g l w = (l, w).
Proof.
  induction l as [|c l IH]; intros w H; [reflexivity|].
  cbn [forallb] in H. apply andb_true_iff in H. destruct H as [Hc H].
  apply negb_true_iff in Hc. rewrite touchWhere_cons, Hc, (IH w H). reflexivity.
Qed.

Lemma touchWhere_app (cid : option jsstring)
    (g : list Message.t -> list Message.t) (l1 l2 : list Conversation.t) :
  forall w : World,
    touchWhere cid g (l1 ++ l2) w
      = (let (a, w1) := touchWhere cid g l1 w in
         let (b, w2) := touchWhere cid g l2 w1 in
         (a ++ b, w2)).
Proof.
  induction l1 as [|c l1 IH]; intros w.
  - cbn [app]. change (touchWhere cid g [] w) with (@nil Conversation.t, w).
    cbv iota beta. destruct (touchWhere cid g l2 w). reflexivity.
  - change ((c :: l1) ++ l2) with (c :: (l1 ++ l2)). rewrite !touchWhere_cons.
    destruct (if opt_eqb (Some (Conversation.id c)) cid then touch g c w else (c, w))
      as [c' w1].
    rewrite IH. destruct (touchWhere cid g l1 w1) as [a w2].
    destruct (touchWhere cid g l2 w2) as [b w3]. reflexivity.
Qed.

Lemma replaceMessage_ids (mid : jsstring) (m' : Message.t) :
  Message.id m' = mid ->
  forall ms, List.map Message.id (replaceMessage mid m' ms) = List.map Message.id ms.
Proof.
  intros Hid ms. unfold replaceMessage. rewrite List.map_map. apply map_ext_in.
  intros m _. destruct (eqb (Message.id m) mid) eqn:E; [|reflexivity].
  apply eqb_eq in E. congruence.
Qed.

(** [replaceStreaming] keeps the outline of the store. *)
Lemma replaceStreaming_shape (sm m' : Message.t) (next : option Message.t)
    (e : Env) :
  Message.id m' = Message.id sm ->
  shape (fst (replaceStreaming sm m' next e)) = shape (fst e).
Proof.
  intros Hid. destruct e as [st w]. unfold replaceStreaming.
  pose proof (touchWhere_outline (currentConversationId st)
                (replaceMessage (Message.id sm) m')
                (replaceMessage_ids (Message.id sm) m' Hid) (conversations st) w) as H.
  destruct (touchWhere (currentConversationId st)
              (replaceMessage (Message.id sm) m') (conversations st) w) as [convs w1].
  cbn [fst] in H. unfold shape.
  destruct (currentConversation st) as [cur|] eqn:Ecur.
  - unfold touch. cbn [Date_now fst snd].
    cbn [conversations currentConversation set_currentConversation
         set_conversations set_streamingMessage option_map].
    rewrite H, Ecur. unfold outline at 2 3. cbn.
    rewrite (replaceMessage_ids (Message.id sm) m' Hid). reflexivity.
  - cbn [fst conversations currentConversation set_currentConversation
         set_conversations set_streamingMessage option_map].
    rewrite H, Ecur. reflexivity.
Qed.

Lemma onMessage_shape (f : Fragment.t) (t : Turn) :
  shape (store (fst (onMessage f t))) = shape (store t).
Proof.
  unfold onMessage. destruct (Fragment.type f); try reflexivity.
  cbn [fst]. unfold store. cbn [env].
  unfold updateStreamingMessage. destruct (env t) as [st w] eqn:E.
  destruct (streamingMessage st) as [sm|]; [|reflexivity].
  destruct (negb (truthy_opt (currentConversationId st))); [reflexivity|].
  apply (replaceStreaming_shape sm _ _ (st, w)). reflexivity.
Qed.

Lemma onComplete_shape (t : Turn) :
  shape (store (onComplete t)) = shape (store t).
Proof.
  unfold onComplete, store.
  assert (H : shape (fst (completeStreamingMessage (accumulatedContent t)
                            (finalMetadata t) (env t))) = shape (fst (env t))).
  { unfold completeStreamingMessage. destruct (env t) as [st w].
    destruct (streamingMessage st) as [sm|]; [|reflexivity].
    destruct (negb (truthy_opt (currentConversationId st))); [reflexivity|].
    apply (replaceStreaming_shape sm _ _ (st, w)). reflexivity. }
  destruct (completeStreamingMessage _ _ (env t)) as [st' w'].
  cbn [env fst] in *. rewrite <- H. reflexivity.
Qed.

(** Without a streaming message, a fragment leaves the store and its host
    alone. *)
Lemma onMessage_idle (f : Fragment.t) (t : Turn) :
  streamingMessage (store t) = None -> env (fst (onMessage f t)) = env t.
Proof.
  intros H. unfold onMessage. destruct (Fragment.type f); try reflexivity.
  cbn [fst env]. unfold updateStreamingMessage, store in *.
  destruct (env t) as [st w]. cbn [fst] in H. rewrite H. reflexivity.
Qed.

Lemma deliver_idle (fs : list Fragment.t) :
  forall t : Turn,
    streamingMessage (store t) = None -> env (deliver fs t) = env t.
Proof.
  induction fs as [|f fs IH]; intros t H; [reflexivity|].
  change (deliver (f :: fs) t) with (deliver fs (fst (onMessage f t))).
  pose proof (onMessage_idle f t H) as E.
  rewrite IH; [exact E|]. unfold store. rewrite E. exact H.
Qed.

End ChatMore.

(** X5. After [stopStreaming], nothing that still arrives from the stream
    is applied: whatever fragments are delivered and even when the
    completion callback runs, the conversations, the current conversation,
    the error and the host of the store are what [stopStreaming] left, and
    the store is not streaming. The partial answer stays in its
    conversation as it was, still marked as streaming. *)
Theorem nothing_is_applied_after_stop
    (e : Chat.Env) (fs : list Fragment.t)
    (acc : jsstring) (fm : option Metadata) :
  let stopped :=
    {| Chat.env := Chat.stopStreaming e;
       Chat.accumulatedContent := acc; Chat.finalMetadata := fm |} in
  let late := Chat.onComplete (Observe.deliver fs stopped) in
  Chat.conversations (Chat.store late) = Chat.conversations (fst e)
  /\ Chat.currentConversation (Chat.store late) = Chat.currentConversation (fst e)
  /\ Chat.currentConversationId (Chat.store late)
     = Chat.currentConversationId (fst e)
  /\ Chat.error (Chat.store late) = Chat.error (fst e)
  /\ Chat.world late = snd e
  /\ Chat.isStreaming (Chat.store late) = false
  /\ Chat.streamingMessage (Chat.store late) = None
  /\ Chat.connectionStatus (Chat.store late) = Status.disconnected.
Proof.
  intros stopped late.
  assert (Hs : Chat.streamingMessage (Chat.store stopped) = None).
  { unfold stopped, Chat.store, Chat.stopStreaming. destruct e as [st w].
    reflexivity. }
  pose proof (deliver_idle fs stopped Hs) as E.
  unfold late, Chat.onComplete, Chat.store, Chat.world.
  unfold Chat.completeStreamingMessage. rewrite E.
  unfold stopped, Chat.stopStreaming. destruct e as [st w]. cbn.
  destruct (Chat.sseClient st); cbn; repeat split.
Qed.

(** Running the completion callback a second time changes nothing. *)
Lemma onComplete_twice (t : Chat.Turn) :
  Chat.onComplete (Chat.onComplete t) = Chat.onComplete t.
Proof.
  unfold Chat.onComplete.
  destruct (Chat.completeStreamingMessage (Chat.accumulatedContent t)
              (Chat.finalMetadata t) (Chat.env t)) as [st w].
  reflexivity.
Qed.

(** X6. A stream is finalized once. When the last line of the body is the
    [[DONE]] sentinel, the end of the stream, which calls [onComplete]
    again, adds nothing: [processStream] leaves the store and its host as
    the lines left them, except that the status [disconnected] is
    reported. *)
Theorem done_then_end_finalizes_once
    (JSON_parse : jsstring -> Result Fragment.t)
    (c : SSE.SSEClient Chat.Turn) (t : Chat.Turn)
    (chunks : list jsstring) (ls : list jsstring) (d : jsstring)
    (Hh : Observe.handlers c = Observe.handlers Chat.chatClient)
    (Hlines : Observe.linesOf chunks = ls ++ [d])
    (Hdone : Observe.isDone d = true) :
  let afterLines :=
    SSE.processLines Chat.host JSON_parse (Observe.linesOf chunks) (c, t) in
  SSE.processStream Chat.host JSON_parse
    {| SSE.chunks := chunks; SSE.ending := SSE.EndOfStream |} (c, t)
    = (None,
       (SSE.set_isConnected false (fst afterLines),
        Chat.onConnectionChange Status.disconnected (snd afterLines)))
  /\ Chat.isStreaming (Chat.store (snd afterLines)) = false
  /\ Chat.streamingMessage (Chat.store (snd afterLines)) = None.
Proof.
  intros afterLines.
  pose proof (processLines_core Chat.Turn Chat.host JSON_parse ls (c, t)) as C1.
  assert (E : afterLines
              = (fst (SSE.processLines Chat.host JSON_parse ls (c, t)),
                 Chat.onComplete
                   (snd (SSE.processLines Chat.host JSON_parse ls (c, t))))).
  { unfold afterLines. rewrite Hlines, processLines_app.
    destruct (SSE.processLines Chat.host JSON_parse ls (c, t)) as [c1 t1].
    cbn [fst snd] in *.
    change (SSE.processLines Chat.host JSON_parse [d] (c1, t1))
      with (SSE.processLine Chat.host JSON_parse d (c1, t1)).
    unfold Observe.isDone in Hdone.
    destruct (Observe.payloadOf d) as [data|] eqn:Ep; [|discriminate].
    rewrite (processLine_data Chat.Turn Chat.host JSON_parse d data c1 t1 Ep), Hdone.
    destruct (core_inv Chat.Turn c1 c C1) as (_ & _ & _ & _ & _ & Hh1).
    rewrite Hh in Hh1. destruct (chat_handlers c1 Hh1) as (_ & _ & Hc & _).
    unfold SSE.fire_onComplete. rewrite Hc. reflexivity. }
  assert (Hh2 : Observe.handlers (fst afterLines) = Observe.handlers Chat.chatClient).
  { rewrite E. cbn [fst].
    destruct (core_inv Chat.Turn _ c C1) as (_ & _ & _ & _ & _ & Hh1).
    rewrite Hh1. exact Hh. }
  destruct (chat_handlers _ Hh2) as (_ & _ & Hc & Hs).
  split.
  - unfold SSE.processStream. cbn [SSE.chunks SSE.ending].
    rewrite (readLoop_lines Chat.Turn Chat.host JSON_parse chunks [] (c, t))
      by (intros []).
    change (removelast (split ([] ++ List.concat chunks)))
      with (Observe.linesOf chunks).
    fold afterLines. destruct afterLines as [c2 t2] eqn:Ea. cbn [fst snd] in *.
    unfold SSE.fire_onComplete, SSE.fire_onConnectionChange.
    cbn [SSE.options SSE.set_isConnected]. rewrite Hc, Hs.
    injection E as E1 E2. rewrite E2, onComplete_twice. reflexivity.
  - rewrite E. cbn [snd].
    destruct (SSE.processLines Chat.host JSON_parse ls (c, t)) as [c1 t1].
    cbn [snd]. unfold Chat.onComplete.
    destruct (Chat.completeStreamingMessage _ _ (Chat.env t1)) as [st w].
    split; reflexivity.
Qed.

Lemma done_then_end_finalizes_once_witness :
  let chunks := [Sample.dataLine (Sample.payload "chunk" "Hel");
                 Sample.dataLine (str "[DONE]")] in
  let afterLines :=
    SSE.processLines Chat.host Sample.JSON_parse (Observe.linesOf chunks)
      (Chat.chatClient, Sample.streamingTurn) in
  SSE.processStream Chat.host Sample.JSON_parse
    {| SSE.chunks := chunks; SSE.ending := SSE.EndOfStream |}
    (Chat.chatClient, Sample.streamingTurn)
    = (None,
       (SSE.set_isConnected false (fst afterLines),
        Chat.onConnectionChange Status.disconnected (snd afterLines)))
  /\ Chat.isStreaming (Chat.store (snd afterLines)) = false
  /\ Chat.streamingMessage (Chat.store (snd afterLines)) = None.
Proof.
  apply (done_then_end_finalizes_once Sample.JSON_parse Chat.chatClient
           Sample.streamingTurn
           [Sample.dataLine (Sample.payload "chunk" "Hel");
            Sample.dataLine (str "[DONE]")]
           [str "data: " ++ Sample.payload "chunk" "Hel"]
           (str "data: [DONE]"));
    reflexivity.
Defined.

(** X7. No fragment and no completion adds, removes or reorders anything:
    for every store and every sequence of fragments, of any type, the ids
    of the conversations and the ids of the messages of each conversation,
    and of the current conversation, are the same before and after, in
    the same order. *)
Theorem fragments_keep_the_outline (t : Chat.Turn) (fs : list Fragment.t) :
  Trace.shape (Chat.store (Observe.deliver fs t)) = Trace.shape (Chat.store t)
  /\ Trace.shape (Chat.store (Chat.onComplete (Observe.deliver fs t)))
     = Trace.shape (Chat.store t).
Proof.
  assert (H : forall fs t,
             Trace.shape (Chat.store (Observe.deliver fs t))
               = Trace.shape (Chat.store t)).
  { clear. induction fs as [|f fs IH]; intros t; [reflexivity|].
    change (Observe.deliver (f :: fs) t)
      with (Observe.deliver fs (fst (Chat.onMessage f t))).
    rewrite IH. apply onMessage_shape. }
  split; [apply H|]. rewrite onComplete_shape. apply H.
Qed.

Section ChatFinal.

Import Chat Observe.

(** [onComplete] writes the accumulator and the final metadata into the
    streaming message, wherever the two stand. *)
Lemma onComplete_general (m x y : Message.t) (cid : jsstring) (t : Turn) :
  streamingMessage (store t) = Some m ->
  currentConversationId (store t) = Some cid ->
  truthy cid = true ->
  lookupMessage cid (Message.id m) (store t) = Some x ->
  lookupCurrent (Message.id m) (store t) = Some y ->
  isStreaming (store (onComplete t)) = false
  /\ streamingMessage (store (onComplete t)) = None
  /\ lookupMessage cid (Message.id m) (store (onComplete t))
     = Some (completed (accumulatedContent t) (finalMetadata t) m)
  /\ lookupCurrent (Message.id m) (store (onComplete t))
     = Some (completed (accumulatedContent t) (finalMetadata t) m).
Proof.
  intros Hsm Hcid Htr Hin Hcur.
  destruct t as [[st w] acc fm]. unfold store in *.
  cbn [env fst snd accumulatedContent finalMetadata] in *.
  unfold onComplete. cbn [env accumulatedContent finalMetadata].
  unfold completeStreamingMessage. rewrite Hsm, Hcid. cbn [truthy_opt].
  rewrite Htr. cbn [negb].
  pose proof (replaceStreaming_spec m (completed acc fm m) x y None
                cid st w eq_refl Hcid Hin Hcur) as H.
  cbv zeta in H. destruct H as (_ & _ & H3 & H4 & _).
  change ({| Message.id := Message.id m; Message.content := acc;
             Message.role := Message.role m;
             Message.timestamp := Message.timestamp m;
             Message.isStreaming := false;
             Message.feedback := Message.feedback m;
             Message.metadata := fm |}) with (completed acc fm m).
  destruct (replaceStreaming m (completed acc fm m) None (st, w)) as [st' w'].
  cbn [fst snd] in *. repeat split; assumption.
Qed.

Lemma trimStart_blank (s : jsstring) :
  forallb isWhiteSpace s = true -> trimStart s = [].
Proof.
  induction s as [|c s IH]; intros H; [reflexivity|].
  cbn [forallb] in H. apply andb_true_iff in H. destruct H as [Hc H].
  cbn [trimStart]. rewrite Hc. exact (IH H).
Qed.

Lemma trim_blank (s : jsstring) : forallb isWhiteSpace s = true -> trim s = [].
Proof. intros H. unfold trim. rewrite (trimStart_blank s H). reflexivity. Qed.

End ChatFinal.

(** X8. The text of a [complete] fragment wins over the accumulated
    chunks. The fragment itself throws nothing and changes nothing that is
    shown; when the stream then completes, the message of the placeholder
    gets the content of the fragment if that is not empty, and the
    accumulated text otherwise, together with the metadata of the
    fragment, and is no longer streaming. *)
Theorem complete_fragment_sets_the_final_text
    (t : Chat.Turn) (sm : Message.t) (cid text : jsstring)
    (fm : option Metadata) (f : Fragment.t)
    (HS : Observe.Streaming sm cid text fm t)
    (Hf : Observe.isComplete f = true) :
  let t1 := fst (Chat.onMessage f t) in
  let final :=
    if truthy (Fragment.content f) then Fragment.content f else text in
  snd (Chat.onMessage f t) = None
  /\ Chat.env t1 = Chat.env t
  /\ Observe.lookupMessage cid (Message.id sm) (Chat.store (Chat.onComplete t1))
     = Some (Observe.completed final (Fragment.metadata f) sm)
  /\ Observe.lookupCurrent (Message.id sm) (Chat.store (Chat.onComplete t1))
     = Some (Observe.completed final (Fragment.metadata f) sm)
  /\ Chat.isStreaming (Chat.store (Chat.onComplete t1)) = false.
Proof.
  intros t1 final.
  destruct HS as (Hacc & Hfm & Hsm & Hcid & Htr & Hin & Hcur).
  subst text.
  unfold Observe.isComplete in Hf. unfold t1, Chat.onMessage.
  destruct (Fragment.type f); try discriminate. cbn [fst snd].
  split; [reflexivity|]. split; [reflexivity|].
  match goal with
  | |- context [Chat.onComplete ?u] =>
      destruct (onComplete_general
                  (Observe.withContent (Chat.accumulatedContent t) sm)
                  (Observe.withContent (Chat.accumulatedContent t) sm)
                  (Observe.withContent (Chat.accumulatedContent t) sm)
                  cid u Hsm Hcid Htr Hin Hcur) as (A1 & _ & A3 & A4)
  end.
  split; [exact A3|]. split; [exact A4|exact A1].
Qed.

Lemma complete_fragment_sets_the_final_text_witness :
  let f := Sample.fragment Fragment.complete "Hello!" in
  let t1 := fst (Chat.onMessage f Sample.streamingTurn) in
  let final := if truthy (Fragment.content f) then Fragment.content f else [] in
  snd (Chat.onMessage f Sample.streamingTurn) = None
  /\ Chat.env t1 = Chat.env Sample.streamingTurn
  /\ Observe.lookupMessage (str "c1") (Message.id Sample.placeholder)
       (Chat.store (Chat.onComplete t1))
     = Some (Observe.completed final (Fragment.metadata f) Sample.placeholder)
  /\ Observe.lookupCurrent (Message.id Sample.placeholder)
       (Chat.store (Chat.onComplete t1))
     = Some (Observe.completed final (Fragment.metadata f) Sample.placeholder)
  /\ Chat.isStreaming (Chat.store (Chat.onComplete t1)) = false.
Proof.
  apply (complete_fragment_sets_the_final_text Sample.streamingTurn
           Sample.placeholder (str "c1") [] None
           (Sample.fragment Fragment.complete "Hello!")).
  - unfold Observe.Streaming. repeat split; reflexivity.
  - reflexivity.
Defined.

(** X9. A message of white space only is rejected like an empty one: when
    no stream is active, [sendMessage] throws [Message cannot be empty]
    before it touches the store, creates a message or asks for a
    connection. *)
Theorem blank_message_is_rejected
    (JSON_parse : jsstring -> Result Fragment.t)
    (script : list SSE.Attempt) (messageContent : jsstring)
    (st : Chat.ChatState) (w : World)
    (Hidle : Chat.isStreaming st = false)
    (Hblank : forallb isWhiteSpace messageContent = true) :
  Chat.sendMessage JSON_parse script messageContent (st, w)
    = (SSE.Rejected (new_Error (str "Message cannot be empty")), (st, w), script).
Proof.
  unfold Chat.sendMessage. rewrite Hidle, (trim_blank messageContent Hblank).
  reflexivity.
Qed.

Lemma blank_message_is_rejected_witness :
  Chat.sendMessage Sample.JSON_parse [Sample.respond [] SSE.EndOfStream]
    (str "  " ++ [9; 10; 160]%N) (Chat.initialState, Sample.world0)
    = (SSE.Rejected (new_Error (str "Message cannot be empty")),
       (Chat.initialState, Sample.world0), [Sample.respond [] SSE.EndOfStream]).
Proof.
  apply (blank_message_is_rejected Sample.JSON_parse
           [Sample.respond [] SSE.EndOfStream] (str "  " ++ [9; 10; 160]%N)
           Chat.initialState Sample.world0);
    reflexivity.
Defined.

(** X10. [addMessageToConversation] with an id that no conversation has,
    and that is not the current id, drops the message: nothing is thrown
    and the store and its host are unchanged. *)
Theorem message_for_unknown_conversation_is_dropped
    (cid : jsstring) (m : Message.t) (st : Chat.ChatState) (w : World)
    (Hunknown :
       forallb (fun c => negb (eqb (Conversation.id c) cid))
         (Chat.conversations st) = true)
    (Hcur : Chat.currentConversationId st <> Some cid) :
  Chat.addMessageToConversation (Some cid) m (st, w) = ((st, w), None).
Proof.
  unfold Chat.addMessageToConversation.
  rewrite (touchWhere_nomatch (Some cid) _ (Chat.conversations st) w Hunknown).
  assert (E : opt_eqb (Chat.currentConversationId st) (Some cid) = false).
  { destruct (Chat.currentConversationId st) as [x|]; [|reflexivity].
    cbn [opt_eqb]. apply eqb_neq. congruence. }
  rewrite E. destruct st; reflexivity.
Qed.

Lemma message_for_unknown_conversation_is_dropped_witness :
  Chat.addMessageToConversation (Some (str "c9")) Sample.userMessage
    (Sample.streamingState, Sample.world0)
    = ((Sample.streamingState, Sample.world0), None).
Proof.
  apply (message_for_unknown_conversation_is_dropped (str "c9")
           Sample.userMessage Sample.streamingState Sample.world0).
  - reflexivity.
  - vm_compute. discriminate.
Defined.

(** X11. [addMessageToConversation] with the id of the current
    conversation appends the message at the end, both in the conversation
    of the list that has the id and in the current conversation; nothing
    is thrown, and the ids of the other messages keep their order. *)
Theorem message_is_appended
    (cid : jsstring) (m : Message.t) (st : Chat.ChatState) (w : World)
    (c cur : Conversation.t)
    (Hc : Observe.findConversation cid st = Some c)
    (Hid : Chat.currentConversationId st = Some cid)
    (Hcur : Chat.currentConversation st = Some cur) :
  exists st' w' c' cur',
    Chat.addMessageToConversation (Some cid) m (st, w) = ((st', w'), None)
    /\ Observe.findConversation cid st' = Some c'
    /\ Conversation.messages c' = Conversation.messages c ++ [m]
    /\ Chat.currentConversation st' = Some cur'
    /\ Conversation.messages cur' = Conversation.messages cur ++ [m]
    /\ Conversation.id cur' = Conversation.id cur
    /\ Chat.currentConversationId st' = Some cid
    /\ Chat.streamingMessage st' = Chat.streamingMessage st.
Proof.
  unfold Chat.addMessageToConversation, Observe.findConversation in *.
  destruct (touchWhere_find cid (fun ms => ms ++ [m]) (Chat.conversations st) w c Hc)
    as (c' & Hf & _ & Hm).
  destruct (Chat.touchWhere (Some cid) (fun ms => ms ++ [m])
              (Chat.conversations st) w) as [convs w1].
  cbn [fst] in Hf. rewrite Hid. cbn [opt_eqb]. rewrite eqb_refl, Hcur.
  unfold Chat.touch. cbn [Date_now].
  eexists _, _, c', _. split; [reflexivity|].
  cbn. repeat split; assumption.
Qed.

Lemma message_is_appended_witness :
  exists st' w' c' cur',
    Chat.addMessageToConversation (Some (str "c1")) Sample.userMessage
      (Sample.streamingState, Sample.world0) = ((st', w'), None)
    /\ Observe.findConversation (str "c1") st' = Some c'
    /\ Conversation.messages c'
       = Conversation.messages Sample.conversation1 ++ [Sample.userMessage]
    /\ Chat.currentConversation st' = Some cur'
    /\ Conversation.messages cur'
       = Conversation.messages Sample.conversation1 ++ [Sample.userMessage]
    /\ Conversation.id cur' = Conversation.id Sample.conversation1
    /\ Chat.currentConversationId st' = Some (str "c1")
    /\ Chat.streamingMessage st' = Chat.streamingMessage Sample.streamingState.
Proof.
  apply (message_is_appended (str "c1") Sample.userMessage Sample.streamingState
           Sample.world0 Sample.conversation1 Sample.conversation1);
    reflexivity.
Defined.

(** ** Retrying and deleting *)

Section RetryMore.

Import Chat ChatActions Observe.

Lemma find_app_none (A : Type) (p : A -> bool) (l1 l2 : list A) :
  find p l1 = None -> find p (l1 ++ l2) = find p l2.
Proof.
  induction l1 as [|a l1 IH]; intros H; [reflexivity|].
  cbn [find app] in *. destruct (p a); [discriminate|]. exact (IH H).
Qed.

Lemma find_none_forallb (A : Type) (p : A -> bool) (l : list A) :
  forallb (fun x => negb (p x)) l = true -> find p l = None.
Proof.
  induction l as [|a l IH]; intros H; [reflexivity|].
  cbn [forallb find] in *. apply andb_true_iff in H. destruct H as [Ha H].
  apply negb_true_iff in Ha. rewrite Ha. exact (IH H).
Qed.

Lemma forallb_rev (A : Type) (p : A -> bool) (l : list A) :
  forallb p (rev l) = forallb p l.
Proof.
  induction l as [|a l IH]; [reflexivity|].
  cbn [rev forallb]. rewrite forallb_app, IH. cbn [forallb].
  rewrite andb_true_r. apply andb_comm.
Qed.

(** The last element that satisfies [p], found from the end. *)
Lemma find_rev_last (A : Type) (p : A -> bool) (pre suf : list A) (u : A) :
  p u = true ->
  forallb (fun x => negb (p x)) suf = true ->
  find p (rev (pre ++ u :: suf)) = Some u.
Proof.
  intros Hu Hs. rewrite rev_app_distr. cbn [rev]. rewrite <- app_assoc.
  rewrite find_app_none.
  - cbn [app find]. rewrite Hu. reflexivity.
  - apply find_none_forallb. rewrite forallb_rev. exact Hs.
Qed.

Lemma findIndex_first (A : Type) (q : A -> bool) (pre suf : list A) (u : A) :
  forallb (fun x => negb (q x)) pre = true ->
  q u = true ->
  findIndex q (pre ++ u :: suf) = Z.of_nat (List.length pre).
Proof.
  intros Hp Hu. induction pre as [|a pre IH].
  - cbn [app findIndex]. rewrite Hu. reflexivity.
  - cbn [forallb] in Hp. apply andb_true_iff in Hp. destruct Hp as [Ha Hp].
    apply negb_true_iff in Ha.
    change ((a :: pre) ++ u :: suf) with (a :: (pre ++ u :: suf)).
    cbn [findIndex]. rewrite Ha, (IH Hp). cbn [List.length].
    rewrite Nat2Z.inj_succ. destruct (Z.of_nat (List.length pre)) eqn:E; lia.
Qed.

Lemma sliceTo_prefix (A : Type) (pre suf : list A) (u : A) :
  sliceTo (Z.of_nat (List.length pre) + 1) (pre ++ u :: suf) = pre ++ [u].
Proof.
  unfold sliceTo.
  replace (Z.to_nat (Z.of_nat (List.length pre) + 1)) with (List.length pre + 1)%nat
    by lia.
  rewrite firstn_app. rewrite firstn_all2 by lia.
  replace (List.length pre + 1 - List.length pre)%nat with 1%nat by lia.
  reflexivity.
Qed.

(** [retryLastMessage] cuts the current conversation after its last user
    message and sends the content of that message again. *)
Lemma retryLastMessage_cut (JSON_parse : jsstring -> Result Fragment.t)
    (script : list SSE.Attempt) (st : ChatState) (w : World)
    (cur : Conversation.t) (pre suf : list Message.t) (u : Message.t) :
  currentConversation st = Some cur ->
  Conversation.messages cur = pre ++ u :: suf ->
  isUser u = true ->
  forallb (fun m => negb (isUser m)) suf = true ->
  forallb (fun m => negb (eqb (Message.id m) (Message.id u))) pre = true ->
  retryLastMessage JSON_parse script (st, w)
    = sendMessage JSON_parse script (Message.content u)
        (set_currentConversation
           (Some {| Conversation.id := Conversation.id cur;
                    Conversation.messages := pre ++ [u];
                    Conversation.createdAt := Conversation.createdAt cur;
                    Conversation.updatedAt := Conversation.updatedAt cur |})
           (set_conversations
              (fst (touchWhere (currentConversationId st) (fun _ => pre ++ [u])
                      (conversations st) w)) st),
         snd (touchWhere (currentConversationId st) (fun _ => pre ++ [u])
                (conversations st) w)).
Proof.
  intros Hcur Hm Hu Hs Hp. unfold retryLastMessage. rewrite Hcur, Hm.
  destruct (pre ++ u :: suf) as [|x xs] eqn:E.
  { destruct pre; discriminate. }
  rewrite <- E. rewrite (find_rev_last _ isUser pre suf u Hu Hs).
  rewrite (findIndex_first _ _ pre suf u Hp (eqb_refl _)).
  rewrite sliceTo_prefix.
  destruct (touchWhere (currentConversationId st) (fun _ => pre ++ [u])
              (conversations st) w) as [convs w1].
  reflexivity.
Qed.

Lemma find_filter_other (cid other : jsstring) (l : list Conversation.t) :
  other <> cid ->
  find (fun c => eqb (Conversation.id c) other)
    (filter (fun c => negb (eqb (Conversation.id c) cid)) l)
  = find (fun c => eqb (Conversation.id c) other) l.
Proof.
  intros H. induction l as [|c l IH]; [reflexivity|].
  cbn [filter find].
  destruct (eqb (Conversation.id c) cid) eqn:E1; cbn [negb].
  - destruct (eqb (Conversation.id c) other) eqn:E2; [|exact IH].
    apply eqb_eq in E1. apply eqb_eq in E2. congruence.
  - cbn [find]. rewrite IH. reflexivity.
Qed.

Lemma find_filter_self (cid : jsstring) (l : list Conversation.t) :
  find (fun c => eqb (Conversation.id c) cid)
    (filter (fun c => negb (eqb (Conversation.id c) cid)) l) = None.
Proof.
  induction l as [|c l IH]; [reflexivity|].
  cbn [filter]. destruct (eqb (Conversation.id c) cid) eqn:E; cbn [negb]; [exact IH|].
  cbn [find]. rewrite E. exact IH.
Qed.

End RetryMore.

(** X12. [retryLastMessage] first cuts, then sends. When a stream is
    active, the current conversation is still cut after its last user
    message, in the store and in the list, so that what followed that
    message, the streaming placeholder included, is gone; only then is the
    call rejected with [Cannot send message while streaming]. *)
Theorem retry_while_streaming_cuts_and_rejects
    (JSON_parse : jsstring -> Result Fragment.t)
    (script : list SSE.Attempt) (st : Chat.ChatState) (w : World)
    (cur : Conversation.t) (pre suf : list Message.t) (u : Message.t)
    (Hstreaming : Chat.isStreaming st = true)
    (Hcur : Chat.currentConversation st = Some cur)
    (Hm : Conversation.messages cur = pre ++ u :: suf)
    (Hu : ChatActions.isUser u = true)
    (Hs : forallb (fun m => negb (ChatActions.isUser m)) suf = true)
    (Hp : forallb (fun m => negb (eqb (Message.id m) (Message.id u))) pre = true) :
  exists st' w',
    ChatActions.retryLastMessage JSON_parse script (st, w)
      = (SSE.Rejected (new_Error (str "Cannot send message while streaming")),
         (st', w'), script)
    /\ option_map Conversation.messages (Chat.currentConversation st')
       = Some (pre ++ [u])
    /\ Chat.conversations st'
       = fst (Chat.touchWhere (Chat.currentConversationId st) (fun _ => pre ++ [u])
                (Chat.conversations st) w)
    /\ Chat.streamingMessage st' = Chat.streamingMessage st
    /\ Chat.isStreaming st' = true.
Proof.
  rewrite (retryLastMessage_cut JSON_parse script st w cur pre suf u
             Hcur Hm Hu Hs Hp).
  unfold Chat.sendMessage.
  cbn [Chat.isStreaming Chat.set_currentConversation Chat.set_conversations].
  rewrite Hstreaming. eexists _, _. split; [reflexivity|].
  cbn. rewrite Hstreaming. repeat split.
Qed.

Lemma retry_while_streaming_cuts_and_rejects_witness :
  exists st' w',
    ChatActions.retryLastMessage Sample.JSON_parse [Sample.refuse]
      (Sample.streamingState, Sample.world0)
      = (SSE.Rejected (new_Error (str "Cannot send message while streaming")),
         (st', w'), [Sample.refuse])
    /\ option_map Conversation.messages (Chat.currentConversation st')
       = Some ([] ++ [Sample.userMessage])
    /\ Chat.conversations st'
       = fst (Chat.touchWhere (Chat.currentConversationId Sample.streamingState)
                (fun _ => [] ++ [Sample.userMessage])
                (Chat.conversations Sample.streamingState) Sample.world0)
    /\ Chat.streamingMessage st' = Chat.streamingMessage Sample.streamingState
    /\ Chat.isStreaming st' = true.
Proof.
  apply (retry_while_streaming_cuts_and_rejects Sample.JSON_parse [Sample.refuse]
           Sample.streamingState Sample.world0 Sample.conversation1
           [] [Sample.placeholder] Sample.userMessage);
    reflexivity.
Defined.

(** X13. Without a user message in the current conversation there is
    nothing to retry: [retryLastMessage] is rejected, with
    [No message to retry] when there is no current conversation or it is
    empty and with [No user message to retry] otherwise, and the store,
    its host and the script are untouched. *)
Theorem nothing_to_retry
    (JSON_parse : jsstring -> Result Fragment.t)
    (script : list SSE.Attempt) (st : Chat.ChatState) (w : World)
    (Hnone : forall cur,
        Chat.currentConversation st = Some cur ->
        forallb (fun m => negb (ChatActions.isUser m))
          (Conversation.messages cur) = true) :
  ChatActions.retryLastMessage JSON_parse script (st, w)
    = (SSE.Rejected
         (new_Error
            (match option_map Conversation.messages (Chat.currentConversation st) with
             | Some (_ :: _) => str "No user message to retry"
             | _ => str "No message to retry"
             end)),
       (st, w), script).
Proof.
  unfold ChatActions.retryLastMessage.
  destruct (Chat.currentConversation st) as [cur|] eqn:E; [|reflexivity].
  specialize (Hnone cur eq_refl). cbn [option_map].
  destruct (Conversation.messages cur) as [|m ms] eqn:Em; [reflexivity|].
  rewrite find_none_forallb; [reflexivity|].
  rewrite forallb_rev. exact Hnone.
Qed.

Lemma nothing_to_retry_witness :
  ChatActions.retryLastMessage Sample.JSON_parse [Sample.refuse]
    (Chat.initialState, Sample.world0)
    = (SSE.Rejected
         (new_Error
            (match option_map Conversation.messages
                     (Chat.currentConversation Chat.initialState) with
             | Some (_ :: _) => str "No user message to retry"
             | _ => str "No message to retry"
             end)),
       (Chat.initialState, Sample.world0), [Sample.refuse]).
Proof.
  apply (nothing_to_retry Sample.JSON_parse [Sample.refuse] Chat.initialState
           Sample.world0).
  intros cur H. discriminate H.
Defined.

(** X14. [deleteConversation]: when the request succeeds, no conversation
    of the list has the id any more, every other conversation is found as
    before, and the current conversation is cleared exactly when it was
    the deleted one; when the request is rejected, the error is thrown on,
    the conversations and the current conversation are untouched, and the
    store shows the message of the response, else that of the error, else
    [Failed to delete conversation]. *)
Theorem deleteConversation_removes_or_reports
    (cid : jsstring) (st : Chat.ChatState) (w : World) (err : ChatActions.ApiError) :
  let done := snd (ChatActions.deleteConversation None cid (st, w)) in
  let failed := snd (ChatActions.deleteConversation (Some err) cid (st, w)) in
  fst (ChatActions.deleteConversation None cid (st, w)) = None
  /\ Observe.findConversation cid (fst done) = None
  /\ (forall other, other <> cid ->
      Observe.findConversation other (fst done) = Observe.findConversation other st)
  /\ (Chat.currentConversationId st = Some cid ->
      Chat.currentConversationId (fst done) = None
      /\ Chat.currentConversation (fst done) = None)
  /\ (Chat.currentConversationId st <> Some cid ->
      Chat.currentConversationId (fst done) = Chat.currentConversationId st
      /\ Chat.currentConversation (fst done) = Chat.currentConversation st)
  /\ fst (ChatActions.deleteConversation (Some err) cid (st, w)) = Some err
  /\ Chat.conversations (fst failed) = Chat.conversations st
  /\ Chat.currentConversation (fst failed) = Chat.currentConversation st
  /\ Chat.error (fst failed)
     = Some (ChatActions.errorText err "Failed to delete conversation").
Proof.
  cbn zeta. unfold ChatActions.deleteConversation, Observe.findConversation.
  cbn [fst snd Chat.conversations Chat.currentConversationId
       Chat.currentConversation Chat.error Chat.set_currentConversationId
       Chat.set_currentConversation Chat.set_conversations Chat.set_error].
  split; [reflexivity|]. split; [apply find_filter_self|].
  split; [intros other H; apply find_filter_other; exact H|].
  split.
  { intros H. rewrite H. cbn [opt_eqb]. rewrite eqb_refl. split; reflexivity. }
  split.
  { intros H.
    assert (E : opt_eqb (Chat.currentConversationId st) (Some cid) = false).
    { destruct (Chat.currentConversationId st) as [x|]; [|reflexivity].
      cbn [opt_eqb]. apply eqb_neq. congruence. }
    rewrite E. split; reflexivity. }
  repeat split.
Qed.

(** ** The job collection: insert, remove, update *)

Section JobMore.

Import Tests TestActions.

Lemma replaceFirst_none (job : ProcessingJob) (l : list ProcessingJob) :
  ~ In (jobId job) (List.map jobId l) -> replaceFirst job l = None.
Proof.
  induction l as [|j l IH]; intros H; [reflexivity|].
  cbn [replaceFirst]. destruct (eqb (jobId j) (jobId job)) eqn:E.
  - apply eqb_eq in E. exfalso. apply H. left. exact E.
  - rewrite IH; [reflexivity|]. intros Hin. apply H. right. exact Hin.
Qed.

Lemma replaceFirst_some (job : ProcessingJob) (l : list ProcessingJob) :
  In (jobId job) (List.map jobId l) ->
  exists l',
    replaceFirst job l = Some l'
    /\ List.map jobId l' = List.map jobId l
    /\ find (fun j => eqb (jobId j) (jobId job)) l' = Some job
    /\ replaceFirst job l' = Some l'.
Proof.
  induction l as [|j l IH]; intros H; [destruct H|].
  cbn [replaceFirst]. destruct (eqb (jobId j) (jobId job)) eqn:E.
  - exists (job :: l). apply eqb_eq in E. cbn [List.map find replaceFirst].
    rewrite eqb_refl, E. auto.
  - destruct H as [H|H]; [apply eqb_neq in E; congruence|].
    destruct (IH H) as (l' & E1 & E2 & E3 & E4).
    exists (j :: l'). rewrite E1. cbn [option_map List.map find replaceFirst].
    rewrite E, E2, E3, E4. auto.
Qed.

Lemma set_processingJobs_same (st : TestState) :
  set_processingJobs (processingJobs st) st = st.
Proof. destruct st; reflexivity. Qed.

Lemma filter_other_ids (id : jsstring) (l : list ProcessingJob) :
  ~ In id (List.map jobId l) ->
  filter (fun job => negb (eqb (jobId job) id)) l = l.
Proof.
  induction l as [|j l IH]; intros H; [reflexivity|].
  cbn [filter]. destruct (eqb (jobId j) id) eqn:E.
  - apply eqb_eq in E. exfalso. apply H. left. exact E.
  - cbn [negb]. rewrite IH; [reflexivity|]. intros Hin. apply H. right. exact Hin.
Qed.

(** What [updateJobStatus] does to each job. *)
Lemma updateJobStatus_jobs (b : jsstring) (u : JobUpdate) (st : TestState) :
  processingJobs (updateJobStatus (Some b) u st)
    = List.map (fun job => if eqb (jobId job) b then merge job u else job)
        (processingJobs st).
Proof. reflexivity. Qed.

End JobMore.

(** X15. [addJob] is an upsert: afterwards the first job found under the
    id is the one added; a known id keeps the ids of the collection as
    they are, each in its place, an unknown id is put in front; ids that
    were unique stay unique; and adding the same job twice is adding it
    once. *)
Theorem addJob_upserts (job : Tests.ProcessingJob) (st : Tests.TestState) :
  find (fun j => eqb (Tests.jobId j) (Tests.jobId job))
    (Tests.processingJobs (Tests.addJob job st)) = Some job
  /\ (In (Tests.jobId job) (Tests.jobIds st) ->
      Tests.jobIds (Tests.addJob job st) = Tests.jobIds st)
  /\ (~ In (Tests.jobId job) (Tests.jobIds st) ->
      Tests.processingJobs (Tests.addJob job st) = job :: Tests.processingJobs st)
  /\ (NoDup (Tests.jobIds st) -> NoDup (Tests.jobIds (Tests.addJob job st)))
  /\ Tests.addJob job (Tests.addJob job st) = Tests.addJob job st.
Proof.
  unfold Tests.addJob, Tests.jobIds.
  destruct (in_dec (list_eq_dec N.eq_dec) (Tests.jobId job)
              (List.map Tests.jobId (Tests.processingJobs st))) as [Hin|Hout].
  - destruct (replaceFirst_some job (Tests.processingJobs st) Hin)
      as (l' & E1 & E2 & E3 & E4).
    rewrite E1. cbn [Tests.processingJobs Tests.set_processingJobs]. rewrite E4.
    split; [exact E3|]. split; [intros _; exact E2|].
    split; [intros H; contradiction|]. split; [rewrite E2; auto|]. reflexivity.
  - rewrite (replaceFirst_none job _ Hout).
    cbn [Tests.processingJobs Tests.set_processingJobs Tests.replaceFirst find List.map].
    rewrite eqb_refl. split; [reflexivity|]. split; [intros H; contradiction|].
    split; [reflexivity|]. split; [|reflexivity].
    intros H. constructor; assumption.
Qed.

(** X16. [removeJob] removes every job of the id and nothing else: no job
    of the collection has the id afterwards, a job with another id is in
    the collection exactly when it was before, and removing a job that was
    added to a collection without its id gives that collection back. *)
Theorem removeJob_removes
    (id : jsstring) (job : Tests.ProcessingJob) (st : Tests.TestState) :
  ~ In id (Tests.jobIds (Tests.removeJob id st))
  /\ (forall j, Tests.jobId j <> id ->
      (In j (Tests.processingJobs (Tests.removeJob id st))
       <-> In j (Tests.processingJobs st)))
  /\ (~ In (Tests.jobId job) (Tests.jobIds st) ->
      Tests.removeJob (Tests.jobId job) (Tests.addJob job st) = st).
Proof.
  unfold Tests.removeJob, Tests.jobIds.
  cbn [Tests.processingJobs Tests.set_processingJobs].
  split; [|split].
  - intros H. apply in_map_iff in H. destruct H as (j & Hj & Hin).
    apply filter_In in Hin. destruct Hin as [_ Hf].
    apply negb_true_iff in Hf. apply eqb_neq in Hf. congruence.
  - intros j Hj. rewrite filter_In. split; [intros [H _]; exact H|].
    intros H. split; [exact H|]. apply negb_true_iff. apply eqb_neq. exact Hj.
  - intros Hout. unfold Tests.addJob. rewrite (replaceFirst_none job _ Hout).
    cbn [Tests.processingJobs Tests.set_processingJobs filter].
    rewrite eqb_refl. cbn [negb]. rewrite (filter_other_ids _ _ Hout).
    destruct st; reflexivity.
Qed.

(** X17. The life of a job through the listeners: [job_started] for a job
    whose id is new, then [job_progress], then [job_completed], both for
    that id, leave exactly one job with the id, in front of the
    collection as it was, with the status [completed] and the progress
    100. *)
Theorem job_lifecycle
    (JSON_parse_message : jsstring -> Result ETL.JobMessage)
    (JSON_parse_job : jsstring -> Result Tests.ProcessingJob)
    (JSON_parse_update : jsstring -> Result Tests.JobUpdate)
    (reconnectInterval maxReconnectAttempts : Z)
    (d1 d2 d3 : jsstring) (job : Tests.ProcessingJob)
    (u2 u3 : Tests.JobUpdate) (sys : ETL.Sys)
    (H1 : JSON_parse_job d1 = Ok job)
    (H2 : JSON_parse_update d2 = Ok u2)
    (H3 : JSON_parse_update d3 = Ok u3)
    (Hid2 : Tests.u_jobId u2 = Some (Tests.jobId job))
    (Hid3 : Tests.u_jobId u3 = Some (Tests.jobId job))
    (Hnew : ~ In (Tests.jobId job) (Tests.jobIds (ETL.tests sys))) :
  let route (name : string) (data : jsstring) :=
    ETL.deliver JSON_parse_message JSON_parse_job JSON_parse_update
      reconnectInterval maxReconnectAttempts (ETL.Named (str name) data) in
  let sys' :=
    route "job_completed"%string d3
      (route "job_progress"%string d2 (route "job_started"%string d1 sys)) in
  let final :=
    Tests.merge (Tests.merge job u2) (ETL.withStatus Tests.completed (Some 100%Z) u3) in
  Tests.processingJobs (ETL.tests sys')
    = final :: Tests.processingJobs (ETL.tests sys)
  /\ Tests.jobId final = Tests.jobId job
  /\ Tests.status final = Tests.completed
  /\ Tests.progress final = 100%Z
  /\ count_occ (list_eq_dec N.eq_dec) (Tests.jobIds (ETL.tests sys')) (Tests.jobId job)
     = 1%nat
  /\ ETL.console sys' = ETL.console sys.
Proof.
  intros route sys' final.
  assert (Hfid : Tests.jobId final = Tests.jobId job).
  { unfold final, Tests.merge, ETL.withStatus. cbn. rewrite Hid3. reflexivity. }
  assert (E : Tests.processingJobs (ETL.tests sys')
              = final :: Tests.processingJobs (ETL.tests sys)).
  { unfold sys', route, ETL.deliver.
    replace (eqb (str "job_started") (str "job_started")) with true by reflexivity.
    replace (eqb (str "job_progress") (str "job_started")) with false by reflexivity.
    replace (eqb (str "job_progress") (str "job_progress")) with true by reflexivity.
    replace (eqb (str "job_completed") (str "job_started")) with false by reflexivity.
    replace (eqb (str "job_completed") (str "job_progress")) with false by reflexivity.
    replace (eqb (str "job_completed") (str "job_completed")) with true by reflexivity.
    unfold ETL.on_job_started, ETL.on_job_progress, ETL.on_job_completed.
    rewrite H1, H2, H3. unfold ETL.with_tests. cbn [ETL.tests].
    cbn [ETL.withStatus Tests.u_jobId]. rewrite Hid2, Hid3.
    rewrite !updateJobStatus_jobs. unfold Tests.addJob.
    rewrite (replaceFirst_none job _ Hnew).
    cbn [Tests.processingJobs Tests.set_processingJobs List.map].
    rewrite eqb_refl.
    assert (Em : Tests.jobId (Tests.merge job u2) = Tests.jobId job).
    { unfold Tests.merge. cbn. rewrite Hid2. reflexivity. }
    rewrite Em, eqb_refl. f_equal.
    rewrite List.map_map. apply map_unchanged. intros j Hj.
    assert (En : eqb (Tests.jobId j) (Tests.jobId job) = false).
    { apply eqb_neq. intros Heq. apply Hnew. unfold Tests.jobIds.
      rewrite <- Heq. apply in_map. exact Hj. }
    rewrite En, En. reflexivity. }
  split; [exact E|]. split; [exact Hfid|].
  split; [reflexivity|]. split; [reflexivity|]. split.
  - unfold Tests.jobIds. rewrite E. cbn [List.map count_occ]. rewrite Hfid.
    destruct (list_eq_dec N.eq_dec (Tests.jobId job) (Tests.jobId job)); [|congruence].
    f_equal. apply count_occ_not_In. exact Hnew.
  - unfold sys', route, ETL.deliver.
    replace (eqb (str "job_started") (str "job_started")) with true by reflexivity.
    replace (eqb (str "job_progress") (str "job_started")) with false by reflexivity.
    replace (eqb (str "job_progress") (str "job_progress")) with true by reflexivity.
    replace (eqb (str "job_completed") (str "job_started")) with false by reflexivity.
    replace (eqb (str "job_completed") (str "job_progress")) with false by reflexivity.
    replace (eqb (str "job_completed") (str "job_completed")) with true by reflexivity.
    unfold ETL.on_job_started, ETL.on_job_progress, ETL.on_job_completed.
    rewrite H1, H2, H3. reflexivity.
Qed.

Lemma job_lifecycle_witness :
  let route (name : string) (data : jsstring) :=
    ETL.deliver Sample.JSON_parse_message Examples.JSON_parse_job
      Examples.JSON_parse_update 5000 5 (ETL.Named (str name) data) in
  let sys' :=
    route "job_completed"%string Examples.idPayload
      (route "job_progress"%string Examples.halfPayload
         (route "job_started"%string Examples.startedPayload
            (Sample.etl0 [Examples.doneJob]))) in
  let final :=
    Tests.merge (Tests.merge Examples.startedJob Examples.halfUpdate)
      (ETL.withStatus Tests.completed (Some 100%Z) Examples.idUpdate) in
  Tests.processingJobs (ETL.tests sys')
    = final :: Tests.processingJobs (ETL.tests (Sample.etl0 [Examples.doneJob]))
  /\ Tests.jobId final = Tests.jobId Examples.startedJob
  /\ Tests.status final = Tests.completed
  /\ Tests.progress final = 100%Z
  /\ count_occ (list_eq_dec N.eq_dec) (Tests.jobIds (ETL.tests sys'))
       (Tests.jobId Examples.startedJob) = 1%nat
  /\ ETL.console sys' = ETL.console (Sample.etl0 [Examples.doneJob]).
Proof.
  apply (job_lifecycle Sample.JSON_parse_message Examples.JSON_parse_job
           Examples.JSON_parse_update 5000 5
           Examples.startedPayload Examples.halfPayload Examples.idPayload
           Examples.startedJob Examples.halfUpdate Examples.idUpdate
           (Sample.etl0 [Examples.doneJob])).
  - reflexivity.
  - reflexivity.
  - reflexivity.
  - reflexivity.
  - reflexivity.
  - vm_compute. intros [H|[]]. discriminate H.
Defined.



(** X19. A [job_progress] event that carries no status changes the status
    of no job: the statuses of the collection, and its ids, are the same
    before and after, each in its place, so a job that has finished is not
    put back to work by a late progress event. *)
Theorem progress_without_status_keeps_statuses
    (JSON_parse_message : jsstring -> Result ETL.JobMessage)
    (JSON_parse_job : jsstring -> Result Tests.ProcessingJob)
    (JSON_parse_update : jsstring -> Result Tests.JobUpdate)
    (reconnectInterval maxReconnectAttempts : Z)
    (data : jsstring) (u : Tests.JobUpdate) (sys : ETL.Sys)
    (Hparse : JSON_parse_update data = Ok u)
    (Hstatus : Tests.u_status u = None) :
  let sys' :=
    ETL.deliver JSON_parse_message JSON_parse_job JSON_parse_update
      reconnectInterval maxReconnectAttempts
      (ETL.Named (str "job_progress") data) sys in
  List.map Tests.status (Tests.processingJobs (ETL.tests sys'))
    = List.map Tests.status (Tests.processingJobs (ETL.tests sys))
  /\ List.length (Tests.processingJobs (ETL.tests sys'))
     = List.length (Tests.processingJobs (ETL.tests sys)).
Proof.
  intros sys'. unfold sys', ETL.deliver.
  replace (eqb (str "job_progress") (str "job_started")) with false by reflexivity.
  replace (eqb (str "job_progress") (str "job_progress")) with true by reflexivity.
  unfold ETL.on_job_progress. rewrite Hparse. unfold ETL.with_tests.
  cbn [ETL.tests]. unfold Tests.updateJobStatus.
  cbn [Tests.processingJobs Tests.set_processingJobs].
  split; [|apply length_map].
  rewrite List.map_map. apply map_ext. intros job.
  destruct (opt_eqb (Some (Tests.jobId job)) (Tests.u_jobId u)); [|reflexivity].
  unfold Tests.merge. cbn. rewrite Hstatus. reflexivity.
Qed.

Lemma progress_without_status_keeps_statuses_witness :
  let sys' :=
    ETL.deliver Sample.JSON_parse_message Examples.JSON_parse_job
      Examples.JSON_parse_update 5000 5
      (ETL.Named (str "job_progress") Examples.halfPayload)
      (Sample.etl0 [Sample.jobA]) in
  List.map Tests.status (Tests.processingJobs (ETL.tests sys'))
    = List.map Tests.status
        (Tests.processingJobs (ETL.tests (Sample.etl0 [Sample.jobA])))
  /\ List.length (Tests.processingJobs (ETL.tests sys'))
     = List.length (Tests.processingJobs (ETL.tests (Sample.etl0 [Sample.jobA]))).
Proof.
  apply (progress_without_status_keeps_statuses Sample.JSON_parse_message
           Examples.JSON_parse_job Examples.JSON_parse_update 5000 5
           Examples.halfPayload Examples.halfUpdate (Sample.etl0 [Sample.jobA]));
    reflexivity.
Defined.

(** X20. The two selectors split the collection: every job is either among
    the active jobs ([pending], [running]) or among the completed ones
    ([completed], [failed], [cancelled]), never in both, and the two lists
    together are as long as the collection. *)
Theorem selectors_split_the_jobs (st : Tests.TestState) :
  (forall job, In job (Tests.processingJobs st) ->
     (In job (TestActions.useActiveJobs st)
      /\ ~ In job (TestActions.useCompletedJobs st))
     \/ (In job (TestActions.useCompletedJobs st)
         /\ ~ In job (TestActions.useActiveJobs st)))
  /\ (List.length (TestActions.useActiveJobs st)
      + List.length (TestActions.useCompletedJobs st)
      = List.length (Tests.processingJobs st))%nat.
Proof.
  unfold TestActions.useActiveJobs, TestActions.useCompletedJobs.
  assert (X : forall job, TestActions.isFinished job = negb (TestActions.isActive job)).
  { intros job. unfold TestActions.isFinished, TestActions.isActive.
    destruct (Tests.status job); reflexivity. }
  split.
  - intros job Hin. destruct (TestActions.isActive job) eqn:E.
    + left. split; [apply filter_In; auto|].
      intros H. apply filter_In in H. destruct H as [_ H]. rewrite X, E in H.
      discriminate.
    + right. split; [apply filter_In; split; [exact Hin|rewrite X, E; reflexivity]|].
      intros H. apply filter_In in H. destruct H as [_ H]. congruence.
  - induction (Tests.processingJobs st) as [|j l IH]; [reflexivity|].
    cbn [filter]. rewrite X. destruct (TestActions.isActive j); cbn [negb List.length];
      lia.
Qed.

(** ** The reconnect loop of the job stream *)

Section HookFacts.

Import ETL Hook.

Variable reconnectInterval : Z.
Variable maxReconnectAttempts : Z.

Lemma errorsInARow_from (n : nat) :
  forall r : Run,
    (0 <= reconnectAttemptsRef (hook (sys r)) <= maxReconnectAttempts)%Z ->
    let a := reconnectAttemptsRef (hook (sys r)) in
    let r' := errorsInARow reconnectInterval maxReconnectAttempts n r in
    reconnectAttemptsRef (hook (sys r'))
      = Z.min (a + Z.of_nat n) maxReconnectAttempts
    /\ created r'
       = (created r + Z.to_nat (Z.min (a + Z.of_nat n) maxReconnectAttempts - a))%nat
    /\ (n <> 0%nat ->
        eventSourceRef (hook (sys r'))
          = Z.leb (a + Z.of_nat n) maxReconnectAttempts)
    /\ tests (sys r') = tests (sys r).
Proof.
  induction n as [|n IH]; intros r Ha; cbv zeta.
  - cbn [errorsInARow Z.of_nat]. rewrite Z.add_0_r.
    repeat split; try lia.
  - cbn [errorsInARow].
    set (a := reconnectAttemptsRef (hook (sys r))) in *.
    set (r1 := errorThenTimer reconnectInterval maxReconnectAttempts None r).
    assert (H1 : reconnectAttemptsRef (hook (sys r1))
                 = (if Z.ltb a maxReconnectAttempts then a + 1 else a)%Z
                 /\ created r1
                    = (if Z.ltb a maxReconnectAttempts then S (created r)
                       else created r)
                 /\ eventSourceRef (hook (sys r1)) = Z.ltb a maxReconnectAttempts
                 /\ tests (sys r1) = tests (sys r)).
    { unfold r1, errorThenTimer, onerror, connect. fold a.
      destruct (Z.ltb a maxReconnectAttempts); cbn; auto. }
    destruct H1 as (A1 & A2 & A3 & A4).
    assert (Ha1 : (0 <= reconnectAttemptsRef (hook (sys r1)) <= maxReconnectAttempts)%Z).
    { rewrite A1. destruct (Z.ltb_spec a maxReconnectAttempts); lia. }
    specialize (IH r1 Ha1). cbv zeta in IH.
    destruct IH as (B1 & B2 & B3 & B4).
    rewrite B1, B2, B4, A1, A2, A4. rewrite Nat2Z.inj_succ.
    destruct (Z.ltb_spec a maxReconnectAttempts) as [Hlt|Hge].
    + split; [f_equal; lia|]. split; [lia|]. split; [|reflexivity].
      intros _. destruct n as [|n'].
      * cbn [errorsInARow]. rewrite A3. symmetry. apply Z.leb_le.
        cbn [Z.of_nat]. lia.
      * rewrite B3 by discriminate. rewrite A1. f_equal. lia.
    + split; [lia|]. split; [lia|]. split; [|reflexivity].
      intros _. destruct n as [|n'].
      * cbn [errorsInARow]. rewrite A3. symmetry. apply Z.leb_gt.
        cbn [Z.of_nat]. lia.
      * rewrite B3 by discriminate. rewrite A1.
        transitivity false; [apply Z.leb_gt|symmetry; apply Z.leb_gt]; lia.
Qed.

End HookFacts.

(** X21. The job stream reconnects at most [maxReconnectAttempts] times in
    a row: after [n] errors, each new event source failing before it
    opens, the hook has asked for [min n maxReconnectAttempts] new event
    sources and its counter reads the same; it holds an event source
    exactly when [n] is within the budget, and the job store is
    untouched. *)
Theorem reconnects_are_bounded
    (reconnectInterval maxReconnectAttempts : Z) (n : nat) (r : Hook.Run)
    (Hmax : (0 <= maxReconnectAttempts)%Z)
    (Hstart : ETL.reconnectAttemptsRef (ETL.hook (Hook.sys r)) = 0%Z)
    (Hn : n <> 0%nat) :
  let r' := Hook.errorsInARow reconnectInterval maxReconnectAttempts n r in
  ETL.reconnectAttemptsRef (ETL.hook (Hook.sys r'))
    = Z.min (Z.of_nat n) maxReconnectAttempts
  /\ Hook.created r'
     = (Hook.created r + Z.to_nat (Z.min (Z.of_nat n) maxReconnectAttempts))%nat
  /\ ETL.eventSourceRef (ETL.hook (Hook.sys r'))
     = Z.leb (Z.of_nat n) maxReconnectAttempts
  /\ ETL.tests (Hook.sys r') = ETL.tests (Hook.sys r).
Proof.
  intros r'.
  destruct (errorsInARow_from reconnectInterval maxReconnectAttempts n r)
    as (A1 & A2 & A3 & A4); [rewrite Hstart; lia|].
  rewrite Hstart in *. cbn [Z.add] in *. rewrite Z.sub_0_r in A2.
  split; [exact A1|]. split; [exact A2|]. split; [exact (A3 Hn)|exact A4].
Qed.

(** Three errors with a budget of two: the first event source and two
    more, as the test of the hook expects. *)
Lemma reconnects_are_bounded_witness :
  let r := {| Hook.sys := Sample.etl0 []; Hook.created := 1 |} in
  let r' := Hook.errorsInARow 1000 2 3 r in
  ETL.reconnectAttemptsRef (ETL.hook (Hook.sys r')) = Z.min (Z.of_nat 3) 2
  /\ Hook.created r' = (Hook.created r + Z.to_nat (Z.min (Z.of_nat 3) 2))%nat
  /\ ETL.eventSourceRef (ETL.hook (Hook.sys r')) = Z.leb (Z.of_nat 3) 2
  /\ ETL.tests (Hook.sys r') = ETL.tests (Hook.sys r).
Proof.
  apply (reconnects_are_bounded 1000 2 3
           {| Hook.sys := Sample.etl0 []; Hook.created := 1 |}).
  - lia.
  - reflexivity.
  - discriminate.
Defined.

Example three_event_sources :
  Hook.created
    (Hook.errorsInARow 1000 2 3 {| Hook.sys := Sample.etl0 []; Hook.created := 1 |})
  = 3%nat.
Proof. reflexivity. Qed.

(** X22. [monitorETLJob] stops at the first terminal job: every job it
    yields before the last one is neither completed, failed nor cancelled;
    when the generator returns, the last job it yielded is terminal; when
    it throws or still waits, none of the yielded jobs is. *)
Theorem monitor_stops_at_the_first_terminal_job
    (JSON_parse_job : jsstring -> Result Tests.ProcessingJob)
    (events : list Hook.SourceEvent) :
  let yielded := fst (Hook.monitorETLJob JSON_parse_job events) in
  let working j := negb (Hook.isTerminal (Tests.status j)) in
  forallb working (removelast yielded) = true
  /\ match snd (Hook.monitorETLJob JSON_parse_job events) with
     | Hook.Returned =>
         exists j, yielded = removelast yielded ++ [j]
                   /\ Hook.isTerminal (Tests.status j) = true
     | _ => forallb working yielded = true
     end.
Proof.
  cbv zeta. induction events as [|ev events IH]; [split; reflexivity|].
  destruct ev as [data| |]; cbn [Hook.monitorETLJob]; try (split; reflexivity).
  destruct (JSON_parse_job data) as [job|e]; [|split; reflexivity].
  destruct (Hook.isTerminal (Tests.status job)) eqn:Et.
  - cbn [fst snd removelast forallb]. split; [reflexivity|].
    exists job. split; [reflexivity|exact Et].
  - destruct (Hook.monitorETLJob JSON_parse_job events) as [more ending].
    cbn [fst snd] in *. destruct IH as [I1 I2].
    destruct more as [|m more].
    + cbn [removelast forallb]. split; [reflexivity|].
      destruct ending; cbn [forallb]; try (rewrite Et; reflexivity).
      destruct I2 as (j & Hj & _). destruct (removelast []); discriminate.
    + change (removelast (job :: m :: more)) with (job :: removelast (m :: more)).
      cbn [forallb]. rewrite Et. cbn [negb andb]. split; [exact I1|].
      destruct ending; try exact I2.
      destruct I2 as (j & Hj & Ht). exists j. split; [|exact Ht].
      cbn [app]. f_equal. exact Hj.
Qed.

Example monitor_run :
  Hook.monitorETLJob Examples.JSON_parse_monitored
    [Hook.Message Examples.startedPayload; Hook.Message Examples.donePayload;
     Hook.Message Examples.startedPayload]
  = ([Examples.startedJob; Examples.doneJob], Hook.Returned).
Proof. reflexivity. Qed.

(** ** The network monitor *)

Section NetworkFacts.

Import Network.

Lemma status_eqb_eq (a b : NetworkStatus) : status_eqb a b = true <-> a = b.
Proof. destruct a, b; cbn; split; congruence. Qed.

Lemma reported_app (a b : list Call) : reported (a ++ b) = reported a ++ reported b.
Proof. unfold reported. apply flat_map_app. Qed.

Lemma reported_listeners (ls : list nat) (s : NetworkStatus) :
  reported (List.map (fun l => Listener l s) ls) = [].
Proof. induction ls as [|l ls IH]; [reflexivity|exact IH]. Qed.

Lemma updateStatus_step (s : NetworkStatus) (m : NetworkMonitor) :
  quietOrChanged m (updateStatus s m).
Proof.
  unfold quietOrChanged, updateStatus.
  destruct (status_eqb (status m) s) eqn:E; cbn [negb].
  - split; [reflexivity|]. left. split; reflexivity.
  - split; [reflexivity|]. right. cbn [status calls]. split.
    + intros H. symmetry in H. apply status_eqb_eq in H. congruence.
    + rewrite !reported_app, reported_listeners, app_nil_r.
      destruct (onStatusChange (options m)); reflexivity.
Qed.

Lemma quiet_refl (m : NetworkMonitor) : quietOrChanged m m.
Proof. split; [reflexivity|]. left. split; reflexivity. Qed.

Lemma performPing_step (o : PingOutcome) (m : NetworkMonitor) :
  quietOrChanged m (performPing o m).
Proof.
  unfold performPing.
  destruct (negb (truthy_opt (pingUrl (options m)))); [apply quiet_refl|].
  set (m1 := {| status := status m; options := options m;
                pingTimer := pingTimer m; listeners := listeners m;
                calls := calls m; pings := S (pings m) |}).
  assert (H : forall s, quietOrChanged m (updateStatus s m1)).
  { intros s. exact (updateStatus_step s m1). }
  destruct o as [ok duration|e].
  - destruct ok; [destruct (Z.ltb (threshold m) duration)|]; apply H.
  - destruct (eqb (name e) (str "TimeoutError")); apply H.
Qed.

Lemma apply_step (op : Op) (m : NetworkMonitor) : quietOrChanged m (apply op m).
Proof.
  destruct op as [| |t onLine|o|first| |l|l]; cbn [apply].
  - apply updateStatus_step.
  - apply updateStatus_step.
  - unfold handleConnectionChange. destruct t as [t|]; [|apply quiet_refl].
    destruct (existsb (eqb t) [str "slow-2g"; str "2g"]); [apply updateStatus_step|].
    destruct onLine; [apply updateStatus_step|apply quiet_refl].
  - destruct (pingTimer m); [apply performPing_step|apply quiet_refl].
  - unfold start.
    destruct (pingTimer m || negb (truthy_opt (pingUrl (options m))));
      [apply quiet_refl|].
    exact (performPing_step first
             {| status := status m; options := options m; pingTimer := true;
                listeners := listeners m; calls := calls m; pings := pings m |}).
  - split; [reflexivity|]. left. split; reflexivity.
  - split; [reflexivity|]. left. split; reflexivity.
  - split; [reflexivity|]. left. split; reflexivity.
Qed.

Lemma last_default (A : Type) (l : list A) (a d d' : A) :
  last (a :: l) d = last (a :: l) d'.
Proof.
  revert a. induction l as [|b l IH]; intros a; [reflexivity|].
  change (last (a :: b :: l) d) with (last (b :: l) d).
  change (last (a :: b :: l) d') with (last (b :: l) d'). apply IH.
Qed.

Lemma changing_snoc (x : NetworkStatus) (l : list NetworkStatus) :
  forall s : NetworkStatus,
    changing s l -> x <> last l s -> changing s (l ++ [x]).
Proof.
  induction l as [|a l IH]; intros s H Hx.
  - cbn in *. auto.
  - destruct H as [H1 H2]. change ((a :: l) ++ [x]) with (a :: (l ++ [x])).
    split; [exact H1|]. apply IH; [exact H2|].
    destruct l as [|b l]; [exact Hx|].
    change (last (a :: b :: l) s) with (last (b :: l) s) in Hx.
    rewrite (last_default _ l b a s). exact Hx.
Qed.

End NetworkFacts.

(** X23. The network monitor reports changes only. For every sequence of
    window events, pings and calls of its methods, the statuses passed to
    [onStatusChange] never repeat: each differs from the one before it,
    the first differs from the status the monitor started with, and the
    last one is the status that [getStatus()] returns. *)
Theorem monitor_reports_changes_only
    (ops : list Network.Op) (m : Network.NetworkMonitor)
    (Hcallback : Network.onStatusChange (Network.options m) = true) :
  exists news,
    Network.reported (Network.calls (Network.run ops m))
      = Network.reported (Network.calls m) ++ news
    /\ Network.changing (Network.status m) news
    /\ last news (Network.status m) = Network.status (Network.run ops m).
Proof.
  unfold Network.run. rewrite <- fold_left_rev_right.
  induction (rev ops) as [|op l IH].
  - exists []. cbn. rewrite app_nil_r. auto.
  - cbn [fold_right].
    set (m1 := fold_right (fun op acc => Network.apply op acc) m l) in *.
    destruct IH as (news & E & C & L).
    assert (Ho : Network.options m1 = Network.options m).
    { unfold m1. clear. induction l as [|op l IH]; [reflexivity|].
      cbn [fold_right]. destruct (apply_step op (fold_right
        (fun op acc => Network.apply op acc) m l)) as [H _]. rewrite H. exact IH. }
    destruct (apply_step op m1) as [_ [[Hs Hc]|[Hs Hr]]].
    + exists news. rewrite Hc, Hs. auto.
    + rewrite Ho, Hcallback in Hr.
      exists (news ++ [Network.status (Network.apply op m1)]).
      rewrite Hr, E, app_assoc. split; [reflexivity|]. split.
      * apply changing_snoc; [exact C|]. rewrite L. exact Hs.
      * rewrite last_last. reflexivity.
Qed.

Lemma monitor_reports_changes_only_witness :
  exists news,
    Network.reported
      (Network.calls
         (Network.run
            [Network.WindowOffline; Network.WindowOffline; Network.WindowOnline;
             Network.Start (Network.Responded true 6000)]
            (Network.new_NetworkMonitor
               {| Network.onStatusChange := true; Network.pingUrl := None;
                  Network.pingInterval := None; Network.slowThreshold := None |})))
      = Network.reported
          (Network.calls
             (Network.new_NetworkMonitor
                {| Network.onStatusChange := true; Network.pingUrl := None;
                   Network.pingInterval := None; Network.slowThreshold := None |}))
        ++ news
    /\ Network.changing
         (Network.status
            (Network.new_NetworkMonitor
               {| Network.onStatusChange := true; Network.pingUrl := None;
                  Network.pingInterval := None; Network.slowThreshold := None |}))
         news
    /\ last news
         (Network.status
            (Network.new_NetworkMonitor
               {| Network.onStatusChange := true; Network.pingUrl := None;
                  Network.pingInterval := None; Network.slowThreshold := None |}))
       = Network.status
           (Network.run
              [Network.WindowOffline; Network.WindowOffline; Network.WindowOnline;
               Network.Start (Network.Responded true 6000)]
              (Network.new_NetworkMonitor
                 {| Network.onStatusChange := true; Network.pingUrl := None;
                    Network.pingInterval := None; Network.slowThreshold := None |})).
Proof.
  apply (monitor_reports_changes_only
           [Network.WindowOffline; Network.WindowOffline; Network.WindowOnline;
            Network.Start (Network.Responded true 6000)]
           (Network.new_NetworkMonitor
              {| Network.onStatusChange := true; Network.pingUrl := None;
                 Network.pingInterval := None; Network.slowThreshold := None |})).
  reflexivity.
Defined.

Example monitor_run_reports :
  Network.reported
    (Network.calls
       (Network.run
          [Network.WindowOffline; Network.WindowOffline; Network.WindowOnline;
           Network.Start (Network.Responded true 6000)]
          (Network.new_NetworkMonitor
             {| Network.onStatusChange := true; Network.pingUrl := None;
                Network.pingInterval := None; Network.slowThreshold := None |})))
  = [Network.offline; Network.online; Network.slow].
Proof. reflexivity. Qed.

(** ** A whole turn on a store without a current conversation *)

Section FreshFacts.

Import Chat Observe.

Variable JSON_parse : jsstring -> Result Fragment.t.

(** On a store that is not streaming and has no current conversation,
    [sendMessage] builds the conversation, puts the message of the user
    and the placeholder into it, and hands the turn to the client. *)
Lemma sendMessage_fresh (script : list SSE.Attempt) (content : jsstring)
    (st : ChatState) (w : World) :
  isStreaming st = false ->
  truthy (trim content) = true ->
  currentConversation st = None ->
  truthy (Fresh.conversationId w) = true ->
  forallb (fun c => negb (eqb (Conversation.id c) (Fresh.conversationId w)))
    (conversations st) = true ->
  sendMessage JSON_parse script content (st, w)
    = Fresh.settle (connectChat JSON_parse script (Fresh.turn content st w)).
Proof.
  intros Hidle Hcontent Hcur Hcid Hnew.
  assert (Hn : forallb (fun c => negb (opt_eqb (Some (Conversation.id c))
                                         (Some (Fresh.conversationId w))))
                 (conversations st) = true) by exact Hnew.
  assert (F : forall (t : Turn)
                     (r : SSE.Settled * (SSE.SSEClient Turn * Turn) * list SSE.Attempt),
             (let '(r0, (st3, w3), rest) :=
                match r with (r1, (_, t'), rest1) => (r1, env t', rest1) end in
              match r0 with
              | SSE.Rejected err =>
                  (SSE.Rejected err,
                   (set_connectionStatus Status.error
                      (set_error
                         (Some (or_else (message err) (str "Failed to send message")))
                         (set_isStreaming false (set_isLoading false st3))), w3),
                   rest)
              | _ => (r0, (st3, w3), rest)
              end) = Fresh.settle r).
  { intros _ [[r [c [[st3 w3] acc fm]]] rest]. destruct r; reflexivity. }
  unfold sendMessage. rewrite Hidle, Hcontent, Hcur. cbn [negb].
  unfold streamChatResponse, addMessageToConversation, createMessage,
    createConversation, uuidv4, Date_now.
  cbn -[touchWhere Fresh.settle connectChat Fresh.turn eqb truthy].
  change (uuid_source w (S (uuid_calls w))) with (Fresh.conversationId w).
  rewrite Hcid. cbn -[touchWhere Fresh.settle connectChat Fresh.turn eqb truthy].
  rewrite Hcid.
  unfold Fresh.turn, Fresh.opened.
  destruct (sseClient st) eqn:Es;
    cbn -[touchWhere Fresh.settle connectChat eqb truthy];
    rewrite touchWhere_app, (touchWhere_nomatch _ _ (conversations st) _ Hn),
      touchWhere_cons;
    cbn -[Fresh.settle connectChat eqb truthy];
    rewrite !eqb_refl, Hcid;
    cbn -[Fresh.settle connectChat eqb truthy];
    apply (F (Fresh.turn content st w)).
Qed.

End FreshFacts.

Section TurnFacts.

Import Chat Observe.

Variable JSON_parse : jsstring -> Result Fragment.t.

(** A report of the connection status changes nothing in a streaming
    turn. *)
Lemma onConnectionChange_Streaming (sm : Message.t) (cid text : jsstring)
    (fm : option Metadata) (status : Status.t) (t : Turn) :
  Streaming sm cid text fm t -> Streaming sm cid text fm (onConnectionChange status t).
Proof. destruct t as [[st w] acc fm0]. intros H. exact H. Qed.

(** The end of a stream without sentinel and without [complete] fragment,
    on a streaming turn. *)
Lemma processStream_streaming (c : SSE.SSEClient Turn) (t : Turn)
    (sm : Message.t) (cid text : jsstring) (fm : option Metadata)
    (chunks : list jsstring) :
  handlers c = handlers chatClient ->
  Streaming sm cid text fm t ->
  existsb isDone (linesOf chunks) = false ->
  forallb (fun f => negb (isComplete f)) (fragmentsOf JSON_parse (linesOf chunks))
    = true ->
  exists c' t',
    SSE.processStream host JSON_parse
      {| SSE.chunks := chunks; SSE.ending := SSE.EndOfStream |} (c, t)
      = (None, (c', t'))
    /\ isStreaming (store t') = false
    /\ streamingMessage (store t') = None
    /\ lookupMessage cid (Message.id sm) (store t')
       = Some (completed (text ++ chunkText (fragmentsOf JSON_parse (linesOf chunks)))
                 fm sm)
    /\ lookupCurrent (Message.id sm) (store t')
       = Some (completed (text ++ chunkText (fragmentsOf JSON_parse (linesOf chunks)))
                 fm sm)
    /\ connectionStatus (store t') = Status.disconnected.
Proof.
  intros Hh HS Hnodone Hnocomplete.
  destruct (processLines_streaming JSON_parse sm cid fm (linesOf chunks) text c t
              Hh HS Hnodone Hnocomplete) as (c1 & t1 & E & C & S1).
  unfold SSE.processStream. cbn [SSE.chunks SSE.ending].
  rewrite (readLoop_lines Turn host JSON_parse chunks [] (c, t)) by (intros []).
  change (removelast (split ([] ++ List.concat chunks))) with (linesOf chunks).
  rewrite E.
  destruct (core_inv Turn c1 c C) as (_ & _ & _ & _ & _ & Hh1).
  rewrite Hh in Hh1. destruct (chat_handlers c1 Hh1) as (_ & _ & Hc & Hs).
  unfold SSE.fire_onComplete, SSE.fire_onConnectionChange.
  cbn [SSE.options SSE.set_isConnected]. rewrite Hc, Hs.
  eexists _, _. split; [reflexivity|].
  destruct (onComplete_spec sm cid _ fm t1 S1) as (A1 & A2 & _ & A4 & A5).
  destruct (onComplete t1) as [[st w] acc fm0].
  unfold store in *. cbn in *. repeat split; assumption.
Qed.

End TurnFacts.

(** X24. [sendMessage] on a store that is not streaming and has no current
    conversation, while the first [fetch] is pending: a new conversation
    is appended to the list and made current; it holds the message of the
    user and, after it, the empty placeholder of the assistant, which is
    the streaming message; the store is streaming and connecting, its
    error is cleared, and one request has been made. *)
Theorem sendMessage_opens_a_conversation
    (JSON_parse : jsstring -> Result Fragment.t)
    (content : jsstring) (st : Chat.ChatState) (w : World)
    (Hidle : Chat.isStreaming st = false)
    (Hcontent : truthy (trim content) = true)
    (Hcur : Chat.currentConversation st = None)
    (Hcid : truthy (Fresh.conversationId w) = true)
    (Hnew : forallb (fun c => negb (eqb (Conversation.id c) (Fresh.conversationId w)))
              (Chat.conversations st) = true)
    (Hdistinct : eqb (Fresh.userId w) (Fresh.placeholderId w) = false) :
  let st' := Chat.set_connectionStatus Status.connecting (Fresh.opened content st w) in
  Chat.sendMessage JSON_parse [] content (st, w)
    = (SSE.Pending, (st', perform Fetch (Fresh.later w)), [])
  /\ Observe.lookupMessage (Fresh.conversationId w) (Fresh.placeholderId w) st'
     = Some (Fresh.placeholder w)
  /\ Observe.lookupMessage (Fresh.conversationId w) (Fresh.userId w) st'
     = Some (Fresh.userMessage content w)
  /\ Observe.lookupCurrent (Fresh.placeholderId w) st' = Some (Fresh.placeholder w).
Proof.
  intros st'.
  assert (Hf : find (fun c => eqb (Conversation.id c) (Fresh.conversationId w))
                 (Chat.conversations st) = None).
  { apply find_none_forallb. exact Hnew. }
  split.
  - rewrite (sendMessage_fresh JSON_parse [] content st w Hidle Hcontent Hcur Hcid Hnew).
    reflexivity.
  - unfold st', Observe.lookupMessage, Observe.findConversation, Observe.lookupCurrent,
      Fresh.opened.
    cbn [Chat.conversations Chat.currentConversation Chat.set_connectionStatus].
    rewrite (find_app_none _ _ _ _ Hf). cbn [find Fresh.conversation Conversation.id].
    rewrite eqb_refl.
    cbn [Conversation.messages find Fresh.conversation Fresh.userMessage
         Fresh.placeholder Message.id].
    rewrite !eqb_refl, Hdistinct. repeat split.
Qed.

Lemma sendMessage_opens_a_conversation_witness :
  let st' :=
    Chat.set_connectionStatus Status.connecting
      (Fresh.opened (str "hi") Chat.initialState Sample.world0) in
  Chat.sendMessage Sample.JSON_parse [] (str "hi") (Chat.initialState, Sample.world0)
    = (SSE.Pending, (st', perform Fetch (Fresh.later Sample.world0)), [])
  /\ Observe.lookupMessage (Fresh.conversationId Sample.world0)
       (Fresh.placeholderId Sample.world0) st'
     = Some (Fresh.placeholder Sample.world0)
  /\ Observe.lookupMessage (Fresh.conversationId Sample.world0)
       (Fresh.userId Sample.world0) st'
     = Some (Fresh.userMessage (str "hi") Sample.world0)
  /\ Observe.lookupCurrent (Fresh.placeholderId Sample.world0) st'
     = Some (Fresh.placeholder Sample.world0).
Proof.
  apply (sendMessage_opens_a_conversation Sample.JSON_parse (str "hi")
           Chat.initialState Sample.world0);
    reflexivity.
Defined.

(** X25. A whole turn. [sendMessage] on a store that is not streaming and
    has no current conversation, answered by a stream that ends without
    sentinel and without [complete] fragment: the promise resolves, the
    attempts that the script still holds are not made, the store is no
    longer streaming, and in the new conversation the placeholder has
    become the answer, not streaming, whose content is the concatenation
    of the chunks. *)
Theorem sendMessage_answers
    (JSON_parse : jsstring -> Result Fragment.t)
    (content : jsstring) (st : Chat.ChatState) (w : World)
    (a : SSE.Attempt) (rest : list SSE.Attempt)
    (status : Z) (statusText : jsstring) (chunks : list jsstring)
    (Hidle : Chat.isStreaming st = false)
    (Hcontent : truthy (trim content) = true)
    (Hcur : Chat.currentConversation st = None)
    (Hcid : truthy (Fresh.conversationId w) = true)
    (Hnew : forallb (fun c => negb (eqb (Conversation.id c) (Fresh.conversationId w)))
              (Chat.conversations st) = true)
    (Hdistinct : eqb (Fresh.userId w) (Fresh.placeholderId w) = false)
    (Ha : SSE.outcome a
          = SSE.FetchResponds true status statusText
              (Some {| SSE.chunks := chunks; SSE.ending := SSE.EndOfStream |}))
    (Hnodone : existsb Observe.isDone (Observe.linesOf chunks) = false)
    (Hnocomplete :
       forallb (fun f => negb (Observe.isComplete f))
         (Observe.fragmentsOf JSON_parse (Observe.linesOf chunks)) = true) :
  let answer :=
    Observe.completed
      (Observe.chunkText (Observe.fragmentsOf JSON_parse (Observe.linesOf chunks)))
      None (Fresh.placeholder w) in
  exists st' w',
    Chat.sendMessage JSON_parse (a :: rest) content (st, w)
      = (SSE.Resolved, (st', w'), rest)
    /\ Chat.isStreaming st' = false
    /\ Chat.streamingMessage st' = None
    /\ Observe.lookupMessage (Fresh.conversationId w) (Fresh.placeholderId w) st'
       = Some answer
    /\ Observe.lookupCurrent (Fresh.placeholderId w) st' = Some answer
    /\ Chat.connectionStatus st' = Status.disconnected.
Proof.
  intros answer.
  assert (Hf : find (fun c => eqb (Conversation.id c) (Fresh.conversationId w))
                 (Chat.conversations st) = None).
  { apply find_none_forallb. exact Hnew. }
  assert (HS : Observe.Streaming (Fresh.placeholder w) (Fresh.conversationId w) []
                 None (Fresh.turn content st w)).
  { unfold Observe.Streaming, Observe.lookupMessage, Observe.findConversation,
      Observe.lookupCurrent, Chat.store, Fresh.turn, Fresh.opened.
    cbn [Chat.env fst Chat.conversations Chat.currentConversation
         Chat.accumulatedContent Chat.finalMetadata Chat.streamingMessage
         Chat.currentConversationId].
    rewrite (find_app_none _ _ _ _ Hf). cbn [find Fresh.conversation Conversation.id].
    rewrite eqb_refl.
    cbn [Conversation.messages find Fresh.conversation Fresh.userMessage
         Fresh.placeholder Message.id].
    rewrite !eqb_refl, Hdistinct. repeat split. exact Hcid. }
  rewrite (sendMessage_fresh JSON_parse (a :: rest) content st w
             Hidle Hcontent Hcur Hcid Hnew).
  unfold Chat.connectChat, SSE.connect. cbn [SSE.attemptConnection].
  cbn [SSE.abortController SSE.set_retryCount SSE.set_abortController].
  rewrite Ha. cbn [SSE.tryConnection negb].
  match goal with
  | |- context [SSE.processStream _ _ ?b (?c1, ?t1)] =>
      destruct (processStream_streaming JSON_parse c1 t1 (Fresh.placeholder w)
                  (Fresh.conversationId w) [] None chunks)
        as (c' & t' & E & A1 & A2 & A3 & A4 & A5);
      [reflexivity
      |apply onConnectionChange_Streaming; apply host_Streaming;
       apply onConnectionChange_Streaming; exact HS
      |exact Hnodone|exact Hnocomplete|]
  end.
  rewrite E. unfold Fresh.settle.
  destruct t' as [[st' w'] acc fm]. unfold Chat.store in *. cbn [Chat.env fst] in *.
  exists st', w'. split; [reflexivity|].
  repeat split; assumption.
Qed.

Lemma sendMessage_answers_witness :
  let chunks := [Sample.dataLine (Sample.payload "chunk" "Hel");
                 Sample.dataLine (Sample.payload "chunk" "lo")] in
  let answer :=
    Observe.completed
      (Observe.chunkText
         (Observe.fragmentsOf Sample.JSON_parse (Observe.linesOf chunks)))
      None (Fresh.placeholder Sample.world0) in
  exists st' w',
    Chat.sendMessage Sample.JSON_parse
      (Sample.respond chunks SSE.EndOfStream :: [Sample.refuse]) (str "hi")
      (Chat.initialState, Sample.world0)
      = (SSE.Resolved, (st', w'), [Sample.refuse])
    /\ Chat.isStreaming st' = false
    /\ Chat.streamingMessage st' = None
    /\ Observe.lookupMessage (Fresh.conversationId Sample.world0)
         (Fresh.placeholderId Sample.world0) st' = Some answer
    /\ Observe.lookupCurrent (Fresh.placeholderId Sample.world0) st' = Some answer
    /\ Chat.connectionStatus st' = Status.disconnected.
Proof.
  apply (sendMessage_answers Sample.JSON_parse (str "hi") Chat.initialState
           Sample.world0
           (Sample.respond [Sample.dataLine (Sample.payload "chunk" "Hel");
                            Sample.dataLine (Sample.payload "chunk" "lo")]
              SSE.EndOfStream)
           [Sample.refuse] 200 (str "OK")
           [Sample.dataLine (Sample.payload "chunk" "Hel");
            Sample.dataLine (Sample.payload "chunk" "lo")]);
    reflexivity.
Defined.

Section JobPolls.

Import Tests TestActions.

Lemma merged_in (b : jsstring) (u : JobUpdate) (l : list ProcessingJob)
    (j : ProcessingJob) :
  In j (List.map (fun job => if eqb (jobId job) b then merge job u else job) l) ->
  (exists j0, In j0 l /\ jobId j0 = b /\ j = merge j0 u)
  \/ (In j l /\ jobId j <> b).
Proof.
  rewrite in_map_iff. intros (j0 & E & Hin).
  destruct (eqb (jobId j0) b) eqn:Eb.
  - left. exists j0. apply eqb_eq in Eb. auto.
  - right. subst j. split; [exact Hin|]. apply eqb_neq. exact Eb.
Qed.

Lemma kept_in (b : jsstring) (u : JobUpdate) (l : list ProcessingJob)
    (j : ProcessingJob) :
  jobId j <> b -> In j l ->
  In j (List.map (fun job => if eqb (jobId job) b then merge job u else job) l).
Proof.
  intros Hne Hin. apply in_map_iff. exists j. split; [|exact Hin].
  apply eqb_neq in Hne. rewrite Hne. reflexivity.
Qed.

End JobPolls.

(** X26. [cancelJob]: when the request succeeds, every job of the id is
    cancelled and none of them is among the active jobs any more, the ids
    of the collection keep their places, the other jobs are the ones that
    were there, and the error of the store is untouched; when the request
    is refused or rejected, nothing is thrown, the jobs are untouched and
    the store shows the message of the response or of the error, else
    [Failed to cancel job]. *)
Theorem cancelJob_cancels_or_reports
    (id : jsstring) (st : Tests.TestState) (m : option jsstring) :
  let done := TestActions.cancelJob (TestActions.Succeeded tt) id st in
  let refused := TestActions.cancelJob (TestActions.Refused m) id st in
  let rejected := TestActions.cancelJob (TestActions.Failed m) id st in
  Tests.jobIds done = Tests.jobIds st
  /\ (forall j, In j (Tests.processingJobs done) -> Tests.jobId j = id ->
      Tests.status j = Tests.cancelled)
  /\ (forall j, Tests.jobId j <> id ->
      (In j (Tests.processingJobs done) <-> In j (Tests.processingJobs st)))
  /\ (forall j, In j (TestActions.useActiveJobs done) -> Tests.jobId j <> id)
  /\ Tests.jobsError done = Tests.jobsError st
  /\ Tests.processingJobs refused = Tests.processingJobs st
  /\ Tests.jobsError refused
     = Some (TestActions.messageOr m "Failed to cancel job")
  /\ Tests.processingJobs rejected = Tests.processingJobs st
  /\ Tests.jobsError rejected
     = Some (TestActions.thrownOr m "Failed to cancel job").
Proof.
  intros done refused rejected.
  assert (Hc : forall j, In j (Tests.processingJobs done) -> Tests.jobId j = id ->
                 Tests.status j = Tests.cancelled).
  { intros j Hin Hid. unfold done, TestActions.cancelJob in Hin.
    rewrite updateJobStatus_jobs in Hin.
    destruct (merged_in _ _ _ _ Hin) as [(j0 & _ & _ & E)|[_ Hne]];
      [subst j; reflexivity|contradiction]. }
  split; [|split; [exact Hc|split; [|split; [|repeat split]]]].
  - unfold done, TestActions.cancelJob, Tests.jobIds.
    rewrite updateJobStatus_jobs, map_map. apply map_ext. intros j.
    destruct (eqb (Tests.jobId j) id); reflexivity.
  - intros j Hne. unfold done, TestActions.cancelJob.
    rewrite updateJobStatus_jobs. split.
    + intros Hin.
      destruct (merged_in _ _ _ _ Hin) as [(j0 & _ & Hid & E)|[H _]]; [|exact H].
      subst j. exfalso. apply Hne. exact Hid.
    + apply kept_in. exact Hne.
  - intros j Hin Hid. unfold TestActions.useActiveJobs in Hin.
    apply filter_In in Hin. destruct Hin as [Hin Hact].
    unfold TestActions.isActive in Hact. rewrite (Hc j Hin Hid) in Hact.
    discriminate.
Qed.

(** X27. [monitorJob]: a successful poll makes every job of the id show
    what the response says, status, progress, step and the id of the
    response included, so that a job that was stored under the id is found
    under the id of the response; the other jobs are kept and the
    collection keeps its length. A poll that is refused or rejected
    changes nothing in the store, not even its error. *)
Theorem monitorJob_refreshes
    (id : jsstring) (data : Tests.ProcessingJob) (st : Tests.TestState)
    (m : option jsstring) :
  let done := TestActions.monitorJob (TestActions.Succeeded data) id st in
  List.length (Tests.processingJobs done) = List.length (Tests.processingJobs st)
  /\ (forall j, In j (Tests.processingJobs done) -> Tests.jobId j = id ->
      Tests.status j = Tests.status data
      /\ Tests.progress j = Tests.progress data
      /\ Tests.currentStep j = Tests.currentStep data
      /\ Tests.updatedAt j = Tests.updatedAt data)
  /\ (forall j, Tests.jobId j <> id -> In j (Tests.processingJobs st) ->
      In j (Tests.processingJobs done))
  /\ (In id (Tests.jobIds st) -> In (Tests.jobId data) (Tests.jobIds done))
  /\ TestActions.monitorJob (TestActions.Refused m) id st = st
  /\ TestActions.monitorJob (TestActions.Failed m) id st = st.
Proof.
  intros done. unfold done, TestActions.monitorJob.
  rewrite updateJobStatus_jobs. repeat split.
  - apply length_map.
  - destruct (merged_in _ _ _ _ H) as [(j0 & _ & _ & E)|[_ Hne]];
      [subst j; reflexivity|contradiction].
  - destruct (merged_in _ _ _ _ H) as [(j0 & _ & _ & E)|[_ Hne]];
      [subst j; reflexivity|contradiction].
  - destruct (merged_in _ _ _ _ H) as [(j0 & _ & _ & E)|[_ Hne]];
      [subst j; reflexivity|contradiction].
  - destruct (merged_in _ _ _ _ H) as [(j0 & _ & _ & E)|[_ Hne]];
      [subst j; reflexivity|contradiction].
  - intros j Hne Hin. apply kept_in; assumption.
  - intros Hin. unfold Tests.jobIds in *. apply in_map_iff in Hin.
    destruct Hin as (j0 & Hid & Hin). apply in_map_iff.
    exists (Tests.merge j0 (Tests.asUpdate data)). split; [reflexivity|].
    apply in_map_iff. exists j0. split; [|exact Hin].
    subst id. cbn [opt_eqb]. rewrite eqb_refl. reflexivity.
Qed.

Section SessionFacts.

Import Chat Session.

(** Where [touchWhere] leaves the first conversation of an id. *)
Lemma touchWhere_find_any (cid : option jsstring)
    (g : list Message.t -> list Message.t) (x : jsstring) :
  forall (l : list Conversation.t) (w : World),
    match find (fun c => eqb (Conversation.id c) x) l with
    | None =>
        find (fun c => eqb (Conversation.id c) x) (fst (touchWhere cid g l w)) = None
    | Some c =>
        exists c',
          find (fun c => eqb (Conversation.id c) x) (fst (touchWhere cid g l w))
            = Some c'
          /\ Conversation.id c' = Conversation.id c
          /\ Conversation.messages c'
             = if opt_eqb (Some x) cid then g (Conversation.messages c)
               else Conversation.messages c
    end.
Proof.
  induction l as [|a l IH]; intros w; [reflexivity|].
  rewrite touchWhere_cons. cbn [find].
  destruct (eqb (Conversation.id a) x) eqn:Ea.
  - apply eqb_eq in Ea. subst x.
    destruct (opt_eqb (Some (Conversation.id a)) cid) eqn:Ec.
    + unfold touch. cbn [Date_now].
      destruct (touchWhere cid g l _) as [l' w2]. cbn [fst find Conversation.id].
      rewrite eqb_refl. eexists. split; [reflexivity|]. split; reflexivity.
    + destruct (touchWhere cid g l w) as [l' w2]. cbn [fst find].
      rewrite eqb_refl. exists a. repeat split.
  - destruct (opt_eqb (Some (Conversation.id a)) cid) eqn:Ec.
    + unfold touch. cbn [Date_now].
      specialize (IH (snd (Date_now w))). cbn [Date_now snd] in IH.
      destruct (touchWhere cid g l _) as [l' w2]. cbn [fst find Conversation.id] in *.
      rewrite Ea. exact IH.
    + specialize (IH w). destruct (touchWhere cid g l w) as [l' w2].
      cbn [fst find] in *. rewrite Ea. exact IH.
Qed.

(** [Synced] reads the conversations, the current conversation and the
    current id only. *)
Lemma Synced_ext (st st' : ChatState) :
  conversations st' = conversations st ->
  currentConversation st' = currentConversation st ->
  currentConversationId st' = currentConversationId st ->
  Synced st -> Synced st'.
Proof.
  unfold Synced, Observe.findConversation. intros H1 H2 H3 H.
  rewrite H1, H2, H3. exact H.
Qed.

Lemma replaceStreaming_Synced (sm m' : Message.t) (next : option Message.t)
    (e : Env) :
  Synced (fst e) -> Synced (fst (replaceStreaming sm m' next e)).
Proof.
  destruct e as [st w]. cbn [fst]. unfold Synced, replaceStreaming. intros H.
  pose proof (touchWhere_find_any (currentConversationId st)
                (replaceMessage (Message.id sm) m')) as T.
  destruct (currentConversation st) as [cur|] eqn:Ecur.
  - destruct H as (Hid & c & Hf & Hm).
    specialize (T (Conversation.id cur) (conversations st) w).
    unfold Observe.findConversation in Hf. rewrite Hf in T.
    destruct T as (c' & Hf' & Hi' & Hm').
    rewrite Hid in Hm'. cbn [opt_eqb] in Hm'. rewrite eqb_refl in Hm'.
    destruct (touchWhere _ _ (conversations st) w) as [convs w1].
    unfold touch. cbn [Date_now fst].
    cbn [fst currentConversation currentConversationId set_currentConversation
         set_conversations set_streamingMessage Conversation.id
         Conversation.messages].
    split; [exact Hid|]. exists c'. unfold Observe.findConversation.
    cbn [conversations set_currentConversation set_conversations].
    cbn [fst] in Hf'. split; [exact Hf'|]. rewrite Hm', Hm. reflexivity.
  - destruct (touchWhere _ _ (conversations st) w) as [convs w1].
    cbn [fst currentConversation currentConversationId set_currentConversation
         set_conversations set_streamingMessage]. exact H.
Qed.

Lemma addMessageToConversation_Synced (cid : option jsstring) (m : Message.t)
    (e : Env) :
  Synced (fst e) -> Synced (fst (fst (addMessageToConversation cid m e))).
Proof.
  destruct e as [st w]. cbn [fst]. unfold Synced, addMessageToConversation.
  intros H.
  pose proof (touchWhere_find_any cid (fun ms => ms ++ [m])) as T.
  destruct (currentConversation st) as [cur|] eqn:Ecur.
  - destruct H as (Hid & c & Hf & Hm).
    specialize (T (Conversation.id cur) (conversations st) w).
    unfold Observe.findConversation in Hf. rewrite Hf in T.
    destruct T as (c' & Hf' & Hi' & Hm').
    rewrite Hid.
    destruct (touchWhere cid _ (conversations st) w) as [convs w1].
    cbn [fst] in Hf'.
    destruct (opt_eqb (Some (Conversation.id cur)) cid) eqn:Ec.
    + unfold touch. cbn [Date_now fst].
      cbn [fst currentConversation currentConversationId set_currentConversation
           set_conversations Conversation.id Conversation.messages].
      split; [exact Hid|]. exists c'. unfold Observe.findConversation.
      cbn [conversations set_currentConversation set_conversations].
      split; [exact Hf'|]. rewrite Hm', Hm. reflexivity.
    + cbn [fst currentConversation currentConversationId set_currentConversation
           set_conversations].
      split; [exact Hid|]. exists c'. unfold Observe.findConversation.
      cbn [conversations set_currentConversation set_conversations].
      split; [exact Hf'|]. rewrite Hm', Hm. reflexivity.
  - destruct (touchWhere cid _ (conversations st) w) as [convs w1].
    destruct (opt_eqb (currentConversationId st) cid).
    + cbn [fst]. rewrite Ecur. exact H.
    + cbn [fst currentConversation currentConversationId set_currentConversation
           set_conversations]. exact H.
Qed.

Lemma act_Synced (a : Action) (e : Env) : Synced (fst e) -> Synced (fst (act a e)).
Proof.
  destruct e as [st w]. destruct a; cbn [act]; intros H; cbn [fst] in H.
  - (* createNewConversation *)
    unfold ChatActions.createNewConversation, createConversation, Synced.
    cbn. unfold Observe.findConversation. cbn. rewrite eqb_refl.
    split; [reflexivity|]. eexists. split; reflexivity.
  - (* setCurrentConversation *)
    unfold ChatActions.setCurrentConversation.
    destruct (negb (truthy_opt conversationId)); [reflexivity|].
    destruct (find _ (conversations st)) as [c|] eqn:Ef; [|exact H].
    pose proof (find_some _ _ Ef) as [_ Hc].
    destruct conversationId as [x|]; [|discriminate]. cbn [opt_eqb] in Hc.
    apply eqb_eq in Hc. subst x. unfold Synced. cbn.
    split; [reflexivity|]. exists c. split; [|reflexivity].
    unfold Observe.findConversation. cbn. cbn [opt_eqb] in Ef. exact Ef.
  - reflexivity.
  - revert H. apply Synced_ext; reflexivity.
  - (* deleteConversation *)
    unfold ChatActions.deleteConversation.
    destruct rejected as [err|]; cbn [snd fst].
    + revert H. apply Synced_ext; reflexivity.
    + destruct (opt_eqb (currentConversationId st) (Some conversationId)) eqn:E;
        [reflexivity|].
      unfold Synced in *. cbn.
      destruct (currentConversation st) as [cur|]; [|exact H].
      destruct H as (Hid & c & Hf & Hm). split; [exact Hid|]. exists c.
      split; [|exact Hm]. unfold Observe.findConversation in *. cbn.
      rewrite find_filter_other; [exact Hf|].
      rewrite Hid in E. cbn [opt_eqb] in E. apply eqb_neq. exact E.
  - (* clearAllConversations *)
    unfold ChatActions.clearAllConversations.
    destruct rejected as [err|]; cbn [snd fst]; [|reflexivity].
    revert H. apply Synced_ext; reflexivity.
  - apply (addMessageToConversation_Synced _ _ (st, w) H).
  - (* updateStreamingMessage *)
    unfold updateStreamingMessage.
    destruct (streamingMessage st) as [sm|]; [|exact H].
    destruct (negb (truthy_opt (currentConversationId st))); [exact H|].
    apply replaceStreaming_Synced. exact H.
  - unfold completeStreamingMessage.
    destruct (streamingMessage st) as [sm|]; [|exact H].
    destruct (negb (truthy_opt (currentConversationId st))); [exact H|].
    apply replaceStreaming_Synced. exact H.
  - revert H. unfold stopStreaming. cbn [fst].
    apply Synced_ext; destruct (sseClient st); reflexivity.
  - revert H. apply Synced_ext; reflexivity.
Qed.

End SessionFacts.

(** X28. The current conversation stays in step with the list. Whatever
    sequence of the synchronous actions of the store runs, from creating,
    selecting, clearing and deleting conversations to adding a message,
    updating and completing the streaming message and stopping the
    stream: when there is a current conversation, the current id is its
    id and the first conversation of the list with that id holds the same
    messages; when there is none, there is no current id. *)
Theorem current_conversation_stays_in_sync
    (l : list Session.Action) (e : Chat.Env)
    (H : Session.Synced (fst e)) :
  Session.Synced (fst (Session.acts l e)).
Proof.
  revert e H. unfold Session.acts.
  induction l as [|a l IH]; intros e H; [exact H|].
  cbn [fold_left]. apply IH. apply act_Synced. exact H.
Qed.

Lemma current_conversation_stays_in_sync_witness :
  Session.Synced
    (fst (Session.acts
            [Session.CreateNewConversation;
             Session.AddMessageToConversation
               (Some (Fresh.userId Sample.world0))
               (Fresh.userMessage (str "hi") Sample.world0);
             Session.CreateNewConversation;
             Session.SetCurrentConversation (Some (Fresh.userId Sample.world0));
             Session.DeleteConversation None (Fresh.conversationId Sample.world0)]
            (Chat.initialState, Sample.world0))).
Proof.
  apply (current_conversation_stays_in_sync
           [Session.CreateNewConversation;
             Session.AddMessageToConversation
               (Some (Fresh.userId Sample.world0))
               (Fresh.userMessage (str "hi") Sample.world0);
             Session.CreateNewConversation;
             Session.SetCurrentConversation (Some (Fresh.userId Sample.world0));
             Session.DeleteConversation None (Fresh.conversationId Sample.world0)]
           (Chat.initialState, Sample.world0)).
  reflexivity.
Defined.


